(** * NYC congestion pricing audit: [pipeline.py] and [scraper.py]

    A shallow embedding of [detect_ghost_trips], [analyze_congestion_zone],
    [create_summary_stats] and [main] of [pipeline.py], of
    [TLCScraper.download_month] and [TLCScraper.process_file] of
    [scraper.py], together with the pandas operations they are written
    with.

    - float64 columns are Rocq's primitive binary64 floats, so a null is
      [nan] and every comparison with it is false, as in pandas;
    - a DataFrame is a list of column names and a list of rows; the
      functions work on whole columns (boolean masks, boolean indexing),
      as the code does;
    - DataFrames that are passed between functions live in a heap of
      objects and are handled through references, because
      [analyze_congestion_zone] assigns columns to the object it is given;
    - [print] appends a structured line to the standard output;
    - Python exceptions are the [Raises] outcome of the monad [M]. *)

From Stdlib Require Import Floats ZArith QArith Lia List Permutation Sorted Ascii.
From stdpp Require Import base option list strings gmap pretty.

Local Open Scope Z_scope.

(** ** Values *)

(** datetime64[ns]: nanoseconds since the epoch, or NaT. *)
Inductive Timestamp :=
| NaT
| Ts (ns : Z).

(** One record of the trip table.  The first fourteen fields are the
    columns written by [TLCScraper.process_file]; the last three are the
    columns assigned by [analyze_congestion_zone]. *)
Record Row := mkRow {
  pickup_time : Timestamp;
  dropoff_time : Timestamp;
  pickup_loc : Z;
  dropoff_loc : Z;
  trip_distance : float;
  fare : float;
  total_amount : float;
  congestion_surcharge : float;
  tip : float;
  hour : Z;
  day_of_week : Z;
  month : Z;
  trip_duration : float;
  avg_speed : float;
  pickup_in_zone : bool;
  dropoff_in_zone : bool;
  enters_zone : bool
}.

(** A DataFrame: the names of the columns it has, and its records in
    order.  A field of a row whose column is not in [columns] cannot be
    read: [getitem] raises KeyError for it. *)
Record DataFrame := mkDF {
  columns : list string;
  rows : list Row
}.

(** A column label together with the field it denotes. *)
Record Column (A : Type) := mkColumn {
  cname : string;
  cget : Row -> A
}.
Arguments mkColumn {A} _ _.
Arguments cname {A} _.
Arguments cget {A} _ _.

Module Col.
Definition pickup_time := mkColumn "pickup_time" pickup_time.
Definition pickup_loc := mkColumn "pickup_loc" pickup_loc.
Definition dropoff_loc := mkColumn "dropoff_loc" dropoff_loc.
Definition trip_distance := mkColumn "trip_distance" trip_distance.
Definition fare := mkColumn "fare" fare.
Definition total_amount := mkColumn "total_amount" total_amount.
Definition congestion_surcharge :=
  mkColumn "congestion_surcharge" congestion_surcharge.
Definition trip_duration := mkColumn "trip_duration" trip_duration.
Definition avg_speed := mkColumn "avg_speed" avg_speed.
Definition pickup_in_zone := mkColumn "pickup_in_zone" pickup_in_zone.
Definition dropoff_in_zone := mkColumn "dropoff_in_zone" dropoff_in_zone.
Definition enters_zone := mkColumn "enters_zone" enters_zone.
End Col.

(** ** Exceptions, output and the object heap *)

Inductive exn :=
| KeyError (key : string)
| ZeroDivisionError
| FileNotFoundError (path : string)
| ArrowInvalid (path : string)   (* the file is not a parquet file *)
| DanglingRef.   (* a reference outside the heap; Python has none *)

(** The lines the program prints, with what they interpolate. *)
Inductive line :=
| PAlreadyExists (filename : string)
| PDownloading (filename : string)
| PDownloaded (filename : string)
| PError
| PProcessing (name : string)
| PColumns (cols : list string)
| PSaved (path : string)
| PDetecting
| PSpeed (n : nat)
| PTeleport (n : nat)
| PStationary (n : nat)
| PTotalRemoved (n : nat) (percent : Q)
| PAnalyzing
| PZoneEntries (n : nat)
| PCompliant (n : nat)
| PComplianceRate (rate : Q)
| PTopLeakageHeader
| PLeakage (loc : Z) (count : nat)
| PSummaryHeader
| PTotalTrips (n : nat)
| PAverageFare
| PAverageDistance
| PAverageSpeed
| PTotalRevenue
| PTotalSurcharge
| PLoaded (n : nat)
| PText (text : string).

Definition ref := nat.

Record world := mkWorld {
  heap : list DataFrame;
  stdout : list line;
  files : gmap string DataFrame
}.

Inductive outcome (A : Type) :=
| Returns (a : A)
| Raises (e : exn).
Arguments Returns {A} _.
Arguments Raises {A} _.

Definition M (A : Type) : Type := world -> outcome A * world.

Definition ret {A} (a : A) : M A := fun w => (Returns a, w).

Definition bind {A B} (m : M A) (k : A -> M B) : M B :=
  fun w =>
    match m w with
    | (Returns a, w') => k a w'
    | (Raises e, w') => (Raises e, w')
    end.

Definition raise {A} (e : exn) : M A := fun w => (Raises e, w).

Declare Scope py_scope.
Delimit Scope py_scope with py.
Notation "x <- m ; k" := (bind m (fun x => k))
  (at level 100, m at next level, right associativity) : py_scope.
Notation "m ;; k" := (bind m (fun _ => k))
  (at level 100, right associativity) : py_scope.

Definition lift {A} (o : outcome A) : M A := fun w => (o, w).

Definition print (l : line) : M unit :=
  fun w => (Returns tt, mkWorld (heap w) (stdout w ++ [l]) (files w)).

Definition load (r : ref) : M DataFrame :=
  fun w =>
    match heap w !! r with
    | Some fr => (Returns fr, w)
    | None => (Raises DanglingRef, w)
    end.

(** A new object: its reference is the next free one. *)
Definition alloc (fr : DataFrame) : M ref :=
  fun w => (Returns (length (heap w)),
            mkWorld (heap w ++ [fr]) (stdout w) (files w)).

(** Update of the object behind [r], seen through every alias of [r]. *)
Definition modify (r : ref) (f : DataFrame -> DataFrame) : M unit :=
  fun w =>
    match heap w !! r with
    | Some fr => (Returns tt, mkWorld (<[r := f fr]> (heap w)) (stdout w) (files w))
    | None => (Raises DanglingRef, w)
    end.

(** ** pandas *)

Definition has_column (fr : DataFrame) (name : string) : bool :=
  bool_decide (name ∈ columns fr).

(** [fr[name]]: the column as a Series, or KeyError. *)
Definition getitem {A} (fr : DataFrame) (c : Column A) : outcome (list A) :=
  if has_column fr (cname c) then Returns (map (cget c) (rows fr))
  else Raises (KeyError (cname c)).

(** [fr[mask]]: the rows whose mask entry is True, in order, in a new frame. *)
Fixpoint select {A} (l : list A) (mask : list bool) : list A :=
  match l, mask with
  | x :: l', b :: mask' => if b then x :: select l' mask' else select l' mask'
  | _, _ => []
  end.

Definition bool_index (fr : DataFrame) (mask : list bool) : DataFrame :=
  mkDF (columns fr) (select (rows fr) mask).

Definition len (fr : DataFrame) : nat := length (rows fr).

(** Comparison of a float64 Series with a scalar. *)
Definition gt_scalar (s : list float) (c : float) : list bool :=
  map (fun x => PrimFloat.ltb c x) s.
Definition lt_scalar (s : list float) (c : float) : list bool :=
  map (fun x => PrimFloat.ltb x c) s.
Definition eq_scalar (s : list float) (c : float) : list bool :=
  map (fun x => PrimFloat.eqb x c) s.

(** [&], [|] and [~] on boolean Series. *)
Definition mask_and (a b : list bool) : list bool := zip_with andb a b.
Definition mask_or (a b : list bool) : list bool := zip_with orb a b.
Definition mask_not (a : list bool) : list bool := map negb a.

(** [mask.sum()]: the number of True entries. *)
Definition mask_sum (a : list bool) : nat := length (List.filter id a).

(** Python's [/] on two lengths.  The quotient is kept exact; Python
    rounds it to the nearest float64. *)
Definition truediv (a b : nat) : outcome Q :=
  match b with
  | O => Raises ZeroDivisionError
  | S _ => Returns (Z.of_nat a # Pos.of_nat b)
  end.

(** ** [detect_ghost_trips] *)

Local Open Scope py_scope.

Definition detect_ghost_trips (df : ref) : M (ref * ref) :=
  print PDetecting ;;
  fr <- load df ;
  (* 1. Impossible speed (>65 MPH) *)
  speed <- lift (getitem fr Col.avg_speed) ;
  let mask_speed := gt_scalar speed 65%float in
  let speed_count := mask_sum mask_speed in
  (* 2. Teleporter (<1 min, >$20 fare) *)
  duration <- lift (getitem fr Col.trip_duration) ;
  fare1 <- lift (getitem fr Col.fare) ;
  let mask_teleport := mask_and (lt_scalar duration 1%float) (gt_scalar fare1 20%float) in
  let teleport_count := mask_sum mask_teleport in
  (* 3. Stationary (0 distance, >$0 fare) *)
  distance <- lift (getitem fr Col.trip_distance) ;
  fare2 <- lift (getitem fr Col.fare) ;
  let mask_stationary := mask_and (eq_scalar distance 0%float) (gt_scalar fare2 0%float) in
  let stationary_count := mask_sum mask_stationary in
  (* Combine *)
  let ghost_mask := mask_or (mask_or mask_speed mask_teleport) mask_stationary in
  let ghost_fr := bool_index fr ghost_mask in
  ghost_df <- alloc ghost_fr ;
  clean_df <- alloc (bool_index fr (mask_not ghost_mask)) ;
  print (PSpeed speed_count) ;;
  print (PTeleport teleport_count) ;;
  print (PStationary stationary_count) ;;
  ratio <- lift (truediv (len ghost_fr) (len fr)) ;
  print (PTotalRemoved (len ghost_fr) (ratio * 100)%Q) ;;
  ret (clean_df, ghost_df).

(** ** The congestion zone *)

(** Congestion Zone: Manhattan South of 60th St *)
Definition CONGESTION_ZONE_IDS : list Z := [
    4; 12; 13; 24; 41; 42; 43; 45; 48; 50; 68; 74; 75; 79; 87; 88; 90; 100; 103;
    107; 113; 114; 116; 120; 125; 127; 128; 137; 140; 141; 142; 143; 144; 148; 151;
    152; 153; 158; 161; 162; 163; 164; 166; 170; 186; 194; 202; 209; 211; 224; 229;
    230; 231; 232; 233; 234; 236; 237; 238; 239; 243; 244; 246; 249; 261; 262; 263
].

(** [s.isin(values)] on an integer Series. *)
Definition isin (s : list Z) (values : list Z) : list bool :=
  map (fun x => existsb (Z.eqb x) values) s.

(** Days from 1970-01-01 to the civil date [y]-[m]-[d]. *)
Definition days_from_civil (y m d : Z) : Z :=
  let y' := if m <=? 2 then y - 1 else y in
  let era := y' / 400 in
  let yoe := y' - era * 400 in
  let doy := (153 * (if 2 <? m then m - 3 else m + 9) + 2) / 5 + d - 1 in
  let doe := yoe * 365 + yoe / 4 - yoe / 100 + doy in
  era * 146097 + doe - 719468.

(** The Timestamp pandas makes of a date string: midnight of that day. *)
Definition date_ns (y m d : Z) : Z := days_from_civil y m d * 86400 * 1000000000.

(** [s >= date]: NaT compares false. *)
Definition ge_date (s : list Timestamp) (t : Z) : list bool :=
  map (fun x => match x with NaT => false | Ts ns => t <=? ns end) s.

(** [fr[name] = vals]: replaces the column if the frame has it, appends it
    after the others if not; the values are taken by position. *)
Definition setitem {A} (c : Column A) (upd : A -> Row -> Row)
    (vals : list A) (fr : DataFrame) : DataFrame :=
  mkDF (if has_column fr (cname c) then columns fr else columns fr ++ [cname c])
       (zip_with upd vals (rows fr)).

Definition with_pickup_in_zone (b : bool) (r : Row) : Row :=
  mkRow (pickup_time r) (dropoff_time r) (pickup_loc r) (dropoff_loc r)
        (trip_distance r) (fare r) (total_amount r) (congestion_surcharge r)
        (tip r) (hour r) (day_of_week r) (month r) (trip_duration r)
        (avg_speed r) b (dropoff_in_zone r) (enters_zone r).

Definition with_dropoff_in_zone (b : bool) (r : Row) : Row :=
  mkRow (pickup_time r) (dropoff_time r) (pickup_loc r) (dropoff_loc r)
        (trip_distance r) (fare r) (total_amount r) (congestion_surcharge r)
        (tip r) (hour r) (day_of_week r) (month r) (trip_duration r)
        (avg_speed r) (pickup_in_zone r) b (enters_zone r).

Definition with_enters_zone (b : bool) (r : Row) : Row :=
  mkRow (pickup_time r) (dropoff_time r) (pickup_loc r) (dropoff_loc r)
        (trip_distance r) (fare r) (total_amount r) (congestion_surcharge r)
        (tip r) (hour r) (day_of_week r) (month r) (trip_duration r)
        (avg_speed r) (pickup_in_zone r) (dropoff_in_zone r) b.

(** [s.groupby(key).size()]: one entry per distinct key with the number
    of its records, the keys in ascending order (groupby sorts them). *)
Fixpoint count_key (k : Z) (acc : list (Z * nat)) : list (Z * nat) :=
  match acc with
  | [] => [(k, 1%nat)]
  | (k', n) :: rest =>
      if k <? k' then (k, 1%nat) :: acc
      else if k =? k' then (k', S n) :: rest
      else (k', n) :: count_key k rest
  end.

Definition groupby_size (keys : list Z) : list (Z * nat) :=
  foldr count_key [] keys.

(** [s.nlargest(n)] with the default [keep='first']: the [n] largest
    values in descending order, equal values in their order in [s]. *)
Fixpoint insert_desc (x : Z * nat) (l : list (Z * nat)) : list (Z * nat) :=
  match l with
  | [] => [x]
  | y :: l' =>
      if (x.2 <? y.2)%nat then y :: insert_desc x l' else x :: l
  end.

Definition sort_desc (s : list (Z * nat)) : list (Z * nat) :=
  foldr insert_desc [] s.

Definition nlargest (n : nat) (s : list (Z * nat)) : list (Z * nat) :=
  take n (sort_desc s).

(** A [for] loop over a list. *)
Fixpoint for_each {A} (l : list A) (body : A -> M unit) : M unit :=
  match l with
  | [] => ret tt
  | x :: l' => body x ;; for_each l' body
  end.

(** ** [analyze_congestion_zone] *)

Definition analyze_congestion_zone (df : ref) : M ref :=
  print PAnalyzing ;;
  (* Flag zone trips *)
  fr0 <- load df ;
  ploc <- lift (getitem fr0 Col.pickup_loc) ;
  modify df (setitem Col.pickup_in_zone with_pickup_in_zone
               (isin ploc CONGESTION_ZONE_IDS)) ;;
  fr1 <- load df ;
  dloc <- lift (getitem fr1 Col.dropoff_loc) ;
  modify df (setitem Col.dropoff_in_zone with_dropoff_in_zone
               (isin dloc CONGESTION_ZONE_IDS)) ;;
  fr2 <- load df ;
  piz <- lift (getitem fr2 Col.pickup_in_zone) ;
  diz <- lift (getitem fr2 Col.dropoff_in_zone) ;
  modify df (setitem Col.enters_zone with_enters_zone
               (mask_and (mask_not piz) diz)) ;;
  (* Post-toll analysis (after Jan 5, 2025) *)
  fr3 <- load df ;
  ptime <- lift (getitem fr3 Col.pickup_time) ;
  let post_toll := bool_index fr3 (ge_date ptime (date_ns 2025 1 5)) in
  ez <- lift (getitem post_toll Col.enters_zone) ;
  let zone_entries := bool_index post_toll ez in
  (if (0 <? len zone_entries)%nat then
     surcharge <- lift (getitem zone_entries Col.congestion_surcharge) ;
     let compliant := bool_index zone_entries (gt_scalar surcharge 0%float) in
     compliance_rate <- lift (truediv (len compliant) (len zone_entries)) ;
     print (PZoneEntries (len zone_entries)) ;;
     print (PCompliant (len compliant)) ;;
     print (PComplianceRate compliance_rate) ;;
     (* Top leakage locations *)
     surcharge' <- lift (getitem zone_entries Col.congestion_surcharge) ;
     let non_compliant := bool_index zone_entries (eq_scalar surcharge' 0%float) in
     if (0 <? len non_compliant)%nat then
       keys <- lift (getitem non_compliant Col.pickup_loc) ;
       let top_leakage := nlargest 3 (groupby_size keys) in
       print PTopLeakageHeader ;;
       for_each top_leakage (fun x => print (PLeakage x.1 x.2))
     else ret tt
   else ret tt) ;;
  ret df.

(** ** [create_summary_stats] and the parquet files *)

(** The means and sums are floating-point reductions; the lines that
    print them are kept, their numbers are not. *)
Definition create_summary_stats (df : ref) : M unit :=
  print PSummaryHeader ;;
  fr <- load df ;
  print (PTotalTrips (len fr)) ;;
  _ <- lift (getitem fr Col.fare) ;
  print PAverageFare ;;
  _ <- lift (getitem fr Col.trip_distance) ;
  print PAverageDistance ;;
  _ <- lift (getitem fr Col.avg_speed) ;
  print PAverageSpeed ;;
  _ <- lift (getitem fr Col.total_amount) ;
  print PTotalRevenue ;;
  if has_column fr "congestion_surcharge" then
    _ <- lift (getitem fr Col.congestion_surcharge) ;
    print PTotalSurcharge
  else ret tt.

Definition read_parquet (path : string) : M ref :=
  fun w =>
    match files w !! path with
    | Some fr => alloc fr w
    | None => (Raises (FileNotFoundError path), w)
    end.

Definition to_parquet (df : ref) (path : string) : M unit :=
  fr <- load df ;
  fun w => (Returns tt, mkWorld (heap w) (stdout w) (<[path := fr]> (files w))).

(** ** The scraper's derived column *)

(** [avg_speed = trip_distance / (trip_duration / 60)] in [process_file]. *)
Definition compute_avg_speed (distance duration : float) : float :=
  (distance / (duration / 60))%float.

(** * The analysis, record by record

    What the column-wise code computes, written per record: the
    statements below are in these terms, and the lemmas of the next part
    relate them to the code. *)

(** ** The three rules on one record *)

(** The entry of each of the three masks for the record, and of their
    union. *)
Definition rule_speed (r : Row) : bool := PrimFloat.ltb 65 (avg_speed r).
Definition rule_teleport (r : Row) : bool :=
  PrimFloat.ltb (trip_duration r) 1 && PrimFloat.ltb 20 (fare r).
Definition rule_stationary (r : Row) : bool :=
  PrimFloat.eqb (trip_distance r) 0 && PrimFloat.ltb 0 (fare r).
Definition is_ghost (r : Row) : bool :=
  rule_speed r || rule_teleport r || rule_stationary r.

(** At least one of the three rules is true of the record. *)
Definition some_rule_true (r : Row) : Prop :=
  PrimFloat.ltb 65 (avg_speed r) = true \/
  (PrimFloat.ltb (trip_duration r) 1 = true /\ PrimFloat.ltb 20 (fare r) = true) \/
  (PrimFloat.eqb (trip_distance r) 0 = true /\ PrimFloat.ltb 0 (fare r) = true).

(** The frame has every one of the columns. *)
Definition has_columns (fr : DataFrame) (names : list string) : bool :=
  forallb (has_column fr) names.

(** The columns the classifier reads. *)
Definition classifier_columns : list string :=
  ["avg_speed"; "trip_duration"; "fare"; "trip_distance"].

(** The two tables of the partition. *)
Definition ghost_frame (fr : DataFrame) : DataFrame :=
  mkDF (columns fr) (List.filter is_ghost (rows fr)).
Definition clean_frame (fr : DataFrame) : DataFrame :=
  mkDF (columns fr) (List.filter (fun r => negb (is_ghost r)) (rows fr)).

(** What the classifier prints before the line with the ghost fraction. *)
Definition rule_counts (fr : DataFrame) : list line :=
  [PDetecting;
   PSpeed (length (List.filter rule_speed (rows fr)));
   PTeleport (length (List.filter rule_teleport (rows fr)));
   PStationary (length (List.filter rule_stationary (rows fr)))].

(** The classifier up to its last [print]: the two new objects and the
    three counts are there whatever the length of the table. *)
Definition detect_world (w : world) (fr : DataFrame) (out : list line) : world :=
  mkWorld (heap w ++ [ghost_frame fr; clean_frame fr])
          (stdout w ++ rule_counts fr ++ out) (files w).

(** ** Sample tables *)

Module Sample.
(** The columns [process_file] writes. *)
Definition schema : list string :=
  ["pickup_time"; "dropoff_time"; "pickup_loc"; "dropoff_loc";
   "trip_distance"; "fare"; "total_amount"; "congestion_surcharge"; "tip";
   "hour"; "day_of_week"; "month"; "trip_duration"; "avg_speed"].

(** A trip of 2025-01-06 from zone [pu] to zone [do]. *)
Definition trip (pu do : Z) (speed duration fare distance surcharge : float) : Row :=
  mkRow (Ts (date_ns 2025 1 6)) (Ts (date_ns 2025 1 6)) pu do
        distance fare fare surcharge 0%float 0 0 1 duration speed
        false false false.

Definition speeding := trip 1 4 70 10 15 5 0.
Definition teleport := trip 1 4 30 0.5 25 1 0.
Definition stationary := trip 1 4 0 5 8 0 0.
Definition plain := trip 1 4 20 15 30 5 0.
Definition unknown_speed := trip 1 4 nan 15 30 5 0.
Definition zero_duration := trip 1 4 (compute_avg_speed 5 0) 0 15 5 0.

Definition table (l : list Row) : DataFrame := mkDF schema l.

(** A process whose only object is one table, with reference 0. *)
Definition world_of (fr : DataFrame) : world := mkWorld [fr] [] ∅.
End Sample.

(** ** The flags and the report of the analyzer *)

(** Membership in the zone set, as [isin] tests it. *)
Definition in_zone (loc : Z) : bool := existsb (Z.eqb loc) CONGESTION_ZONE_IDS.

(** The record with its three flags assigned. *)
Definition flag_row (r : Row) : Row :=
  with_enters_zone
    (negb (in_zone (pickup_loc r)) && in_zone (dropoff_loc r))
    (with_dropoff_in_zone (in_zone (dropoff_loc r))
       (with_pickup_in_zone (in_zone (pickup_loc r)) r)).

(** The column names after an assignment to [name]. *)
Definition add_column (name : string) (cols : list string) : list string :=
  if bool_decide (name ∈ cols) then cols else cols ++ [name].

(** The table after the three assignments. *)
Definition flagged (fr : DataFrame) : DataFrame :=
  mkDF (add_column "enters_zone"
          (add_column "dropoff_in_zone"
             (add_column "pickup_in_zone" (columns fr))))
       (map flag_row (rows fr)).

(** [pickup_time >= '2025-01-05'] on one record. *)
Definition post_toll_row (r : Row) : bool :=
  match pickup_time r with
  | NaT => false
  | Ts ns => date_ns 2025 1 5 <=? ns
  end.

(** The qualifying set: [zone_entries] in the code. *)
Definition zone_entries (fr : DataFrame) : list Row :=
  List.filter enters_zone (List.filter post_toll_row (rows fr)).

(** [congestion_surcharge > 0] and [congestion_surcharge == 0]. *)
Definition compliant_row (r : Row) : bool := PrimFloat.ltb 0 (congestion_surcharge r).
Definition leakage_row (r : Row) : bool := PrimFloat.eqb (congestion_surcharge r) 0.

(** [compliant] and [non_compliant] in the code. *)
Definition compliant (fr : DataFrame) : list Row :=
  List.filter compliant_row (zone_entries fr).
Definition non_compliant (fr : DataFrame) : list Row :=
  List.filter leakage_row (zone_entries fr).

(** [top_leakage] in the code. *)
Definition top_leakage (fr : DataFrame) : list (Z * nat) :=
  nlargest 3 (groupby_size (map pickup_loc (non_compliant fr))).

(** What the analyzer prints after its first line. *)
Definition leakage_report (fr : DataFrame) : list line :=
  match non_compliant fr with
  | [] => []
  | _ :: _ => PTopLeakageHeader :: map (fun x => PLeakage x.1 x.2) (top_leakage fr)
  end.

Definition compliance_report (fr : DataFrame) : list line :=
  match zone_entries fr with
  | [] => []
  | _ :: _ =>
      [PZoneEntries (length (zone_entries fr));
       PCompliant (length (compliant fr));
       PComplianceRate (Z.of_nat (length (compliant fr))
                        # Pos.of_nat (length (zone_entries fr)))]
      ++ leakage_report fr
  end.

(** The columns the analyzer reads. *)
Definition analyzer_columns : list string :=
  ["pickup_loc"; "dropoff_loc"; "pickup_time"; "congestion_surcharge"].

(** The only line that reports a compliance rate. *)
Definition reports_rate (l : line) : bool :=
  match l with
  | PComplianceRate _ => true
  | _ => false
  end.

(** The ranking as printed: the location and count of each leakage line. *)
Definition leakage_lines (out : list line) : list (Z * nat) :=
  flat_map (fun l => match l with
                     | PLeakage loc count => [(loc, count)]
                     | _ => []
                     end) out.

(** ** The ranking *)

(** [x] comes before [y] in the ranking: a larger count, or the same
    count and a smaller location identifier. *)
Definition ranks_before (x y : Z * nat) : Prop :=
  (y.2 < x.2)%nat \/ (x.2 = y.2 /\ x.1 < y.1).

(** The order of the groups [groupby] makes. *)
Definition key_lt (x y : Z * nat) : Prop := x.1 < y.1.

(** The number of records of a location among the keys. *)
Definition count_loc (loc : Z) (keys : list Z) : nat :=
  length (List.filter (Z.eqb loc) keys).

(** The count the groups hold for a key, 0 if they hold none. *)
Fixpoint lookup_count (k : Z) (acc : list (Z * nat)) : nat :=
  match acc with
  | [] => 0%nat
  | (k', n) :: rest => ((if Z.eqb k k' then n else 0) + lookup_count k rest)%nat
  end.

(** ** The driver *)

(** The columns [create_summary_stats] reads without a test. *)
Definition summary_columns : list string :=
  ["fare"; "trip_distance"; "avg_speed"; "total_amount"].

Definition summary_report (fr : DataFrame) : list line :=
  [PSummaryHeader; PTotalTrips (len fr); PAverageFare; PAverageDistance;
   PAverageSpeed; PTotalRevenue]
  ++ (if has_column fr "congestion_surcharge" then [PTotalSurcharge] else []).

(** The columns a run of the analysis phase reads. *)
Definition pipeline_columns : list string :=
  classifier_columns ++ analyzer_columns ++ summary_columns.

(** The columns the analyzer assigns. *)
Definition flag_columns : list string :=
  ["pickup_in_zone"; "dropoff_in_zone"; "enters_zone"].

(** [r'] has the values of [r] in the fourteen columns of the schema. *)
Definition same_trip_data (r r' : Row) : Prop :=
  pickup_time r' = pickup_time r /\ dropoff_time r' = dropoff_time r /\
  pickup_loc r' = pickup_loc r /\ dropoff_loc r' = dropoff_loc r /\
  trip_distance r' = trip_distance r /\ fare r' = fare r /\
  total_amount r' = total_amount r /\
  congestion_surcharge r' = congestion_surcharge r /\ tip r' = tip r /\
  hour r' = hour r /\ day_of_week r' = day_of_week r /\ month r' = month r /\
  trip_duration r' = trip_duration r /\ avg_speed r' = avg_speed r.

(** ** Reading order and audit lines *)

(** The first of the names the frame lacks, in the order given. *)
Definition first_missing (fr : DataFrame) (names : list string) : option string :=
  List.find (fun c => negb (has_column fr c)) names.

(** ** [scraper.py]: [TLCScraper.download_month]

    The scraper works on files, not on tables: the disk maps a path to the
    bytes of its file; the network answers a URL; the console takes the
    messages.  [joinpath] is pathlib's [/], which the model leaves open. *)

Module Scraper.

Record TLCScraper := mkScraper {
  download_dir : string;
  processed_dir : string;
  base_url : string
}.

(** [__init__], without the two [mkdir]: the disk holds files only. *)
Definition init (download_dir processed_dir : string) : TLCScraper :=
  mkScraper download_dir processed_dir
            "https://d37ci6vzurychx.cloudfront.net/trip-data/".

(** What [requests.get(url, stream=True)] and the reading of the body
    come to: no response at all (the call raises), or a response with
    its status and the chunks [iter_content] yields before the body ends
    ([complete]) or the connection breaks. *)
Inductive response :=
| NoConnection
| Response (status : nat) (chunks : list string) (complete : bool).

Inductive message :=
| AlreadyExists (filename : string)
| Downloading (filename : string)
| Downloaded (filename : string)
| Failed.

Record system := mkSystem {
  disk : gmap string string;
  console : list message
}.

Definition say (m : message) (s : system) : system :=
  mkSystem (disk s) (console s ++ [m]).

(** [open(path, 'wb')] and the loop of [f.write(chunk)]: the file is
    emptied, then takes the chunks one after the other. *)
Definition write_chunks (path : string) (chunks : list string) (s : system) : system :=
  mkSystem (<[path := foldl String.append EmptyString chunks]> (disk s))
           (console s).

(** [str(n)] is stdpp's [pretty] on Z; [f"{n:02d}"] pads it with a zero
    to two characters (a minus sign counts as one). *)
Definition format_02d (n : Z) : string :=
  let digits := pretty n in
  if (String.length digits <? 2)%nat then "0" +:+ digits else digits.

Definition filename (taxi_type : string) (year month : Z) : string :=
  taxi_type +:+ "_tripdata_" +:+ pretty year +:+ "-" +:+ format_02d month
  +:+ ".parquet".

(** [response.raise_for_status()] raises for a status from 400 to 599. *)
Definition raise_for_status (status : nat) : bool :=
  (400 <=? status)%nat && (status <? 600)%nat.

Section Paths.
Variable joinpath : string -> string -> string.

(** The path of a month's file: [self.download_dir / filename]. *)
Definition month_path (self : TLCScraper) (taxi_type : string)
    (year month : Z) : string :=
  joinpath (download_dir self) (filename taxi_type year month).

(** [download_month]: the path of the month's file, or [None].  Every
    exception inside the [try] ends in the same message and [None]. *)
Definition download_month (self : TLCScraper) (net : string -> response)
    (year month : Z) (taxi_type : string) (s : system) : option string * system :=
  let month_str := format_02d month in
  let name := taxi_type +:+ "_tripdata_" +:+ pretty year +:+ "-" +:+ month_str
              +:+ ".parquet" in
  let url := base_url self +:+ name in
  let filepath := joinpath (download_dir self) name in
  if bool_decide (is_Some (disk s !! filepath)) then
    (Some filepath, say (AlreadyExists name) s)
  else
    let s1 := say (Downloading name) s in
    match net url with
    | NoConnection => (None, say Failed s1)
    | Response status chunks complete =>
        if raise_for_status status then (None, say Failed s1)
        else
          let s2 := write_chunks filepath chunks s1 in
          if complete then (Some filepath, say (Downloaded name) s2)
          else (None, say Failed s2)
    end.

End Paths.

(** *** [TLCScraper.process_file], on column names

    The part of [process_file] that decides which columns the processed
    file has; the values of the records follow with [process_table]. *)

(** The [column_map] dict: one entry for each of the eight raw names the
    file has. *)
Definition column_map (cols : list string) : gmap string string :=
  let column_map : gmap string string := ∅ in
  let column_map :=
    if bool_decide ("tpep_pickup_datetime"%string ∈ cols)
    then <["tpep_pickup_datetime"%string := "pickup_time"%string]> column_map
    else column_map in
  let column_map :=
    if bool_decide ("tpep_dropoff_datetime"%string ∈ cols)
    then <["tpep_dropoff_datetime"%string := "dropoff_time"%string]> column_map
    else column_map in
  let column_map :=
    if bool_decide ("lpep_pickup_datetime"%string ∈ cols)
    then <["lpep_pickup_datetime"%string := "pickup_time"%string]> column_map
    else column_map in
  let column_map :=
    if bool_decide ("lpep_dropoff_datetime"%string ∈ cols)
    then <["lpep_dropoff_datetime"%string := "dropoff_time"%string]> column_map
    else column_map in
  let column_map :=
    if bool_decide ("PULocationID"%string ∈ cols)
    then <["PULocationID"%string := "pickup_loc"%string]> column_map
    else column_map in
  let column_map :=
    if bool_decide ("DOLocationID"%string ∈ cols)
    then <["DOLocationID"%string := "dropoff_loc"%string]> column_map
    else column_map in
  let column_map :=
    if bool_decide ("fare_amount"%string ∈ cols)
    then <["fare_amount"%string := "fare"%string]> column_map
    else column_map in
  let column_map :=
    if bool_decide ("tip_amount"%string ∈ cols)
    then <["tip_amount"%string := "tip"%string]> column_map
    else column_map in
  column_map.

(** [ddf.rename(columns=column_map)] on the names. *)
Definition rename (m : gmap string string) (cols : list string) : list string :=
  map (fun c => default c (m !! c)) cols.

Definition KEEP_COLS : list string :=
  ["pickup_time"; "dropoff_time"; "pickup_loc"; "dropoff_loc";
   "trip_distance"; "fare"; "total_amount"; "congestion_surcharge"; "tip"].

(** [[c for c in keep_cols if c in ddf.columns]] *)
Definition keep_cols (cols : list string) : list string :=
  List.filter (fun c => bool_decide (c ∈ cols)) KEEP_COLS.

(** [ddf[keep_cols]]: for each key in turn, the columns of that name. *)
Definition select_columns (cols keys : list string) : list string :=
  flat_map (fun k => List.filter (String.eqb k) cols) keys.

(** The columns added after the selection, in the order of their
    assignments. *)
Definition DERIVED_COLS : list string :=
  ["hour"; "day_of_week"; "month"; "trip_duration"; "avg_speed"].

(** The columns of the file [process_file] writes, from the columns of
    the file it reads, or the KeyError of the first column an assignment
    reads and does not find.  [None] when two columns of the renamed
    frame have one name and are selected: what the assignments do to
    such a frame is not modelled. *)
Definition process_file_columns (raw : list string) : option (outcome (list string)) :=
  let renamed := rename (column_map raw) raw in
  let selected := select_columns renamed (keep_cols renamed) in
  if bool_decide (NoDup selected) then
    Some
      (if negb (bool_decide ("pickup_time"%string ∈ selected))
       then Raises (KeyError "pickup_time")
       else if negb (bool_decide ("dropoff_time"%string ∈ selected))
       then Raises (KeyError "dropoff_time")
       else if negb (bool_decide ("trip_distance"%string ∈ selected))
       then Raises (KeyError "trip_distance")
       else Returns (selected ++ DERIVED_COLS))
  else None.

End Scraper.

(** No character of the string is a minus sign. *)
Fixpoint no_dash (s : string) : bool :=
  match s with
  | EmptyString => true
  | String c s' => negb (Ascii.eqb c "-"%char) && no_dash s'
  end.

(** The dictionary [process_file] builds for a file that has every
    column it looks for, and the name a column has after the renaming
    with that dictionary. *)
Definition all_renames : gmap string string :=
  <["tip_amount"%string := "tip"%string]>
  (<["fare_amount"%string := "fare"%string]>
  (<["DOLocationID"%string := "dropoff_loc"%string]>
  (<["PULocationID"%string := "pickup_loc"%string]>
  (<["lpep_dropoff_datetime"%string := "dropoff_time"%string]>
  (<["lpep_pickup_datetime"%string := "pickup_time"%string]>
  (<["tpep_dropoff_datetime"%string := "dropoff_time"%string]>
  (<["tpep_pickup_datetime"%string := "pickup_time"%string]> ∅))))))).

Definition standard_name (c : string) : string := default c (all_renames !! c).

(** The names only the renaming gives: no file of the TLC has them. *)
Definition RENAMED_COLS : list string :=
  ["pickup_time"; "dropoff_time"; "pickup_loc"; "dropoff_loc"; "fare"; "tip"].

(** ** The whole program: [main] with the scraper

    [main] makes a scraper, downloads one month, processes the file
    and analyses the processed table.  A run starts in a fresh
    interpreter: no object, nothing printed.  The files are of two
    kinds: the files of bytes that are on the disk or come from the
    server, and the parquet tables the run writes itself with
    [to_parquet].  Directories are not modelled: [TLCScraper()] makes
    data/raw and data/processed, the script makes outputs before it
    calls [main], so every write finds its directory. *)

(** [print] for the messages of [download_month]; the text of the
    exception in the error message is not kept. *)
Definition message_line (m : Scraper.message) : line :=
  match m with
  | Scraper.AlreadyExists f => PAlreadyExists f
  | Scraper.Downloading f => PDownloading f
  | Scraper.Downloaded f => PDownloaded f
  | Scraper.Failed => PError
  end.

(** *** Paths

    The paths of the program are relative, without a trailing
    separator, and the names joined to them have no separator: on
    these, pathlib's [/], [.name] and [.stem] are the following. *)
Definition posix_join (dir name : string) : string := dir +:+ "/" +:+ name.

(** [s.rpartition(c)], when [c] occurs in [s]: what is before and what
    is after its last occurrence. *)
Fixpoint rsplit (c : ascii) (s : string) : option (string * string) :=
  match s with
  | EmptyString => None
  | String a s' =>
      match rsplit c s' with
      | Some (before, after) => Some (String a before, after)
      | None => if Ascii.eqb a c then Some (EmptyString, s') else None
      end
  end.

Definition path_name (path : string) : string :=
  match rsplit "/" path with
  | Some (_, name) => name
  | None => path
  end.

(** [i = name.rfind('.')]; [name[:i]] if [0 < i < len(name) - 1], else
    [name]. *)
Definition path_stem (path : string) : string :=
  let name := path_name path in
  match rsplit "." name with
  | Some (stem, suffix) =>
      if (0 <? String.length stem)%nat && (0 <? String.length suffix)%nat
      then stem else name
  | None => name
  end.

(** *** [.dt.hour], [.dt.dayofweek] and [.dt.month] of an instant

    The hour of the day, the day of the week (Monday is 0; 1970-01-01
    was a Thursday) and the month of the civil date, of an instant given
    in nanoseconds since the epoch. *)
Definition dt_hour (ns : Z) : Z := (ns / 3600000000000) mod 24.

Definition dt_dayofweek (ns : Z) : Z := (ns / 86400000000000 + 3) mod 7.

Definition dt_month (ns : Z) : Z :=
  let z := ns / 86400000000000 + 719468 in
  let era := z / 146097 in
  let doe := z - era * 146097 in
  let yoe := (doe - doe / 1460 + doe / 36524 - doe / 146096) / 365 in
  let doy := doe - (365 * yoe + yoe / 4 - yoe / 100) in
  let mp := (5 * doy + 2) / 153 in
  if mp <? 10 then mp + 3 else mp - 9.

(** *** The state of a run *)

Record session := mkSession {
  py_world : world;                (* objects, output, tables written *)
  byte_files : gmap string string  (* the files of bytes, by path *)
}.

(** A fresh interpreter on a disk. *)
Definition boot (disk : gmap string string) : session :=
  mkSession (mkWorld [] [] ∅) disk.

(** A step of the program returns, raises, or leaves what is modelled
    ([None]). *)
Definition P (A : Type) : Type := session -> option (outcome A * session).

Definition retP {A} (a : A) : P A := fun s => Some (Returns a, s).

Definition bindP {A B} (m : P A) (k : A -> P B) : P B :=
  fun s =>
    match m s with
    | Some (Returns a, s') => k a s'
    | Some (Raises e, s') => Some (Raises e, s')
    | None => None
    end.

Declare Scope prog_scope.
Delimit Scope prog_scope with prog.
Notation "x <- m ; k" := (bindP m (fun x => k))
  (at level 100, m at next level, right associativity) : prog_scope.
Notation "m ;; k" := (bindP m (fun _ => k))
  (at level 100, right associativity) : prog_scope.

(** The code of [pipeline.py] works on the objects, the output and the
    tables. *)
Definition py {A} (m : M A) : P A :=
  fun s => let r := m (py_world s) in Some (r.1, mkSession r.2 (byte_files s)).

(** The result of the lazy dask computation, when it is modelled. *)
Definition dask {A} (r : option (outcome A)) : P A :=
  fun s => match r with
           | Some o => Some (o, s)
           | None => None
           end.

(** [ddf.to_parquet(path, overwrite=True)]. *)
Definition dd_to_parquet (fr : DataFrame) (path : string) : M unit :=
  fun w => (Returns tt, mkWorld (heap w) (stdout w) (<[path := fr]> (files w))).

Section Program.

(** The network, as in [download_month]. *)
Variable net : string -> Scraper.response.

(** Reading bytes as a parquet file: [None] when they are not one.  The
    format is not modelled.  The table is given as [process_file] needs
    it: [columns] are the names of the columns in the file; a row has
    the value of a column in the field the column is renamed to (the
    value of tpep_pickup_datetime or lpep_pickup_datetime in
    [pickup_time], of PULocationID in [pickup_loc], of fare_amount in
    [fare], ...), with the types the files of the TLC have: timestamps,
    integer location ids, float64 amounts and distances.  The other
    columns are dropped by [process_file] unread; their values are not
    kept. *)
Variable decode : string -> option DataFrame.

(** [.dt.total_seconds()] of a difference of so many nanoseconds, as a
    float64: how pandas rounds it depends on its version. *)
Variable total_seconds : Z -> float.

(** [dd.read_parquet(filepath)] *)
Definition dd_read_parquet (path : string) : P DataFrame :=
  fun s =>
    match byte_files s !! path with
    | None => Some (Raises (FileNotFoundError path), s)
    | Some data =>
        match decode data with
        | Some fr => Some (Returns fr, s)
        | None => Some (Raises (ArrowInvalid path), s)
        end
    end.

(** The computed columns of one record.  With a pickup time that is NaT
    the three calendar columns are not integer columns any more, and a
    difference of the two times that does not fit 64 bits is an
    overflow: both are left out of the model ([None]).  A dropoff time
    that is NaT gives NaN for the duration and the speed. *)
Definition derive (r : Row) : option Row :=
  match pickup_time r with
  | NaT => None
  | Ts p =>
      let hour := dt_hour p in
      let day_of_week := dt_dayofweek p in
      let month := dt_month p in
      match dropoff_time r with
      | NaT =>
          Some (mkRow (pickup_time r) (dropoff_time r) (pickup_loc r)
                  (dropoff_loc r) (trip_distance r) (fare r) (total_amount r)
                  (congestion_surcharge r) (tip r) hour day_of_week month
                  nan (compute_avg_speed (trip_distance r) nan)
                  (pickup_in_zone r) (dropoff_in_zone r) (enters_zone r))
      | Ts d =>
          if Z.abs (d - p) <? 2 ^ 63 then
            let trip_duration := (total_seconds (d - p) / 60)%float in
            Some (mkRow (pickup_time r) (dropoff_time r) (pickup_loc r)
                    (dropoff_loc r) (trip_distance r) (fare r) (total_amount r)
                    (congestion_surcharge r) (tip r) hour day_of_week month
                    trip_duration
                    (compute_avg_speed (trip_distance r) trip_duration)
                    (pickup_in_zone r) (dropoff_in_zone r) (enters_zone r))
          else None
      end
  end.

(** The table [process_file] writes for the table it reads: the columns
    by [Scraper.process_file_columns], which also gives the KeyError of
    a column the file lacks; the records with their computed columns. *)
Definition process_table (ddf : DataFrame) : option (outcome DataFrame) :=
  match Scraper.process_file_columns (columns ddf) with
  | None => None
  | Some (Raises e) => Some (Raises e)
  | Some (Returns cols) =>
      match mapM derive (rows ddf) with
      | Some rs => Some (Returns (mkDF cols rs))
      | None => None
      end
  end.

Local Open Scope prog_scope.

(** [TLCScraper.process_file] *)
Definition process_file (self : Scraper.TLCScraper) (filepath : string) : P string :=
  py (print (PProcessing (path_name filepath))) ;;
  (* Use Dask for big data processing *)
  ddf <- dd_read_parquet filepath ;
  (* Show columns *)
  py (print (PColumns (columns ddf))) ;;
  (* renaming, selection and computed columns *)
  processed <- dask (process_table ddf) ;
  (* Save processed file *)
  let output_name :=
    posix_join (Scraper.processed_dir self)
               ("processed_" +:+ path_stem filepath +:+ ".parquet") in
  py (dd_to_parquet processed output_name) ;;
  py (print (PSaved output_name)) ;;
  retP output_name.

(** [TLCScraper.download_month] on the files of bytes of the session;
    its messages are printed. *)
Definition download_month (self : Scraper.TLCScraper) (year month : Z)
    (taxi_type : string) : P (option string) :=
  fun s =>
    let w := py_world s in
    let r := Scraper.download_month posix_join self net year month taxi_type
               (Scraper.mkSystem (byte_files s) []) in
    Some (Returns r.1,
          mkSession (mkWorld (heap w)
                             (stdout w ++ map message_line (Scraper.console r.2))
                             (files w))
                    (Scraper.disk r.2)).

(** [main], run in a fresh interpreter on [disk]. *)
Definition main (disk : gmap string string) : option (outcome unit * session) :=
  (py (print (PText "============================================================")) ;;
   py (print (PText "NYC Congestion Pricing Audit - Full Pipeline")) ;;
   py (print (PText "============================================================")) ;;
   let scraper := Scraper.init "data/raw" "data/processed" in
   (* Phase 1: Download and process data *)
   py (print (PText "Phase 1: Data Ingestion")) ;;
   (* Download January 2025 *)
   file <- download_month scraper 2025 1 "yellow" ;
   match file with
   | None => py (print (PText "Download failed"))
   | Some file =>
       (* Process the file *)
       processed <- process_file scraper file ;
       py ((* Phase 2: Analysis *)
           print (PText "Phase 2: Analysis") ;;
           (* Read processed data *)
           print (PText "Reading processed data...") ;;
           df <- read_parquet processed ;
           fr <- load df ;
           print (PLoaded (len fr)) ;;
           (* Ghost trip detection *)
           p <- detect_ghost_trips df ;
           let clean_df := p.1 in
           let ghost_df := p.2 in
           (* Congestion zone analysis *)
           analyzed_df <- analyze_congestion_zone clean_df ;
           (* Summary *)
           create_summary_stats analyzed_df ;;
           (* Save results *)
           print (PText "Saving results...") ;;
           to_parquet clean_df "outputs/clean_data.parquet" ;;
           to_parquet ghost_df "outputs/ghost_trips.parquet" ;;
           print (PText "============================================================") ;;
           print (PText "Pipeline Complete!") ;;
           print (PText "============================================================") ;;
           print (PText "Output files:") ;;
           print (PText "   - outputs/clean_data.parquet") ;;
           print (PText "   - outputs/ghost_trips.parquet") ;;
           print (PText "Next: Run 'python dashboard.py' to see visualizations"))%py
   end) (boot disk).

End Program.

(** What [main] does from its second phase on, once the processed file
    is written. *)
Definition analysis_phase (processed : string) : M unit :=
  print (PText "Phase 2: Analysis") ;;
  print (PText "Reading processed data...") ;;
  df <- read_parquet processed ;
  fr <- load df ;
  print (PLoaded (len fr)) ;;
  p <- detect_ghost_trips df ;
  let clean_df := p.1 in
  let ghost_df := p.2 in
  analyzed_df <- analyze_congestion_zone clean_df ;
  create_summary_stats analyzed_df ;;
  print (PText "Saving results...") ;;
  to_parquet clean_df "outputs/clean_data.parquet" ;;
  to_parquet ghost_df "outputs/ghost_trips.parquet" ;;
  print (PText "============================================================") ;;
  print (PText "Pipeline Complete!") ;;
  print (PText "============================================================") ;;
  print (PText "Output files:") ;;
  print (PText "   - outputs/clean_data.parquet") ;;
  print (PText "   - outputs/ghost_trips.parquet") ;;
  print (PText "Next: Run 'python dashboard.py' to see visualizations").

(** What [main] prints before it calls the scraper. *)
Definition BANNER : list line :=
  [PText "============================================================";
   PText "NYC Congestion Pricing Audit - Full Pipeline";
   PText "============================================================";
   PText "Phase 1: Data Ingestion"].

(** The month [main] asks for, and the two files of the scraper. *)
Definition RAW_FILE : string := "data/raw/yellow_tripdata_2025-01.parquet".
Definition PROCESSED_FILE : string :=
  "data/processed/processed_yellow_tripdata_2025-01.parquet".

(** The call of [download_month] in [main], on a disk. *)
Definition download (net : string -> Scraper.response) (disk : gmap string string)
    : option string * Scraper.system :=
  Scraper.download_month posix_join (Scraper.init "data/raw" "data/processed")
    net 2025 1 "yellow" (Scraper.mkSystem disk []).

(** The bytes of the file [download_month] hands to [process_file], if
    it returns a path. *)
Definition fetched (net : string -> Scraper.response) (disk : gmap string string)
    : option string :=
  match (download net disk).1 with
  | Some path => Scraper.disk (download net disk).2 !! path
  | None => None
  end.

(** A run to compute with: the month's file is on the disk and holds
    two trips of Monday 2025-01-06, 08:00, from zone 1 to zone 4. *)
Module Demo.

(** The columns of a yellow taxi file of 2025. *)
Definition columns : list string :=
  ["VendorID"; "tpep_pickup_datetime"; "tpep_dropoff_datetime";
   "passenger_count"; "trip_distance"; "RatecodeID"; "store_and_fwd_flag";
   "PULocationID"; "DOLocationID"; "payment_type"; "fare_amount"; "extra";
   "mta_tax"; "tip_amount"; "tolls_amount"; "improvement_surcharge";
   "total_amount"; "congestion_surcharge"; "Airport_fee";
   "cbd_congestion_fee"].

Definition pickup : Z := date_ns 2025 1 6 + 8 * 3600000000000.

(** A trip of so many minutes and miles; the fields of the computed
    columns and of the flags hold nothing yet. *)
Definition trip (minutes : Z) (distance fare : float) : Row :=
  mkRow (Ts pickup) (Ts (pickup + minutes * 60000000000)) 1 4
        distance fare fare 0%float 0%float 0 0 0 0%float 0%float
        false false false.

(** 12 miles in 10 minutes, and 5 miles in 15 minutes. *)
Definition speeding : Row := trip 10 12 15.
Definition plain : Row := trip 15 5 30.

(** The same trips as [process_file] writes them. *)
Definition processed (minutes : Z) (distance fare speed : float) : Row :=
  mkRow (Ts pickup) (Ts (pickup + minutes * 60000000000)) 1 4
        distance fare fare 0%float 0%float 8 0 1
        (PrimFloat.of_uint63 (Uint63.of_Z minutes)) speed
        false false false.

Definition table (rows : list Row) : DataFrame := mkDF columns rows.

(** The bytes [b"PAR1"] stand for the file of a table, here of the two
    trips. *)
Definition holds (fr : DataFrame) (data : string) : option DataFrame :=
  if String.eqb data "PAR1" then Some fr else None.

Definition decode : string -> option DataFrame := holds (table [speeding; plain]).

(** The int64 as a float64, divided by 1e9. *)
Definition total_seconds (ns : Z) : float :=
  match ns with
  | Z0 => 0%float
  | Zpos _ => (PrimFloat.of_uint63 (Uint63.of_Z ns) / 1000000000)%float
  | Zneg p => (- (PrimFloat.of_uint63 (Uint63.of_Z (Zpos p)) / 1000000000))%float
  end.

Definition offline (url : string) : Scraper.response := Scraper.NoConnection.

(** A server whose answer breaks off after three bytes. *)
Definition breaking (url : string) : Scraper.response :=
  Scraper.Response 200 ["PA"; "R"]%string false.

Definition disk : gmap string string := {[ RAW_FILE := "PAR1"%string ]}.

End Demo.

(** The files are as before and every reference is still in the heap. *)
Definition settled (w w' : world) : Prop :=
  files w' = files w /\ (length (heap w) <= length (heap w'))%nat.

Definition keeps_files {A} (m : M A) : Prop := forall w, settled w (m w).2.

(** * Properties *)

(** ** Columns and masks, row by row *)

Section Masks.
Context {A : Type}.

Lemma select_map (f : A -> bool) (l : list A) :
  select l (map f l) = List.filter f l.
Proof.
  induction l as [|x l IH]; simpl; [reflexivity|].
  rewrite IH. reflexivity.
Qed.

Lemma zip_with_map_same {B C D} (op : B -> C -> D) (f : A -> B) (g : A -> C)
    (l : list A) :
  zip_with op (map f l) (map g l) = map (fun x => op (f x) (g x)) l.
Proof.
  induction l as [|x l IH]; simpl; [reflexivity|].
  rewrite IH. reflexivity.
Qed.

Lemma zip_with_map_self {B} (upd : B -> A -> A) (f : A -> B) (l : list A) :
  zip_with upd (map f l) l = map (fun x => upd (f x) x) l.
Proof.
  induction l as [|x l IH]; simpl; [reflexivity|].
  rewrite IH. reflexivity.
Qed.

Lemma mask_sum_map (f : A -> bool) (l : list A) :
  mask_sum (map f l) = length (List.filter f l).
Proof.
  unfold mask_sum.
  induction l as [|x l IH]; [reflexivity|].
  cbn [map List.filter]. unfold id at 1.
  destruct (f x); cbn [length]; rewrite IH; reflexivity.
Qed.

Lemma filter_length_le (f : A -> bool) (l : list A) :
  (length (List.filter f l) <= length l)%nat.
Proof.
  induction l as [|x l IH]; simpl; [lia|].
  destruct (f x); simpl; lia.
Qed.

Lemma filter_filter_andb (f g : A -> bool) (l : list A) :
  List.filter g (List.filter f l) = List.filter (fun x => f x && g x) l.
Proof.
  induction l as [|x l IH]; simpl; [reflexivity|].
  destruct (f x); simpl; [destruct (g x)|]; rewrite IH; reflexivity.
Qed.

Lemma filter_partition_perm (f : A -> bool) (l : list A) :
  Permutation (List.filter (fun x => negb (f x)) l ++ List.filter f l) l.
Proof.
  induction l as [|x l IH]; simpl; [constructor|].
  destruct (f x); simpl.
  - symmetry. apply Permutation_cons_app. symmetry. exact IH.
  - constructor. exact IH.
Qed.

End Masks.

(** ** The masks of the classifier *)

Lemma ghost_mask_rows (l : list Row) :
  mask_or
    (mask_or (gt_scalar (map avg_speed l) 65)
       (mask_and (lt_scalar (map trip_duration l) 1) (gt_scalar (map fare l) 20)))
    (mask_and (eq_scalar (map trip_distance l) 0) (gt_scalar (map fare l) 0))
  = map is_ghost l.
Proof.
  unfold mask_or, mask_and, gt_scalar, lt_scalar, eq_scalar.
  rewrite !map_map.
  rewrite !zip_with_map_same. reflexivity.
Qed.

Lemma has_columns_classifier fr :
  has_columns fr classifier_columns = true ->
  has_column fr "avg_speed" = true /\ has_column fr "trip_duration" = true /\
  has_column fr "fare" = true /\ has_column fr "trip_distance" = true.
Proof.
  unfold has_columns, classifier_columns. simpl.
  rewrite !andb_true_iff. tauto.
Qed.

Lemma detect_ghost_trips_run w df fr :
  heap w !! df = Some fr ->
  has_columns fr classifier_columns = true ->
  detect_ghost_trips df w =
    match truediv (length (List.filter is_ghost (rows fr))) (length (rows fr)) with
    | Returns ratio =>
        (Returns (S (length (heap w)), length (heap w)),
         detect_world w fr
           [PTotalRemoved (length (List.filter is_ghost (rows fr))) (ratio * 100)%Q])
    | Raises e => (Raises e, detect_world w fr [])
    end.
Proof.
  intros Hdf Hcols.
  destruct (has_columns_classifier fr Hcols) as (Hs & Hd & Hf & Ht).
  unfold detect_ghost_trips, bind, print, load, lift, getitem, alloc, ret. simpl.
  rewrite Hdf, Hs, Hd, Hf, Ht. simpl.
  rewrite ghost_mask_rows.
  unfold mask_not, len, bool_index. simpl.
  rewrite map_map, !select_map.
  unfold detect_world, rule_counts, ghost_frame, clean_frame, mask_and,
    gt_scalar, lt_scalar, eq_scalar.
  rewrite !map_map, !zip_with_map_same, !mask_sum_map.
  rewrite length_app. simpl.
  replace (length (heap w) + 1)%nat with (S (length (heap w))) by lia.
  destruct (truediv _ _); rewrite <- ?app_assoc; reflexivity.
Qed.

(** ** The classifier returns, or raises *)

Lemma truediv_returns a b :
  b <> O -> truediv a b = Returns (Z.of_nat a # Pos.of_nat b).
Proof. destruct b; [congruence | reflexivity]. Qed.

(** On a table with at least one record and the four columns the
    classifier returns, whatever the values: nulls and non-finite speeds
    included. *)
Lemma detect_ghost_trips_returns w df fr :
  heap w !! df = Some fr ->
  has_columns fr classifier_columns = true ->
  rows fr <> [] ->
  detect_ghost_trips df w =
    (Returns (S (length (heap w)), length (heap w)),
     detect_world w fr
       [PTotalRemoved (length (List.filter is_ghost (rows fr)))
          ((Z.of_nat (length (List.filter is_ghost (rows fr)))
            # Pos.of_nat (length (rows fr))) * 100)%Q]).
Proof.
  intros Hdf Hcols Hne.
  rewrite (detect_ghost_trips_run w df fr Hdf Hcols).
  rewrite truediv_returns; [reflexivity|].
  destruct (rows fr); [congruence | discriminate].
Qed.


Lemma lookup_snoc2_fst {A} (l : list A) (x y : A) :
  (l ++ [x; y]) !! length l = Some x.
Proof. rewrite lookup_app_r by lia. rewrite Nat.sub_diag. reflexivity. Qed.

Lemma lookup_snoc2_snd {A} (l : list A) (x y : A) :
  (l ++ [x; y]) !! S (length l) = Some y.
Proof.
  rewrite lookup_app_r by lia.
  replace (S (length l) - length l)%nat with 1%nat by lia. reflexivity.
Qed.

Lemma ghost_not_clean (l : list Row) (r : Row) :
  In r (List.filter (fun r => negb (is_ghost r)) l) ->
  In r (List.filter is_ghost l) -> False.
Proof.
  rewrite !filter_In. intros [_ Hc] [_ Hg].
  rewrite Hg in Hc. discriminate.
Qed.

(** The partition, on every table the classifier returns on: the two
    tables are new objects, together they hold the records of the input,
    each as often as the input has it, none is in both, and the input is
    left as it was. *)
Lemma detect_ghost_trips_partition w df fr :
  heap w !! df = Some fr ->
  has_columns fr classifier_columns = true ->
  rows fr <> [] ->
  exists clean ghost w',
    detect_ghost_trips df w = (Returns (clean, ghost), w') /\
    clean <> ghost /\ clean <> df /\ ghost <> df /\
    heap w' !! clean = Some (clean_frame fr) /\
    heap w' !! ghost = Some (ghost_frame fr) /\
    heap w' !! df = Some fr /\
    Permutation (rows (clean_frame fr) ++ rows (ghost_frame fr)) (rows fr) /\
    (forall r, In r (rows (clean_frame fr)) -> In r (rows (ghost_frame fr)) -> False) /\
    (forall r, In r (rows fr) ->
       In r (rows (clean_frame fr)) \/ In r (rows (ghost_frame fr))).
Proof.
  intros Hdf Hcols Hne.
  pose proof (lookup_lt_Some _ _ _ Hdf) as Hlt.
  eexists _, _, _. split; [apply (detect_ghost_trips_returns w df fr); assumption|].
  simpl.
  repeat split; try lia.
  - apply lookup_snoc2_snd.
  - apply lookup_snoc2_fst.
  - rewrite lookup_app_l by exact Hlt. exact Hdf.
  - apply filter_partition_perm.
  - apply ghost_not_clean.
  - intros r Hr. rewrite !filter_In.
    destruct (is_ghost r); simpl; auto.
Qed.

Lemma filter_ghost_of_clean (l : list Row) :
  List.filter is_ghost (List.filter (fun r => negb (is_ghost r)) l) = [].
Proof.
  rewrite filter_filter_andb.
  induction l as [|x l IH]; simpl; [reflexivity|].
  destruct (is_ghost x); simpl; exact IH.
Qed.

(** Re-running the classifier on a clean table that has a record leaves
    the ghost table empty. *)
Lemma detect_ghost_trips_twice w df fr :
  heap w !! df = Some fr ->
  has_columns fr classifier_columns = true ->
  rows (clean_frame fr) <> [] ->
  exists clean ghost w' clean2 ghost2 w'' gf2,
    detect_ghost_trips df w = (Returns (clean, ghost), w') /\
    detect_ghost_trips clean w' = (Returns (clean2, ghost2), w'') /\
    heap w'' !! ghost2 = Some gf2 /\ rows gf2 = [].
Proof.
  intros Hdf Hcols Hne.
  assert (Hne0 : rows fr <> []).
  { intros E. apply Hne. simpl. rewrite E. reflexivity. }
  eexists _, _, _, _, _, _, _.
  split; [apply (detect_ghost_trips_returns w df fr); assumption|].
  split.
  - apply (detect_ghost_trips_returns _ _ (clean_frame fr)).
    + simpl. apply lookup_snoc2_snd.
    + exact Hcols.
    + exact Hne.
  - split; [apply lookup_snoc2_fst|].
    simpl. apply filter_ghost_of_clean.
Qed.

(** ** Claims on the classifier *)

(** The four records of the end-to-end example: three ghosts, one clean. *)
Example detect_ghost_trips_end_to_end :
  let fr := Sample.table [Sample.speeding; Sample.teleport;
                          Sample.stationary; Sample.plain] in
  exists w',
    detect_ghost_trips 0%nat (Sample.world_of fr) = (Returns (2%nat, 1%nat), w') /\
    heap w' !! 1%nat =
      Some (Sample.table [Sample.speeding; Sample.teleport; Sample.stationary]) /\
    heap w' !! 2%nat = Some (Sample.table [Sample.plain]).
Proof.
  eexists. split; [vm_compute; reflexivity|].
  split; reflexivity.
Qed.

(** A record that matches the three rules is in the ghost table once. *)
Example detect_ghost_trips_three_rules_once :
  let r := Sample.trip 1 4 70 0.5 25 0 0 in
  rule_speed r = true /\ rule_teleport r = true /\ rule_stationary r = true /\
  exists w',
    detect_ghost_trips 0%nat (Sample.world_of (Sample.table [r; Sample.plain])) =
      (Returns (2%nat, 1%nat), w') /\
    heap w' !! 1%nat = Some (Sample.table [r]).
Proof.
  repeat (split; [reflexivity|]).
  eexists. split; [vm_compute; reflexivity | reflexivity].
Qed.

Lemma is_ghost_iff (r : Row) : is_ghost r = true <-> some_rule_true r.
Proof.
  unfold is_ghost, rule_speed, rule_teleport, rule_stationary, some_rule_true.
  rewrite !orb_true_iff, !andb_true_iff. tauto.
Qed.

(** C1, on every table without records: the classifier has made the two
    tables and printed the three counts when the line that prints the
    ghost fraction divides by [len(df)] and raises ZeroDivisionError, so
    its caller gets neither table. *)
Theorem detect_ghost_trips_no_partition_of_empty_table w df fr :
  heap w !! df = Some fr ->
  has_columns fr classifier_columns = true ->
  rows fr = [] ->
  detect_ghost_trips df w = (Raises ZeroDivisionError, detect_world w fr []) /\
  stdout (detect_world w fr []) =
    stdout w ++ [PDetecting; PSpeed 0; PTeleport 0; PStationary 0].
Proof.
  intros Hdf Hcols Hnil.
  rewrite (detect_ghost_trips_run w df fr Hdf Hcols).
  unfold detect_world, rule_counts. rewrite Hnil. simpl.
  split; reflexivity.
Qed.

Lemma detect_ghost_trips_no_partition_of_empty_table_witness :
  let fr := Sample.table [] in
  let w := Sample.world_of fr in
  heap w !! 0%nat = Some fr /\
  has_columns fr classifier_columns = true /\
  rows fr = [] /\
  detect_ghost_trips 0%nat w = (Raises ZeroDivisionError, detect_world w fr []) /\
  stdout (detect_world w fr []) =
    stdout w ++ [PDetecting; PSpeed 0; PTeleport 0; PStationary 0].
Proof.
  split; [reflexivity|].
  split; [reflexivity|].
  split; [reflexivity|].
  apply (detect_ghost_trips_no_partition_of_empty_table
           (Sample.world_of (Sample.table [])) 0%nat (Sample.table []));
    reflexivity.
Defined.

(** C2: on a table with the four columns, a record of the input is in
    the ghost table exactly when at least one of the three rules is true
    of it, and in the clean table exactly when none is; a null in a
    column makes the rules that read the column false. *)
Theorem detect_ghost_trips_rule_membership w df fr r :
  heap w !! df = Some fr ->
  has_columns fr classifier_columns = true ->
  In r (rows fr) ->
  exists clean ghost w' cf gf,
    detect_ghost_trips df w = (Returns (clean, ghost), w') /\
    heap w' !! clean = Some cf /\ heap w' !! ghost = Some gf /\
    (In r (rows gf) <-> some_rule_true r) /\
    (In r (rows cf) <-> ~ some_rule_true r) /\
    (avg_speed r = nan -> rule_speed r = false) /\
    (trip_duration r = nan -> rule_teleport r = false) /\
    (trip_distance r = nan -> rule_stationary r = false) /\
    (fare r = nan -> rule_teleport r = false /\ rule_stationary r = false).
Proof.
  intros Hdf Hcols Hr.
  assert (Hne : rows fr <> []) by (intros E; rewrite E in Hr; exact Hr).
  exists (S (length (heap w))), (length (heap w)).
  eexists _, (clean_frame fr), (ghost_frame fr).
  split; [apply (detect_ghost_trips_returns w df fr); assumption|].
  split; [apply lookup_snoc2_snd|].
  split; [apply lookup_snoc2_fst|].
  simpl. rewrite !filter_In, <- is_ghost_iff.
  split; [tauto|].
  split.
  - rewrite negb_true_iff, not_true_iff_false. tauto.
  - unfold rule_speed, rule_teleport, rule_stationary.
    split; [intros ->; reflexivity|].
    split; [intros ->; reflexivity|].
    split; [intros ->; reflexivity|].
    intros ->. split; apply andb_false_r.
Qed.

Lemma detect_ghost_trips_rule_membership_witness :
  let w := Sample.world_of
             (Sample.table [Sample.speeding; Sample.unknown_speed]) in
  heap w !! 0%nat = Some (Sample.table [Sample.speeding; Sample.unknown_speed]) /\
  has_columns (Sample.table [Sample.speeding; Sample.unknown_speed])
    classifier_columns = true /\
  In Sample.unknown_speed [Sample.speeding; Sample.unknown_speed] /\
  exists clean ghost w' cf gf,
    detect_ghost_trips 0%nat w = (Returns (clean, ghost), w') /\
    heap w' !! clean = Some cf /\ heap w' !! ghost = Some gf /\
    (In Sample.unknown_speed (rows gf) <-> some_rule_true Sample.unknown_speed) /\
    (In Sample.unknown_speed (rows cf) <-> ~ some_rule_true Sample.unknown_speed) /\
    (avg_speed Sample.unknown_speed = nan -> rule_speed Sample.unknown_speed = false) /\
    (trip_duration Sample.unknown_speed = nan ->
     rule_teleport Sample.unknown_speed = false) /\
    (trip_distance Sample.unknown_speed = nan ->
     rule_stationary Sample.unknown_speed = false) /\
    (fare Sample.unknown_speed = nan ->
     rule_teleport Sample.unknown_speed = false /\
     rule_stationary Sample.unknown_speed = false).
Proof.
  split; [reflexivity|].
  split; [reflexivity|].
  split; [simpl; auto|].
  apply (detect_ghost_trips_rule_membership
           (Sample.world_of (Sample.table [Sample.speeding; Sample.unknown_speed]))
           0%nat (Sample.table [Sample.speeding; Sample.unknown_speed])
           Sample.unknown_speed);
    [reflexivity | reflexivity | simpl; auto].
Defined.

(** C8, at a table whose only record is a ghost: the classifier returns
    an empty clean table, and applied to that clean table it raises
    ZeroDivisionError instead of returning an empty ghost table. *)
Theorem detect_ghost_trips_rerun_on_empty_clean_table :
  exists w' w'',
    detect_ghost_trips 0%nat (Sample.world_of (Sample.table [Sample.speeding])) =
      (Returns (2%nat, 1%nat), w') /\
    heap w' !! 2%nat = Some (Sample.table []) /\
    detect_ghost_trips 2%nat w' = (Raises ZeroDivisionError, w'').
Proof.
  eexists _, _.
  split; [vm_compute; reflexivity|].
  split; [reflexivity|].
  vm_compute. reflexivity.
Qed.

(** C9, at two well-formed tables: on the table without records, which
    has every required column, the classifier raises ZeroDivisionError;
    on a record of zero duration, whose average speed [process_file]
    computed as +infinity, it returns, with the record in the ghost
    table. *)
Theorem detect_ghost_trips_raises_on_well_formed_empty_table :
  has_columns (Sample.table []) classifier_columns = true /\
  (exists w',
     detect_ghost_trips 0%nat (Sample.world_of (Sample.table [])) =
       (Raises ZeroDivisionError, w')) /\
  compute_avg_speed 5 0 = infinity /\
  (exists w',
     detect_ghost_trips 0%nat (Sample.world_of (Sample.table [Sample.zero_duration])) =
       (Returns (2%nat, 1%nat), w') /\
     heap w' !! 1%nat = Some (Sample.table [Sample.zero_duration])).
Proof.
  split; [reflexivity|].
  split; [eexists; vm_compute; reflexivity|].
  split; [reflexivity|].
  eexists. split; [vm_compute; reflexivity | reflexivity].
Qed.

(** ** The analyzer, step by step *)

Lemma has_column_add_column_same cols name rs :
  has_column (mkDF (add_column name cols) rs) name = true.
Proof.
  unfold has_column, add_column. simpl.
  apply bool_decide_eq_true.
  case_bool_decide; [assumption|].
  apply elem_of_app. right. apply list_elem_of_singleton. reflexivity.
Qed.

Lemma has_column_add_column cols name other rs rs' :
  has_column (mkDF cols rs) other = true ->
  has_column (mkDF (add_column name cols) rs') other = true.
Proof.
  unfold has_column, add_column. simpl.
  rewrite !bool_decide_eq_true. intros Hin.
  case_bool_decide; [assumption|].
  apply elem_of_app. left. assumption.
Qed.

Lemma setitem_map {A} (c : Column A) upd (f : Row -> A) (fr : DataFrame) :
  setitem c upd (map f (rows fr)) fr =
  mkDF (add_column (cname c) (columns fr)) (map (fun r => upd (f r) r) (rows fr)).
Proof.
  unfold setitem. rewrite zip_with_map_self. reflexivity.
Qed.

Lemma for_each_print {A} (f : A -> line) (l : list A) (w : world) :
  for_each l (fun x => print (f x)) w =
  (Returns tt, mkWorld (heap w) (stdout w ++ map f l) (files w)).
Proof.
  revert w. induction l as [|x l IH]; intros w; simpl.
  - unfold ret. rewrite app_nil_r. destruct w; reflexivity.
  - unfold bind, print at 1. rewrite IH. simpl.
    rewrite <- app_assoc. reflexivity.
Qed.

(** *** Stepping through the monad *)

Lemma bind_print {B} (l : line) (k : unit -> M B) (w : world) :
  bind (print l) k w = k tt (mkWorld (heap w) (stdout w ++ [l]) (files w)).
Proof. reflexivity. Qed.

Lemma bind_load {B} (r : ref) (k : DataFrame -> M B) (w : world) (fr : DataFrame) :
  heap w !! r = Some fr -> bind (load r) k w = k fr w.
Proof. intros H. unfold bind, load. rewrite H. reflexivity. Qed.

Lemma bind_modify {B} (r : ref) f (k : unit -> M B) (w : world) (fr : DataFrame) :
  heap w !! r = Some fr ->
  bind (modify r f) k w =
  k tt (mkWorld (<[r := f fr]> (heap w)) (stdout w) (files w)).
Proof. intros H. unfold bind, modify. rewrite H. reflexivity. Qed.

Lemma bind_lift_returns {A B} (a : A) (k : A -> M B) (w : world) :
  bind (lift (Returns a)) k w = k a w.
Proof. reflexivity. Qed.

Lemma bind_ret {A B} (a : A) (k : A -> M B) (w : world) :
  bind (ret a) k w = k a w.
Proof. reflexivity. Qed.

Lemma bind_assoc {A B C} (m : M A) (f : A -> M B) (g : B -> M C) (w : world) :
  bind (bind m f) g w = bind m (fun x => bind (f x) g) w.
Proof. unfold bind. destruct (m w) as [[a|e] w']; reflexivity. Qed.

Lemma getitem_returns {A} (fr : DataFrame) (c : Column A) :
  has_column fr (cname c) = true -> getitem fr c = Returns (map (cget c) (rows fr)).
Proof. intros H. unfold getitem. rewrite H. reflexivity. Qed.

Lemma isin_map {A} (f : A -> Z) (l : list A) (values : list Z) :
  isin (map f l) values = map (fun r => existsb (Z.eqb (f r)) values) l.
Proof. unfold isin. apply map_map. Qed.

Lemma bool_index_map (fr : DataFrame) (f : Row -> bool) :
  bool_index fr (map f (rows fr)) = mkDF (columns fr) (List.filter f (rows fr)).
Proof. unfold bool_index. rewrite select_map. reflexivity. Qed.

Lemma bool_index_mk cols (l : list Row) (f : Row -> bool) :
  bool_index (mkDF cols l) (map f l) = mkDF cols (List.filter f l).
Proof. apply (bool_index_map (mkDF cols l)). Qed.

Lemma has_columns_analyzer fr :
  has_columns fr analyzer_columns = true ->
  has_column fr "pickup_loc" = true /\ has_column fr "dropoff_loc" = true /\
  has_column fr "pickup_time" = true /\
  has_column fr "congestion_surcharge" = true.
Proof.
  unfold has_columns, analyzer_columns. simpl.
  rewrite !andb_true_iff. tauto.
Qed.

Lemma analyze_congestion_zone_run w df fr :
  heap w !! df = Some fr ->
  has_columns fr analyzer_columns = true ->
  analyze_congestion_zone df w =
    (Returns df,
     mkWorld (<[df := flagged fr]> (heap w))
             (stdout w ++ PAnalyzing :: compliance_report (flagged fr))
             (files w)).
Proof.
  intros Hdf Hcols.
  destruct (has_columns_analyzer fr Hcols) as (Hp & Hd & Ht & Hs).
  pose proof (lookup_lt_Some _ _ _ Hdf) as Hlt.
  destruct fr as [cols rs].
  unfold analyze_congestion_zone.
  rewrite bind_print; cbv beta.
  erewrite bind_load by (cbn [heap]; exact Hdf); cbv beta.
  rewrite (getitem_returns _ Col.pickup_loc Hp), bind_lift_returns; cbv beta.
  erewrite bind_modify by (cbn [heap]; exact Hdf); cbv beta; cbn [heap stdout files].
  cbn [cget Col.pickup_loc]. rewrite isin_map, setitem_map.
  cbn [cname Col.pickup_in_zone columns rows].
  erewrite bind_load by (cbn [heap]; apply list_lookup_insert_eq; exact Hlt); cbv beta.
  rewrite (getitem_returns _ Col.dropoff_loc) by (apply has_column_add_column with (rs := rs); exact Hd).
  rewrite bind_lift_returns; cbv beta.
  erewrite bind_modify by (cbn [heap]; apply list_lookup_insert_eq; exact Hlt).
  cbv beta; cbn [heap stdout files]. rewrite list_insert_insert_eq.
  rewrite isin_map, setitem_map.
  cbn [cget cname Col.dropoff_loc Col.dropoff_in_zone columns rows]. rewrite map_map.
  erewrite bind_load by (cbn [heap]; apply list_lookup_insert_eq; exact Hlt); cbv beta.
  rewrite (getitem_returns _ Col.pickup_in_zone) by (apply has_column_add_column with (rs := rs); apply has_column_add_column_same).
  rewrite bind_lift_returns; cbv beta.
  rewrite (getitem_returns _ Col.dropoff_in_zone) by apply has_column_add_column_same.
  rewrite bind_lift_returns; cbv beta.
  erewrite bind_modify by (cbn [heap]; apply list_lookup_insert_eq; exact Hlt).
  cbv beta; cbn [heap stdout files]. rewrite list_insert_insert_eq.
  unfold mask_and, mask_not. rewrite map_map, zip_with_map_same, setitem_map.
  cbn [cget cname Col.pickup_in_zone Col.dropoff_in_zone Col.enters_zone columns rows].
  rewrite map_map.
  match goal with
  | |- context [<[df := ?F]> (heap w)] =>
      change F with (flagged (mkDF cols rs))
  end.
  assert (HFt : has_column (flagged (mkDF cols rs)) "pickup_time" = true)
    by (unfold flagged; do 3 apply has_column_add_column with (rs := rs); exact Ht).
  assert (HFs : has_column (flagged (mkDF cols rs)) "congestion_surcharge" = true)
    by (unfold flagged; do 3 apply has_column_add_column with (rs := rs); exact Hs).
  assert (HFp : has_column (flagged (mkDF cols rs)) "pickup_loc" = true)
    by (unfold flagged; do 3 apply has_column_add_column with (rs := rs); exact Hp).
  assert (HFe : has_column (flagged (mkDF cols rs)) "enters_zone" = true)
    by apply has_column_add_column_same.
  generalize dependent (flagged (mkDF cols rs)). intros F HFt HFs HFp HFe.
  erewrite bind_load by (cbn [heap]; apply list_lookup_insert_eq; exact Hlt); cbv beta.
  rewrite (getitem_returns _ Col.pickup_time HFt), bind_lift_returns; cbv beta.
  unfold ge_date. rewrite map_map.
  cbn [cget Col.pickup_time].
  change (map (fun x : Row => match pickup_time x with
                              | NaT => false
                              | Ts ns => date_ns 2025 1 5 <=? ns
                              end) (rows F))
    with (map post_toll_row (rows F)).
  rewrite (bool_index_map F post_toll_row).
  rewrite (getitem_returns _ Col.enters_zone) by exact HFe.
  rewrite bind_lift_returns; cbv beta.
  rewrite (bool_index_map (mkDF _ _) enters_zone).
  cbn [cget Col.enters_zone rows columns].
  fold (zone_entries F).
  unfold compliance_report, leakage_report, top_leakage, compliant, non_compliant.
  unfold len at 1. cbn [rows].
  destruct (zone_entries F) as [|z ze] eqn:Hze.
  - cbn [length Nat.ltb Nat.leb]. rewrite bind_ret. reflexivity.
  - set (Z0 := z :: ze) in *.
    replace (0 <? length Z0)%nat with true by reflexivity.
    rewrite (getitem_returns (mkDF (columns F) Z0) Col.congestion_surcharge) by exact HFs.
    rewrite bind_assoc, bind_lift_returns; cbv beta.
    rewrite bind_assoc.
    rewrite truediv_returns by (subst Z0; discriminate).
    rewrite bind_lift_returns; cbv beta.
    rewrite bind_assoc, bind_print; cbv beta.
    rewrite bind_assoc, bind_print; cbv beta.
    rewrite bind_assoc, bind_print; cbv beta.
    rewrite bind_assoc, bind_lift_returns; cbv beta.
    cbn [heap stdout files cget Col.congestion_surcharge rows].
    unfold gt_scalar, eq_scalar. rewrite !map_map.
    change (fun x : Row => PrimFloat.ltb 0 (congestion_surcharge x)) with compliant_row.
    change (fun x : Row => PrimFloat.eqb (congestion_surcharge x) 0) with leakage_row.
    rewrite !bool_index_mk.
    unfold len. cbn [rows columns].
    destruct (List.filter leakage_row Z0) as [|n nc] eqn:Hnc.
    + cbn [length Nat.ltb Nat.leb]. rewrite bind_ret.
      rewrite <- !app_assoc. reflexivity.
    + set (N0 := n :: nc) in *.
      replace (0 <? length N0)%nat with true by reflexivity.
      rewrite (getitem_returns (mkDF (columns F) N0) Col.pickup_loc) by exact HFp.
      rewrite bind_assoc, bind_lift_returns; cbv beta.
      rewrite bind_assoc, bind_print; cbv beta.
      unfold bind at 1. rewrite for_each_print.
      cbn [heap stdout files rows cget Col.pickup_loc]. unfold ret.
      rewrite <- !app_assoc. reflexivity.
Qed.

(** ** Claims on the zone set and the flags *)

Lemma in_zone_iff (loc : Z) : in_zone loc = true <-> In loc CONGESTION_ZONE_IDS.
Proof.
  unfold in_zone. rewrite existsb_exists. split.
  - intros (x & Hx & Heq). apply Z.eqb_eq in Heq. subst x. exact Hx.
  - intros H. exists loc. split; [exact H | apply Z.eqb_refl].
Qed.

Lemma CONGESTION_ZONE_IDS_NoDup : NoDup CONGESTION_ZONE_IDS.
Proof. apply (bool_decide_unpack _). vm_compute. exact I. Qed.

(** C3, as stated: no set of exactly 64 identifiers is the set the
    analyzer tests membership in. *)
Lemma zone_set_is_not_64_ids :
  ~ exists ids : list Z,
      NoDup ids /\ length ids = 64%nat /\
      forall loc, in_zone loc = true <-> In loc ids.
Proof.
  intros (ids & Hnd & Hlen & Hmem).
  assert (Hperm : Permutation CONGESTION_ZONE_IDS ids).
  { apply NoDup_Permutation; [apply CONGESTION_ZONE_IDS_NoDup | exact Hnd |].
    intros x. rewrite !list_elem_of_In, <- Hmem. symmetry. apply in_zone_iff. }
  apply Permutation_length in Hperm. rewrite Hlen in Hperm.
  vm_compute in Hperm. discriminate.
Qed.

(** C3, amended: the zone set the analyzer tests membership in is the
    constant list [CONGESTION_ZONE_IDS], which holds exactly 67 integer
    identifiers, no two of them equal. *)
Theorem zone_set_is_67_fixed_ids :
  length CONGESTION_ZONE_IDS = 67%nat /\
  NoDup CONGESTION_ZONE_IDS /\
  (forall loc, in_zone loc = true <-> In loc CONGESTION_ZONE_IDS) /\
  (forall s, isin s CONGESTION_ZONE_IDS = map in_zone s).
Proof.
  split; [reflexivity|].
  split; [apply CONGESTION_ZONE_IDS_NoDup|].
  split; [apply in_zone_iff|].
  reflexivity.
Qed.

Lemma flag_row_fields (r : Row) :
  pickup_loc (flag_row r) = pickup_loc r /\
  dropoff_loc (flag_row r) = dropoff_loc r /\
  pickup_in_zone (flag_row r) = in_zone (pickup_loc r) /\
  dropoff_in_zone (flag_row r) = in_zone (dropoff_loc r) /\
  enters_zone (flag_row r) =
    negb (pickup_in_zone (flag_row r)) && dropoff_in_zone (flag_row r).
Proof. repeat split. Qed.

Lemma analyze_congestion_zone_heap w df fr :
  heap w !! df = Some fr ->
  has_columns fr analyzer_columns = true ->
  exists w',
    analyze_congestion_zone df w = (Returns df, w') /\
    heap w' !! df = Some (flagged fr) /\
    stdout w' = stdout w ++ PAnalyzing :: compliance_report (flagged fr).
Proof.
  intros Hdf Hcols.
  eexists. split; [apply analyze_congestion_zone_run; eassumption|].
  simpl. split; [|reflexivity].
  apply list_lookup_insert_eq. eapply lookup_lt_Some. exact Hdf.
Qed.

(** C4: for every record the analyzer sets pickup_in_zone and
    dropoff_in_zone to the membership of the pickup and dropoff location
    in the zone set, and enters_zone to (not pickup_in_zone) and
    dropoff_in_zone; a record from location 100 to location 4 has
    enters_zone false. *)
Theorem analyze_congestion_zone_flags w df fr :
  heap w !! df = Some fr ->
  has_columns fr analyzer_columns = true ->
  exists w' fr',
    analyze_congestion_zone df w = (Returns df, w') /\
    heap w' !! df = Some fr' /\
    length (rows fr') = length (rows fr) /\
    (forall i r, rows fr !! i = Some r ->
       exists r',
         rows fr' !! i = Some r' /\
         pickup_loc r' = pickup_loc r /\ dropoff_loc r' = dropoff_loc r /\
         (pickup_in_zone r' = true <-> In (pickup_loc r) CONGESTION_ZONE_IDS) /\
         (dropoff_in_zone r' = true <-> In (dropoff_loc r) CONGESTION_ZONE_IDS) /\
         enters_zone r' = negb (pickup_in_zone r') && dropoff_in_zone r' /\
         (pickup_loc r = 100 -> dropoff_loc r = 4 -> enters_zone r' = false)).
Proof.
  intros Hdf Hcols.
  destruct (analyze_congestion_zone_heap w df fr Hdf Hcols) as (w' & Hrun & Hheap & _).
  exists w', (flagged fr).
  split; [exact Hrun|]. split; [exact Hheap|].
  split; [apply length_map|].
  intros i r Hi. exists (flag_row r).
  split; [simpl; rewrite list_lookup_fmap, Hi; reflexivity|].
  destruct (flag_row_fields r) as (Hpl & Hdl & Hpz & Hdz & Hez).
  split; [exact Hpl|]. split; [exact Hdl|].
  split; [rewrite Hpz; apply in_zone_iff|].
  split; [rewrite Hdz; apply in_zone_iff|].
  split; [exact Hez|].
  intros H100 H4. rewrite Hez, Hpz, Hdz, H100, H4. reflexivity.
Qed.

Lemma analyze_congestion_zone_flags_witness :
  let fr := Sample.table [Sample.trip 100 4 20 15 30 5 0] in
  let w := Sample.world_of fr in
  heap w !! 0%nat = Some fr /\
  has_columns fr analyzer_columns = true /\
  exists w' fr',
    analyze_congestion_zone 0%nat w = (Returns 0%nat, w') /\
    heap w' !! 0%nat = Some fr' /\
    length (rows fr') = length (rows fr) /\
    (forall i r, rows fr !! i = Some r ->
       exists r',
         rows fr' !! i = Some r' /\
         pickup_loc r' = pickup_loc r /\ dropoff_loc r' = dropoff_loc r /\
         (pickup_in_zone r' = true <-> In (pickup_loc r) CONGESTION_ZONE_IDS) /\
         (dropoff_in_zone r' = true <-> In (dropoff_loc r) CONGESTION_ZONE_IDS) /\
         enters_zone r' = negb (pickup_in_zone r') && dropoff_in_zone r' /\
         (pickup_loc r = 100 -> dropoff_loc r = 4 -> enters_zone r' = false)).
Proof.
  split; [reflexivity|].
  split; [reflexivity|].
  apply (analyze_congestion_zone_flags
           (Sample.world_of (Sample.table [Sample.trip 100 4 20 15 30 5 0]))
           0%nat (Sample.table [Sample.trip 100 4 20 15 30 5 0]));
    reflexivity.
Defined.

(** ** Claims on the compliance rate *)

(** C5, as stated, at a table whose only trip starts inside the zone, so
    that the qualifying set is empty: the analyzer returns the table it
    was given and prints its first line only; nothing, sentinel or
    number, reports a compliance rate. *)
Lemma analyze_congestion_zone_silent_without_zone_entries :
  let fr := Sample.table [Sample.trip 100 4 20 15 30 5 0] in
  zone_entries (flagged fr) = [] /\
  analyze_congestion_zone 0%nat (Sample.world_of fr) =
    (Returns 0%nat, mkWorld [flagged fr] [PAnalyzing] ∅) /\
  existsb reports_rate [PAnalyzing] = false.
Proof.
  split; [reflexivity|].
  split; [vm_compute; reflexivity | reflexivity].
Qed.

Lemma rate_in_unit_interval (c n : nat) :
  (c <= n)%nat -> (0 < n)%nat ->
  (0 <= Z.of_nat c # Pos.of_nat n)%Q /\ (Z.of_nat c # Pos.of_nat n <= 1)%Q.
Proof.
  intros Hle Hpos. unfold Qle. simpl.
  assert (Hn : Z.pos (Pos.of_nat n) = Z.of_nat n).
  { destruct n; [lia|]. rewrite <- Pos.of_nat_succ, Zpos_P_of_succ_nat. lia. }
  rewrite Hn. lia.
Qed.

(** C5, amended: when the qualifying set is empty the analyzer divides
    nothing and does not fail; it returns the table and prints no
    compliance line at all.  When it is not empty, the rate printed is
    the number of qualifying records with congestion_surcharge > 0 over
    the number of qualifying records, and lies in [0, 1]. *)
Theorem analyze_congestion_zone_compliance_rate w df fr :
  heap w !! df = Some fr ->
  has_columns fr analyzer_columns = true ->
  exists w' fr' out,
    analyze_congestion_zone df w = (Returns df, w') /\
    heap w' !! df = Some fr' /\
    stdout w' = stdout w ++ PAnalyzing :: out /\
    let qualifying :=
      List.filter enters_zone (List.filter post_toll_row (rows fr')) in
    let charged :=
      List.filter (fun r => PrimFloat.ltb 0 (congestion_surcharge r)) qualifying in
    let rate := Z.of_nat (length charged) # Pos.of_nat (length qualifying) in
    (qualifying = [] -> out = []) /\
    (qualifying <> [] ->
       (exists rest,
          out = [PZoneEntries (length qualifying); PCompliant (length charged);
                 PComplianceRate rate] ++ rest /\
          existsb reports_rate rest = false) /\
       (0 <= rate)%Q /\ (rate <= 1)%Q).
Proof.
  intros Hdf Hcols.
  destruct (analyze_congestion_zone_heap w df fr Hdf Hcols) as (w' & Hrun & Hheap & Hout).
  exists w', (flagged fr), (compliance_report (flagged fr)).
  split; [exact Hrun|]. split; [exact Hheap|]. split; [exact Hout|].
  cbv zeta. fold (zone_entries (flagged fr)).
  unfold compliance_report, compliant, compliant_row.
  destruct (zone_entries (flagged fr)) as [|z ze] eqn:Hze.
  - split; [reflexivity | congruence].
  - split; [discriminate|]. intros _.
    split.
    + eexists. split; [reflexivity|].
      unfold leakage_report. destruct (non_compliant (flagged fr)); [reflexivity|].
      simpl. induction (top_leakage (flagged fr)); [reflexivity | assumption].
    + apply rate_in_unit_interval; [apply filter_length_le | simpl; lia].
Qed.

Lemma analyze_congestion_zone_compliance_rate_witness :
  let fr := Sample.table [Sample.trip 1 4 20 15 30 5 2.5; Sample.trip 1 4 20 15 30 5 0] in
  let w := Sample.world_of fr in
  heap w !! 0%nat = Some fr /\
  has_columns fr analyzer_columns = true /\
  exists w' fr' out,
    analyze_congestion_zone 0%nat w = (Returns 0%nat, w') /\
    heap w' !! 0%nat = Some fr' /\
    stdout w' = stdout w ++ PAnalyzing :: out /\
    let qualifying :=
      List.filter enters_zone (List.filter post_toll_row (rows fr')) in
    let charged :=
      List.filter (fun r => PrimFloat.ltb 0 (congestion_surcharge r)) qualifying in
    let rate := Z.of_nat (length charged) # Pos.of_nat (length qualifying) in
    (qualifying = [] -> out = []) /\
    (qualifying <> [] ->
       (exists rest,
          out = [PZoneEntries (length qualifying); PCompliant (length charged);
                 PComplianceRate rate] ++ rest /\
          existsb reports_rate rest = false) /\
       (0 <= rate)%Q /\ (rate <= 1)%Q).
Proof.
  split; [reflexivity|].
  split; [reflexivity|].
  apply (analyze_congestion_zone_compliance_rate
           (Sample.world_of
              (Sample.table [Sample.trip 1 4 20 15 30 5 2.5; Sample.trip 1 4 20 15 30 5 0]))
           0%nat
           (Sample.table [Sample.trip 1 4 20 15 30 5 2.5; Sample.trip 1 4 20 15 30 5 0]));
    reflexivity.
Defined.

(** Ten qualifying records, six of them charged, the other four from
    locations 51 (three) and 52 (one); a trip from location 50, which
    is in the zone, would not qualify. *)
Example analyze_congestion_zone_compliance_example :
  let charged := Sample.trip 1 4 20 15 30 5 2.5 in
  let free pu := Sample.trip pu 4 20 15 30 5 0 in
  let fr := Sample.table [charged; free 51; charged; free 52; charged; free 51;
                          charged; charged; free 51; charged] in
  stdout (analyze_congestion_zone 0%nat (Sample.world_of fr)).2 =
    [PAnalyzing; PZoneEntries 10; PCompliant 6; PComplianceRate (6 # 10);
     PTopLeakageHeader; PLeakage 51 3; PLeakage 52 1].
Proof. vm_compute. reflexivity. Qed.

(** ** Claims on the leakage ranking *)

Lemma leakage_lines_map (l : list (Z * nat)) :
  leakage_lines (map (fun x => PLeakage x.1 x.2) l) = l.
Proof.
  induction l as [|[loc c] l IH]; simpl; [reflexivity|].
  f_equal. exact IH.
Qed.

Lemma leakage_lines_report (fr : DataFrame) :
  leakage_lines (PAnalyzing :: compliance_report fr) = top_leakage fr.
Proof.
  unfold compliance_report, leakage_report.
  destruct (zone_entries fr) as [|z ze] eqn:Hze.
  - unfold top_leakage, non_compliant. rewrite Hze. reflexivity.
  - destruct (non_compliant fr) as [|n nc] eqn:Hnc.
    + unfold top_leakage. rewrite Hnc. reflexivity.
    + simpl. apply leakage_lines_map.
Qed.

(** On a float64, [== 0], [> 0] and [< 0] exclude one another. *)
Lemma surcharge_sign (x : float) :
  (PrimFloat.eqb x 0 = true -> PrimFloat.ltb 0 x = false) /\
  (PrimFloat.ltb x 0 = true ->
   PrimFloat.eqb x 0 = false /\ PrimFloat.ltb 0 x = false).
Proof.
  rewrite FloatAxioms.eqb_spec, !FloatAxioms.ltb_spec.
  change (Prim2SF 0) with (S754_zero false).
  destruct (Prim2SF x) as [s|s| |s m e]; try destruct s; simpl;
    split; intros; try discriminate; auto.
Qed.

(** C6: two qualifying trips, one with a null and one with a negative
    surcharge.  Both are zone entries and neither is compliant, so the
    analyzer reports 0 compliant of 2; but [non_compliant] is selected
    with [== 0], which neither passes, so the population of the ranking
    is empty and no leakage line is printed for records the rate counts
    as not compliant. *)
Lemma leakage_population_leaves_out_null_and_negative_surcharge :
  let fr := Sample.table [Sample.trip 1 4 20 15 30 5 nan;
                          Sample.trip 2 4 20 15 30 5 (-2.5)] in
  zone_entries (flagged fr) = rows (flagged fr) /\
  compliant (flagged fr) = [] /\
  non_compliant (flagged fr) = [] /\
  analyze_congestion_zone 0%nat (Sample.world_of fr) =
    (Returns 0%nat,
     mkWorld [flagged fr]
       [PAnalyzing; PZoneEntries 2; PCompliant 0; PComplianceRate (0 # 2)] ∅).
Proof.
  split; [reflexivity|].
  split; [reflexivity|].
  split; [reflexivity|].
  vm_compute. reflexivity.
Qed.

(** What the code groups, on every table: the leakage lines are computed
    from the qualifying records whose congestion_surcharge equals 0.
    None of them is compliant; a qualifying record with a null or a
    negative surcharge is not compliant either, and is not among
    them. *)
Theorem analyze_congestion_zone_leakage_population w df fr :
  heap w !! df = Some fr ->
  has_columns fr analyzer_columns = true ->
  exists w' fr' out,
    analyze_congestion_zone df w = (Returns df, w') /\
    heap w' !! df = Some fr' /\
    stdout w' = stdout w ++ out /\
    let qualifying :=
      List.filter enters_zone (List.filter post_toll_row (rows fr')) in
    let leaking :=
      List.filter (fun r => PrimFloat.eqb (congestion_surcharge r) 0) qualifying in
    leakage_lines out = nlargest 3 (groupby_size (map pickup_loc leaking)) /\
    (forall r, In r leaking <->
               In r qualifying /\ PrimFloat.eqb (congestion_surcharge r) 0 = true) /\
    (forall r, In r leaking -> PrimFloat.ltb 0 (congestion_surcharge r) = false) /\
    (forall r, In r qualifying ->
               congestion_surcharge r = nan \/
               PrimFloat.ltb (congestion_surcharge r) 0 = true ->
               ~ In r leaking /\ PrimFloat.ltb 0 (congestion_surcharge r) = false).
Proof.
  intros Hdf Hcols.
  destruct (analyze_congestion_zone_heap w df fr Hdf Hcols) as (w' & Hrun & Hheap & Hout).
  exists w', (flagged fr), (PAnalyzing :: compliance_report (flagged fr)).
  split; [exact Hrun|]. split; [exact Hheap|]. split; [exact Hout|].
  cbv zeta. split; [apply leakage_lines_report|].
  split; [intros r; apply filter_In|].
  split.
  - intros r Hr. apply filter_In in Hr. destruct Hr as [_ Hr].
    apply (proj1 (surcharge_sign _)). exact Hr.
  - intros r _ Hr. rewrite filter_In.
    destruct Hr as [Hr|Hr].
    + rewrite Hr. split; [|reflexivity]. intros [_ H]. discriminate H.
    + apply (proj2 (surcharge_sign _)) in Hr. destruct Hr as [He Hl].
      split; [|exact Hl]. intros [_ H]. congruence.
Qed.

Lemma analyze_congestion_zone_leakage_population_witness :
  let fr := Sample.table [Sample.trip 1 4 20 15 30 5 0; Sample.trip 2 4 20 15 30 5 nan] in
  let w := Sample.world_of fr in
  heap w !! 0%nat = Some fr /\
  has_columns fr analyzer_columns = true /\
  exists w' fr' out,
    analyze_congestion_zone 0%nat w = (Returns 0%nat, w') /\
    heap w' !! 0%nat = Some fr' /\
    stdout w' = stdout w ++ out /\
    let qualifying :=
      List.filter enters_zone (List.filter post_toll_row (rows fr')) in
    let leaking :=
      List.filter (fun r => PrimFloat.eqb (congestion_surcharge r) 0) qualifying in
    leakage_lines out = nlargest 3 (groupby_size (map pickup_loc leaking)) /\
    (forall r, In r leaking <->
               In r qualifying /\ PrimFloat.eqb (congestion_surcharge r) 0 = true) /\
    (forall r, In r leaking -> PrimFloat.ltb 0 (congestion_surcharge r) = false) /\
    (forall r, In r qualifying ->
               congestion_surcharge r = nan \/
               PrimFloat.ltb (congestion_surcharge r) 0 = true ->
               ~ In r leaking /\ PrimFloat.ltb 0 (congestion_surcharge r) = false).
Proof.
  split; [reflexivity|].
  split; [reflexivity|].
  apply (analyze_congestion_zone_leakage_population
           (Sample.world_of
              (Sample.table [Sample.trip 1 4 20 15 30 5 0; Sample.trip 2 4 20 15 30 5 nan]))
           0%nat
           (Sample.table [Sample.trip 1 4 20 15 30 5 0; Sample.trip 2 4 20 15 30 5 nan]));
    reflexivity.
Defined.

(** *** [groupby(...).size()] counts, with ascending keys *)

Lemma count_key_lookup (k k' : Z) (acc : list (Z * nat)) :
  lookup_count k' (count_key k acc) =
  ((if Z.eqb k' k then 1 else 0) + lookup_count k' acc)%nat.
Proof.
  induction acc as [|[k0 n0] acc IH]; simpl.
  - lia.
  - destruct (k <? k0) eqn:Hlt; simpl.
    + reflexivity.
    + destruct (k =? k0) eqn:Heq; simpl.
      * apply Z.eqb_eq in Heq. subst k0.
        destruct (k' =? k); lia.
      * rewrite IH. lia.
Qed.

Lemma groupby_size_lookup (k : Z) (keys : list Z) :
  lookup_count k (groupby_size keys) = count_loc k keys.
Proof.
  unfold groupby_size, count_loc.
  induction keys as [|k0 keys IH]; simpl; [reflexivity|].
  rewrite count_key_lookup, IH.
  destruct (k =? k0); simpl; lia.
Qed.

Lemma count_key_keys (k : Z) (acc : list (Z * nat)) (y : Z * nat) :
  In y (count_key k acc) -> y.1 = k \/ exists y', In y' acc /\ y'.1 = y.1.
Proof.
  induction acc as [|[k0 n0] acc IH]; simpl.
  - intros [<-|[]]. left. reflexivity.
  - destruct (k <? k0) eqn:Hlt.
    + intros [<-|[<-|Hin]]; [left; reflexivity | right | right].
      * exists (k0, n0). auto.
      * exists y. auto.
    + destruct (k =? k0) eqn:Heq.
      * apply Z.eqb_eq in Heq. subst k0.
        intros [<-|Hin]; [left; reflexivity | right; exists y; auto].
      * intros [<-|Hin]; [right; exists (k0, n0); auto|].
        destruct (IH Hin) as [Hk|(y' & Hy' & Hk)]; [left; exact Hk|].
        right. exists y'. auto.
Qed.

Lemma count_key_sorted (k : Z) (acc : list (Z * nat)) :
  StronglySorted key_lt acc -> StronglySorted key_lt (count_key k acc).
Proof.
  induction 1 as [|[k0 n0] acc Hsorted IH Hall]; simpl.
  - repeat constructor.
  - destruct (k <? k0) eqn:Hlt.
    + apply Z.ltb_lt in Hlt.
      constructor; [constructor; assumption|].
      constructor; [exact Hlt|].
      eapply List.Forall_impl; [|exact Hall].
      unfold key_lt. simpl. intros a Ha. lia.
    + apply Z.ltb_ge in Hlt.
      destruct (k =? k0) eqn:Heq.
      * constructor; assumption.
      * apply Z.eqb_neq in Heq.
        constructor; [exact IH|].
        apply List.Forall_forall. intros y Hy.
        destruct (count_key_keys _ _ _ Hy) as [Hk|(y' & Hy' & Hk)].
        -- unfold key_lt. simpl. lia.
        -- rewrite List.Forall_forall in Hall. specialize (Hall y' Hy').
           unfold key_lt in *. simpl in *. lia.
Qed.

Lemma groupby_size_sorted (keys : list Z) :
  StronglySorted key_lt (groupby_size keys).
Proof.
  unfold groupby_size.
  induction keys as [|k keys IH]; simpl; [constructor|].
  apply count_key_sorted, IH.
Qed.

Lemma lookup_count_above (k : Z) (n : nat) (acc : list (Z * nat)) :
  List.Forall (key_lt (k, n)) acc -> lookup_count k acc = 0%nat.
Proof.
  induction 1 as [|[k0 n0] acc Hlt _ IH]; simpl; [reflexivity|].
  unfold key_lt in Hlt. simpl in Hlt.
  destruct (k =? k0) eqn:Heq; [apply Z.eqb_eq in Heq; lia|].
  exact IH.
Qed.

Lemma lookup_count_entry (k : Z) (n : nat) (acc : list (Z * nat)) :
  StronglySorted key_lt acc -> In (k, n) acc -> lookup_count k acc = n.
Proof.
  induction 1 as [|[k0 n0] acc Hsorted IH Hall]; simpl; [intros []|].
  intros [Heq|Hin].
  - inversion Heq; subst k0 n0. rewrite Z.eqb_refl.
    rewrite (lookup_count_above k n acc Hall). lia.
  - rewrite List.Forall_forall in Hall. specialize (Hall _ Hin).
    unfold key_lt in Hall. simpl in Hall.
    destruct (k =? k0) eqn:Heq; [apply Z.eqb_eq in Heq; lia|].
    rewrite (IH Hin). reflexivity.
Qed.

Lemma lookup_count_positive (k : Z) (acc : list (Z * nat)) :
  (0 < lookup_count k acc)%nat -> exists n, In (k, n) acc.
Proof.
  induction acc as [|[k0 n0] acc IH]; simpl; [lia|].
  destruct (k =? k0) eqn:Heq.
  - apply Z.eqb_eq in Heq. subst k0. intros _. exists n0. auto.
  - intros Hpos. destruct IH as [n Hn]; [lia|]. exists n. auto.
Qed.

Lemma count_key_positive (k : Z) (acc : list (Z * nat)) :
  List.Forall (fun x => (0 < x.2)%nat) acc ->
  List.Forall (fun x => (0 < x.2)%nat) (count_key k acc).
Proof.
  induction 1 as [|[k0 n0] acc Hpos Hall IH]; simpl.
  - repeat constructor.
  - destruct (k <? k0); [repeat constructor; assumption|].
    destruct (k =? k0); constructor; simpl in *; try assumption. lia.
Qed.

Lemma groupby_size_positive (keys : list Z) :
  List.Forall (fun x => (0 < x.2)%nat) (groupby_size keys).
Proof.
  unfold groupby_size.
  induction keys as [|k keys IH]; simpl; [constructor|].
  apply count_key_positive, IH.
Qed.

(** Every entry is a location of the keys with the number of its records. *)
Lemma groupby_size_entry (keys : list Z) (k : Z) (n : nat) :
  In (k, n) (groupby_size keys) -> n = count_loc k keys /\ (0 < n)%nat.
Proof.
  intros Hin. split.
  - rewrite <- groupby_size_lookup. symmetry.
    apply lookup_count_entry; [apply groupby_size_sorted | exact Hin].
  - pose proof (groupby_size_positive keys) as Hpos.
    rewrite List.Forall_forall in Hpos. apply (Hpos _ Hin).
Qed.

(** Every location of the keys has its entry. *)
Lemma groupby_size_complete (keys : list Z) (k : Z) :
  In k keys -> In (k, count_loc k keys) (groupby_size keys).
Proof.
  intros Hin.
  assert (Hpos : (0 < count_loc k keys)%nat).
  { unfold count_loc.
    assert (Hk : In k (List.filter (Z.eqb k) keys))
      by (apply filter_In; split; [exact Hin | apply Z.eqb_refl]).
    destruct (List.filter (Z.eqb k) keys); [destruct Hk | simpl; lia]. }
  rewrite <- groupby_size_lookup in Hpos.
  destruct (lookup_count_positive _ _ Hpos) as [n Hn].
  destruct (groupby_size_entry _ _ _ Hn) as [-> _]. exact Hn.
Qed.

(** *** [nlargest] ranks by count, first occurrence first *)

Lemma insert_desc_perm (x : Z * nat) (l : list (Z * nat)) :
  Permutation (insert_desc x l) (x :: l).
Proof.
  induction l as [|y l IH]; simpl; [reflexivity|].
  destruct (x.2 <? y.2)%nat; [|reflexivity].
  rewrite IH. apply perm_swap.
Qed.

Lemma sort_desc_perm (l : list (Z * nat)) : Permutation (sort_desc l) l.
Proof.
  unfold sort_desc.
  induction l as [|x l IH]; simpl; [reflexivity|].
  rewrite insert_desc_perm. constructor. exact IH.
Qed.

(** Inserting an entry whose key is below every key of a ranked list
    keeps the list ranked: the entry goes before the entries of its own
    count. *)
Lemma insert_desc_sorted (x : Z * nat) (l : list (Z * nat)) :
  StronglySorted ranks_before l ->
  List.Forall (key_lt x) l ->
  StronglySorted ranks_before (insert_desc x l).
Proof.
  induction 1 as [|y l Hsorted IH Hall]; intros Hkeys; simpl.
  - repeat constructor.
  - inversion Hkeys as [|? ? Hxy Hkeys']; subst.
    destruct (x.2 <? y.2)%nat eqn:Hlt.
    + apply Nat.ltb_lt in Hlt.
      constructor; [apply IH; exact Hkeys'|].
      apply List.Forall_forall. intros z Hz.
      apply (Permutation_in _ (insert_desc_perm x l)) in Hz.
      destruct Hz as [<-|Hz].
      * left. exact Hlt.
      * rewrite List.Forall_forall in Hall. apply Hall, Hz.
    + apply Nat.ltb_ge in Hlt.
      constructor; [constructor; assumption|].
      apply List.Forall_forall. intros z Hz.
      assert (Hxz : key_lt x z)
        by (rewrite List.Forall_forall in Hkeys; apply Hkeys, Hz).
      assert (Hzy : (z.2 <= y.2)%nat).
      { destruct Hz as [<-|Hz]; [lia|].
        rewrite List.Forall_forall in Hall.
        destruct (Hall z Hz) as [H|[H _]]; lia. }
      unfold ranks_before, key_lt in *.
      destruct (Nat.eq_dec x.2 z.2); [right; split; assumption | left; lia].
Qed.

Lemma sort_desc_sorted (l : list (Z * nat)) :
  StronglySorted key_lt l -> StronglySorted ranks_before (sort_desc l).
Proof.
  unfold sort_desc.
  induction 1 as [|x l Hsorted IH Hall]; simpl; [constructor|].
  apply insert_desc_sorted; [exact IH|].
  apply List.Forall_forall. intros z Hz.
  apply (Permutation_in _ (sort_desc_perm l)) in Hz.
  rewrite List.Forall_forall in Hall. apply Hall, Hz.
Qed.

Lemma StronglySorted_app_inv {A} (R : A -> A -> Prop) (l1 l2 : list A) :
  StronglySorted R (l1 ++ l2) ->
  StronglySorted R l1 /\ forall x y, In x l1 -> In y l2 -> R x y.
Proof.
  induction l1 as [|a l1 IH]; simpl; intros Hs.
  - split; [constructor | intros x y []].
  - inversion Hs as [|? ? Hs' Hall]; subst.
    destruct (IH Hs') as [Hs1 Hcross].
    rewrite List.Forall_forall in Hall.
    split.
    + constructor; [exact Hs1|].
      apply List.Forall_forall. intros z Hz. apply Hall, in_or_app. auto.
    + intros x y [<-|Hx] Hy; [apply Hall, in_or_app; auto | apply Hcross; assumption].
Qed.

Lemma StronglySorted_lookup {A} (R : A -> A -> Prop) (l : list A) :
  StronglySorted R l ->
  forall (i j : nat) (x y : A),
    (i < j)%nat -> l !! i = Some x -> l !! j = Some y -> R x y.
Proof.
  induction 1 as [|a l Hsorted IH Hall]; intros i j x y Hij Hi Hj.
  - destruct i; discriminate.
  - destruct j as [|j]; [lia|].
    destruct i as [|i]; simpl in Hi, Hj.
    + inversion Hi; subst a.
      rewrite List.Forall_forall in Hall. apply Hall.
      apply list_elem_of_In. eapply list_elem_of_lookup_2. exact Hj.
    + apply (IH i j); [lia | assumption | assumption].
Qed.

(** The ranking of the [n] largest groups of the keys. *)
Lemma nlargest_groupby_size (n : nat) (keys : list Z) :
  let top := nlargest n (groupby_size keys) in
  (length top <= n)%nat /\
  (forall loc c, In (loc, c) top -> c = count_loc loc keys /\ (0 < c)%nat) /\
  (forall (i j : nat) x y,
     (i < j)%nat -> top !! i = Some x -> top !! j = Some y -> ranks_before x y) /\
  (forall loc, In loc keys -> ~ In loc (map fst top) ->
     length top = n /\
     forall x, In x top -> ranks_before x (loc, count_loc loc keys)).
Proof.
  cbv zeta. unfold nlargest.
  pose proof (sort_desc_sorted _ (groupby_size_sorted keys)) as Hsorted.
  pose proof (sort_desc_perm (groupby_size keys)) as Hperm.
  set (ranked := sort_desc (groupby_size keys)) in *.
  rewrite <- (take_drop n ranked) in Hsorted.
  destruct (StronglySorted_app_inv _ _ _ Hsorted) as [Htop Hcross].
  split; [rewrite length_take; lia|].
  split.
  - intros loc c Hin. apply groupby_size_entry.
    apply (Permutation_in _ Hperm).
    rewrite <- (take_drop n ranked). apply in_or_app. left. exact Hin.
  - split; [apply StronglySorted_lookup; exact Htop|].
    intros loc Hloc Hnot.
    assert (Hin : In (loc, count_loc loc keys) ranked).
    { apply (Permutation_in _ (Permutation_sym Hperm)).
      apply groupby_size_complete. exact Hloc. }
    rewrite <- (take_drop n ranked) in Hin.
    apply in_app_or in Hin. destruct Hin as [Hin|Hin].
    + exfalso. apply Hnot. apply in_map_iff. exists (loc, count_loc loc keys). auto.
    + split.
      * rewrite length_take.
        destruct (Nat.le_gt_cases n (length ranked)) as [Hle|Hgt]; [lia|].
        rewrite drop_ge in Hin by lia. destruct Hin.
      * intros x Hx. apply Hcross; assumption.
Qed.

(** The order of the leakage lines, over the records the code groups
    (the zone entries with a surcharge equal to 0, [non_compliant] in the
    code): at most three lines, each a pickup location of these records
    with the number of them; the lines are in descending order of that
    number, and of two locations with the same number the one with the
    lower identifier is printed first; a location of these records that
    is not printed ranks after each of the three that are. *)
Theorem analyze_congestion_zone_leakage_ranking w df fr :
  heap w !! df = Some fr ->
  has_columns fr analyzer_columns = true ->
  exists w' fr' out,
    analyze_congestion_zone df w = (Returns df, w') /\
    heap w' !! df = Some fr' /\
    stdout w' = stdout w ++ out /\
    let keys := map pickup_loc (non_compliant fr') in
    let top := leakage_lines out in
    (length top <= 3)%nat /\
    (forall loc c, In (loc, c) top -> c = count_loc loc keys /\ (0 < c)%nat) /\
    (forall (i j : nat) x y,
       (i < j)%nat -> top !! i = Some x -> top !! j = Some y ->
       (y.2 < x.2)%nat \/ (x.2 = y.2 /\ x.1 < y.1)) /\
    (forall loc, In loc keys -> ~ In loc (map fst top) ->
       length top = 3%nat /\
       forall x, In x top ->
         (count_loc loc keys < x.2)%nat \/ (x.2 = count_loc loc keys /\ x.1 < loc)).
Proof.
  intros Hdf Hcols.
  destruct (analyze_congestion_zone_heap w df fr Hdf Hcols) as (w' & Hrun & Hheap & Hout).
  exists w', (flagged fr), (PAnalyzing :: compliance_report (flagged fr)).
  split; [exact Hrun|]. split; [exact Hheap|]. split; [exact Hout|].
  cbv zeta. rewrite leakage_lines_report.
  apply (nlargest_groupby_size 3 (map pickup_loc (non_compliant (flagged fr)))).
Qed.

Lemma analyze_congestion_zone_leakage_ranking_witness :
  let fr := Sample.table [Sample.trip 7 4 20 15 30 5 0; Sample.trip 5 4 20 15 30 5 0;
                          Sample.trip 9 4 20 15 30 5 0; Sample.trip 3 4 20 15 30 5 0;
                          Sample.trip 9 4 20 15 30 5 0] in
  let w := Sample.world_of fr in
  heap w !! 0%nat = Some fr /\
  has_columns fr analyzer_columns = true /\
  exists w' fr' out,
    analyze_congestion_zone 0%nat w = (Returns 0%nat, w') /\
    heap w' !! 0%nat = Some fr' /\
    stdout w' = stdout w ++ out /\
    let keys := map pickup_loc (non_compliant fr') in
    let top := leakage_lines out in
    (length top <= 3)%nat /\
    (forall loc c, In (loc, c) top -> c = count_loc loc keys /\ (0 < c)%nat) /\
    (forall (i j : nat) x y,
       (i < j)%nat -> top !! i = Some x -> top !! j = Some y ->
       (y.2 < x.2)%nat \/ (x.2 = y.2 /\ x.1 < y.1)) /\
    (forall loc, In loc keys -> ~ In loc (map fst top) ->
       length top = 3%nat /\
       forall x, In x top ->
         (count_loc loc keys < x.2)%nat \/ (x.2 = count_loc loc keys /\ x.1 < loc)).
Proof.
  split; [reflexivity|].
  split; [reflexivity|].
  apply (analyze_congestion_zone_leakage_ranking
           (Sample.world_of
              (Sample.table [Sample.trip 7 4 20 15 30 5 0; Sample.trip 5 4 20 15 30 5 0;
                             Sample.trip 9 4 20 15 30 5 0; Sample.trip 3 4 20 15 30 5 0;
                             Sample.trip 9 4 20 15 30 5 0]))
           0%nat
           (Sample.table [Sample.trip 7 4 20 15 30 5 0; Sample.trip 5 4 20 15 30 5 0;
                          Sample.trip 9 4 20 15 30 5 0; Sample.trip 3 4 20 15 30 5 0;
                          Sample.trip 9 4 20 15 30 5 0]));
    reflexivity.
Defined.

(** Four locations, three of them with one record each: the two lower
    identifiers of the three are printed, in ascending order. *)
Example leakage_ranking_of_a_tie :
  let fr := Sample.table [Sample.trip 7 4 20 15 30 5 0; Sample.trip 5 4 20 15 30 5 0;
                          Sample.trip 9 4 20 15 30 5 0; Sample.trip 3 4 20 15 30 5 0;
                          Sample.trip 9 4 20 15 30 5 0] in
  leakage_lines (stdout (analyze_congestion_zone 0%nat (Sample.world_of fr)).2) =
    [(9, 2%nat); (3, 1%nat); (5, 1%nat)].
Proof. vm_compute. reflexivity. Qed.

(** C7: three qualifying trips, none compliant: two from location 1 with
    a null surcharge and one from location 2 with a surcharge of 0.  By
    the number of its records that are not compliant, location 1 (two)
    ranks before location 2 (one).  The analyzer, which reports 0
    compliant of 3, prints one leakage line, for location 2: the records
    with a null surcharge fail the test [== 0] it selects
    [non_compliant] with, so location 1 is not ranked at all. *)
Theorem leakage_ranking_misses_location_with_null_surcharge :
  let fr := Sample.table [Sample.trip 1 4 20 15 30 5 nan;
                          Sample.trip 1 4 20 15 30 5 nan;
                          Sample.trip 2 4 20 15 30 5 0] in
  let not_compliant :=
    List.filter (fun r => negb (compliant_row r)) (zone_entries (flagged fr)) in
  zone_entries (flagged fr) = rows (flagged fr) /\
  compliant (flagged fr) = [] /\
  nlargest 3 (groupby_size (map pickup_loc not_compliant)) =
    [(1, 2%nat); (2, 1%nat)] /\
  analyze_congestion_zone 0%nat (Sample.world_of fr) =
    (Returns 0%nat,
     mkWorld [flagged fr]
       [PAnalyzing; PZoneEntries 3; PCompliant 0; PComplianceRate (0 # 3);
        PTopLeakageHeader; PLeakage 2 1] ∅).
Proof.
  split; [reflexivity|].
  split; [reflexivity|].
  split; [reflexivity|].
  vm_compute. reflexivity.
Qed.

(** ** The driver, step by step *)

Lemma bind_returns {A B} (m : M A) (k : A -> M B) (w w' : world) (a : A) :
  m w = (Returns a, w') -> bind m k w = k a w'.
Proof. intros H. unfold bind. rewrite H. reflexivity. Qed.

Lemma create_summary_stats_run w df fr :
  heap w !! df = Some fr ->
  has_columns fr summary_columns = true ->
  create_summary_stats df w =
    (Returns tt, mkWorld (heap w) (stdout w ++ summary_report fr) (files w)).
Proof.
  intros Hdf Hcols.
  unfold has_columns, summary_columns in Hcols. simpl in Hcols.
  rewrite !andb_true_iff in Hcols.
  destruct Hcols as (Hf & Hd & Hs & Ht & _).
  unfold create_summary_stats, summary_report.
  rewrite bind_print; cbv beta.
  erewrite bind_load by (cbn [heap]; exact Hdf); cbv beta.
  rewrite bind_print; cbv beta.
  rewrite (getitem_returns _ Col.fare Hf), bind_lift_returns, bind_print; cbv beta.
  rewrite (getitem_returns _ Col.trip_distance Hd), bind_lift_returns, bind_print; cbv beta.
  rewrite (getitem_returns _ Col.avg_speed Hs), bind_lift_returns, bind_print; cbv beta.
  rewrite (getitem_returns _ Col.total_amount Ht), bind_lift_returns, bind_print; cbv beta.
  cbn [heap stdout files].
  destruct (has_column fr "congestion_surcharge") eqn:Hc.
  - rewrite (getitem_returns _ Col.congestion_surcharge Hc), bind_lift_returns.
    unfold print. cbn [heap stdout files].
    rewrite <- !app_assoc. reflexivity.
  - unfold ret. rewrite <- !app_assoc. reflexivity.
Qed.

Lemma has_columns_ext (a b : DataFrame) (names : list string) :
  columns a = columns b -> has_columns a names = has_columns b names.
Proof.
  intros Heq. unfold has_columns, has_column. rewrite Heq. reflexivity.
Qed.

Lemma has_columns_flagged (fr : DataFrame) (names : list string) :
  has_columns fr names = true -> has_columns (flagged fr) names = true.
Proof.
  unfold has_columns. rewrite !forallb_forall. intros H name Hin.
  destruct fr as [cols rs]. unfold flagged.
  do 3 apply has_column_add_column with (rs := rs).
  apply H, Hin.
Qed.

Lemma has_columns_app (fr : DataFrame) (l1 l2 : list string) :
  has_columns fr (l1 ++ l2) = has_columns fr l1 && has_columns fr l2.
Proof. unfold has_columns. apply forallb_app. Qed.

Lemma to_parquet_run w df path fr :
  heap w !! df = Some fr ->
  to_parquet df path w =
    (Returns tt, mkWorld (heap w) (stdout w) (<[path := fr]> (files w))).
Proof.
  intros Hdf. unfold to_parquet.
  erewrite bind_load by exact Hdf. reflexivity.
Qed.

Lemma analysis_phase_run processed w raw :
  files w !! processed = Some raw ->
  has_columns raw pipeline_columns = true ->
  rows raw <> [] ->
  exists out,
    analysis_phase processed w =
      (Returns tt,
       mkWorld (heap w ++ [raw; ghost_frame raw; flagged (clean_frame raw)])
               (stdout w ++ out)
               (<["outputs/ghost_trips.parquet"%string := ghost_frame raw]>
                  (<["outputs/clean_data.parquet"%string := flagged (clean_frame raw)]>
                     (files w)))).
Proof.
  intros Hfile Hcols Hne.
  unfold pipeline_columns in Hcols. rewrite !has_columns_app, !andb_true_iff in Hcols.
  destruct Hcols as (Hc & Ha & Hs).
  unfold analysis_phase.
  repeat (rewrite bind_print; cbv beta).
  unfold bind at 1, read_parquet at 1. cbn [files]. rewrite Hfile.
  unfold alloc at 1. cbn [heap stdout files].
  erewrite bind_load by (cbn [heap]; apply list_lookup_middle; reflexivity).
  cbv beta. rewrite bind_print; cbv beta.
  erewrite bind_returns.
  2:{ apply (detect_ghost_trips_returns _ _ raw);
        [cbn [heap]; apply list_lookup_middle; reflexivity | exact Hc | exact Hne]. }
  cbv beta zeta. cbn [fst snd heap stdout files length].
  eexists.
  unfold detect_world. cbn [heap stdout files].
  assert (Hclean : ((heap w ++ [raw]) ++ [ghost_frame raw; clean_frame raw])
                     !! S (length (heap w ++ [raw])) = Some (clean_frame raw))
    by apply lookup_snoc2_snd.
  erewrite bind_returns.
  2:{ apply (analyze_congestion_zone_run _ _ (clean_frame raw)).
      - cbn [heap]. exact Hclean.
      - rewrite <- Ha. apply has_columns_ext. reflexivity. }
  cbv beta. cbn [heap stdout files].
  assert (Hheap : <[S (length (heap w ++ [raw])) := flagged (clean_frame raw)]>
                    ((heap w ++ [raw]) ++ [ghost_frame raw; clean_frame raw])
                  = heap w ++ [raw; ghost_frame raw; flagged (clean_frame raw)]).
  { rewrite insert_app_r_alt by lia.
    replace (S (length (heap w ++ [raw])) - length (heap w ++ [raw]))%nat
      with 1%nat by lia.
    rewrite <- app_assoc. reflexivity. }
  match goal with
  | |- context [mkWorld (<[?i := ?v]> ?l)] =>
      replace (<[i := v]> l)
        with (heap w ++ [raw; ghost_frame raw; flagged (clean_frame raw)])
        by (symmetry; exact Hheap)
  end.
  erewrite bind_returns.
  2:{ apply (create_summary_stats_run _ _ (flagged (clean_frame raw))).
      - cbn [heap]. rewrite length_app. simpl.
        rewrite lookup_app_r by lia.
        replace (S (length (heap w) + 1) - length (heap w))%nat with 2%nat by lia.
        reflexivity.
      - apply has_columns_flagged. rewrite <- Hs. apply has_columns_ext. reflexivity. }
  cbv beta. rewrite bind_print; cbv beta. cbn [heap stdout files].
  erewrite bind_returns.
  2:{ apply (to_parquet_run _ _ _ (flagged (clean_frame raw))).
      cbn [heap]. rewrite length_app. simpl.
      rewrite lookup_app_r by lia.
      replace (S (length (heap w) + 1) - length (heap w))%nat with 2%nat by lia.
      reflexivity. }
  cbv beta. cbn [heap stdout files].
  erewrite bind_returns.
  2:{ apply (to_parquet_run _ _ _ (ghost_frame raw)).
      cbn [heap]. rewrite length_app. simpl.
      rewrite lookup_app_r by lia.
      replace (length (heap w) + 1 - length (heap w))%nat with 1%nat by lia.
      reflexivity. }
  cbv beta. cbn [heap stdout files].
  repeat (rewrite bind_print; cbv beta; cbn [heap stdout files]).
  unfold print. cbn [heap stdout files].
  rewrite <- !app_assoc. reflexivity.
Qed.

(** ** Claim on the assignment in place *)

Lemma flag_row_same_trip_data (r : Row) : same_trip_data r (flag_row r).
Proof. unfold same_trip_data. repeat split. Qed.

Lemma add_column_fresh (name : string) (cols : list string) :
  name ∉ cols -> add_column name cols = cols ++ [name].
Proof.
  intros Hnot. unfold add_column.
  case_bool_decide; [contradiction | reflexivity].
Qed.

Lemma add_column_elem (name c : string) (cols : list string) :
  c ∈ add_column name cols <-> c ∈ cols \/ c = name.
Proof.
  unfold add_column. case_bool_decide.
  - split; [auto|]. intros [H' | ->]; assumption.
  - rewrite elem_of_app, list_elem_of_singleton. reflexivity.
Qed.

Lemma flagged_columns_fresh (fr : DataFrame) :
  has_column fr "pickup_in_zone" = false ->
  has_column fr "dropoff_in_zone" = false ->
  has_column fr "enters_zone" = false ->
  columns (flagged fr) = columns fr ++ flag_columns.
Proof.
  unfold has_column. rewrite !bool_decide_eq_false. intros Hp Hd He.
  unfold flagged, flag_columns. simpl.
  rewrite (add_column_fresh "pickup_in_zone") by exact Hp.
  rewrite (add_column_fresh "dropoff_in_zone").
  2:{ rewrite elem_of_app, list_elem_of_singleton. intros [H|H]; [tauto | discriminate]. }
  rewrite (add_column_fresh "enters_zone").
  2:{ rewrite !elem_of_app, !list_elem_of_singleton.
      intros [[H|H]|H]; [tauto | discriminate | discriminate]. }
  rewrite <- !app_assoc. reflexivity.
Qed.

Lemma flagged_columns_elem (fr : DataFrame) (c : string) :
  c ∈ columns (flagged fr) <-> c ∈ columns fr \/ c ∈ flag_columns.
Proof.
  unfold flagged, flag_columns. simpl.
  rewrite !add_column_elem, !elem_of_cons, elem_of_nil. tauto.
Qed.

Lemma flagged_has_flag_columns (fr : DataFrame) :
  has_columns (flagged fr) flag_columns = true.
Proof.
  destruct fr as [cols rs].
  unfold flagged, has_columns, flag_columns. simpl.
  rewrite !andb_true_iff. repeat split.
  - do 2 apply has_column_add_column with (rs := rs).
    apply has_column_add_column_same.
  - apply has_column_add_column with (rs := rs).
    apply has_column_add_column_same.
  - apply has_column_add_column_same.
Qed.

(** ** The whole program, step by step *)

Lemma raw_file_path :
  Scraper.month_path posix_join (Scraper.init "data/raw" "data/processed")
    "yellow" 2025 1 = RAW_FILE.
Proof. vm_compute. reflexivity. Qed.

Lemma processed_file_path :
  posix_join (Scraper.processed_dir (Scraper.init "data/raw" "data/processed"))
    ("processed_" +:+ path_stem RAW_FILE +:+ ".parquet") = PROCESSED_FILE.
Proof. vm_compute. reflexivity. Qed.

(** The month of [dt_month] is the month of the date, the hour of
    midnight is 0, and 2025-01-06 is a Monday. *)
Lemma dt_month_of_date (y m : Z) :
  1900 <= y <= 2200 -> 1 <= m <= 12 ->
  dt_month (date_ns y m 1) = m /\ dt_month (date_ns y m 28) = m /\
  dt_hour (date_ns y m 1) = 0.
Proof.
  intros Hy Hm.
  assert (H : forallb (fun y =>
                forallb (fun m =>
                  (dt_month (date_ns y m 1) =? m) &&
                  (dt_month (date_ns y m 28) =? m) &&
                  (dt_hour (date_ns y m 1) =? 0))
                  (seqZ 1 12))
                (seqZ 1900 301) = true)
    by (vm_compute; reflexivity).
  rewrite forallb_forall in H.
  specialize (H y). rewrite <- list_elem_of_In, elem_of_seqZ in H.
  specialize (H ltac:(lia)).
  rewrite forallb_forall in H.
  specialize (H m). rewrite <- list_elem_of_In, elem_of_seqZ in H.
  specialize (H ltac:(lia)).
  rewrite !andb_true_iff, !Z.eqb_eq in H. tauto.
Qed.

Example dt_dayofweek_of_monday :
  dt_dayofweek (date_ns 2025 1 6) = 0 /\ dt_dayofweek (date_ns 2025 1 5) = 6.
Proof. split; reflexivity. Qed.

(** The call in [main] returns the path of the month's file or [None];
    when it returns the path, the file is there. *)
Lemma download_returns net disk file :
  (download net disk).1 = Some file ->
  file = RAW_FILE /\ is_Some (fetched net disk).
Proof.
  unfold fetched. intros H. rewrite H. revert H.
  unfold download, Scraper.download_month.
  fold (Scraper.filename "yellow" 2025 1).
  fold (Scraper.month_path posix_join (Scraper.init "data/raw" "data/processed")
          "yellow" 2025 1).
  rewrite raw_file_path.
  case_bool_decide as Hcached; simpl.
  - intros [= <-]. split; [reflexivity | exact Hcached].
  - destruct (net _) as [|status chunks complete]; simpl; [discriminate|].
    destruct (Scraper.raise_for_status status); simpl; [discriminate|].
    destruct complete; simpl; [|discriminate].
    intros [= <-]. split; [reflexivity|].
    rewrite lookup_insert_eq. eexists. reflexivity.
Qed.


Lemma bindP_print {B} (l : line) (k : unit -> P B) (s : session) :
  bindP (py (print l)) k s =
    k tt (mkSession (mkWorld (heap (py_world s)) (stdout (py_world s) ++ [l])
                             (files (py_world s)))
                    (byte_files s)).
Proof. reflexivity. Qed.

Lemma bindP_returns {A B} (m : P A) (k : A -> P B) (s s' : session) (a : A) :
  m s = Some (Returns a, s') -> bindP m k s = k a s'.
Proof. intros H. unfold bindP. rewrite H. reflexivity. Qed.

Lemma bindP_raises {A B} (m : P A) (k : A -> P B) (s s' : session) (e : exn) :
  m s = Some (Raises e, s') -> bindP m k s = Some (Raises e, s').
Proof. intros H. unfold bindP. rewrite H. reflexivity. Qed.

Lemma bindP_none {A B} (m : P A) (k : A -> P B) (s : session) :
  m s = None -> bindP m k s = None.
Proof. intros H. unfold bindP. rewrite H. reflexivity. Qed.

(** [process_file] on the month's file. *)
Lemma process_file_run decode total_seconds (s : session) :
  process_file decode total_seconds (Scraper.init "data/raw" "data/processed")
    RAW_FILE s =
    let w := py_world s in
    let out1 := stdout w ++ [PProcessing "yellow_tripdata_2025-01.parquet"] in
    match byte_files s !! RAW_FILE with
    | None =>
        Some (Raises (FileNotFoundError RAW_FILE),
              mkSession (mkWorld (heap w) out1 (files w)) (byte_files s))
    | Some data =>
        match decode data with
        | None =>
            Some (Raises (ArrowInvalid RAW_FILE),
                  mkSession (mkWorld (heap w) out1 (files w)) (byte_files s))
        | Some raw =>
            let out2 := out1 ++ [PColumns (columns raw)] in
            match process_table total_seconds raw with
            | None => None
            | Some (Raises e) =>
                Some (Raises e,
                      mkSession (mkWorld (heap w) out2 (files w)) (byte_files s))
            | Some (Returns processed) =>
                Some (Returns PROCESSED_FILE,
                      mkSession (mkWorld (heap w) (out2 ++ [PSaved PROCESSED_FILE])
                                         (<[PROCESSED_FILE := processed]> (files w)))
                                (byte_files s))
            end
        end
    end.
Proof.
  cbv zeta. unfold process_file.
  rewrite bindP_print.
  change (path_name RAW_FILE) with "yellow_tripdata_2025-01.parquet"%string.
  rewrite processed_file_path.
  unfold bindP at 1, dd_read_parquet at 1. cbn [py_world byte_files].
  destruct (byte_files s !! RAW_FILE) as [data|]; [|reflexivity].
  destruct (decode data) as [raw|]; [|reflexivity].
  rewrite bindP_print. cbn [py_world byte_files heap stdout files].
  unfold bindP at 1, dask at 1.
  destruct (process_table total_seconds raw) as [[processed|e]|]; reflexivity.
Qed.

(** [main], by what the download, the file and its table are. *)
Lemma main_run net decode total_seconds disk :
  main net decode total_seconds disk =
    let sys := (download net disk).2 in
    let out := BANNER ++ map message_line (Scraper.console sys) in
    match (download net disk).1 with
    | None =>
        Some (Returns tt,
              mkSession (mkWorld [] (out ++ [PText "Download failed"]) ∅)
                        (Scraper.disk sys))
    | Some _ =>
        let out1 := out ++ [PProcessing "yellow_tripdata_2025-01.parquet"] in
        match fetched net disk with
        | None =>
            Some (Raises (FileNotFoundError RAW_FILE),
                  mkSession (mkWorld [] out1 ∅) (Scraper.disk sys))
        | Some data =>
            match decode data with
            | None =>
                Some (Raises (ArrowInvalid RAW_FILE),
                      mkSession (mkWorld [] out1 ∅) (Scraper.disk sys))
            | Some raw =>
                let out2 := out1 ++ [PColumns (columns raw)] in
                match process_table total_seconds raw with
                | None => None
                | Some (Raises e) =>
                    Some (Raises e, mkSession (mkWorld [] out2 ∅) (Scraper.disk sys))
                | Some (Returns processed) =>
                    let r := analysis_phase PROCESSED_FILE
                               (mkWorld [] (out2 ++ [PSaved PROCESSED_FILE])
                                        (<[PROCESSED_FILE := processed]> ∅)) in
                    Some (r.1, mkSession r.2 (Scraper.disk sys))
                end
            end
        end
    end.
Proof.
  cbv zeta. unfold fetched.
  unfold main.
  rewrite !bindP_print. unfold boot. cbn [py_world byte_files heap stdout files app].
  unfold bindP at 1, download_month at 1.
  cbn [py_world byte_files heap stdout files].
  fold (download net disk).
  pose proof (download_returns net disk) as Hfile.
  unfold fetched in Hfile |- *.
  destruct (download net disk) as [file sys]. cbn [fst snd] in Hfile |- *.
  destruct file as [file|]; [|reflexivity].
  destruct (Hfile file eq_refl) as [-> _]. clear Hfile.
  unfold bindP at 1. rewrite process_file_run.
  cbn [py_world byte_files heap stdout files].
  destruct (Scraper.disk sys !! RAW_FILE) as [data|]; [|reflexivity].
  destruct (decode data) as [raw|]; [|reflexivity].
  destruct (process_table total_seconds raw) as [[processed|e]|]; reflexivity.
Qed.

(** C10: the analyzer assigns the three columns to the object it is
    given and returns that object: after the call the caller's reference
    leads to the table with the three columns, no other object has
    changed and none was made; the records are the same in number and
    order, each with its values in the columns of the schema.  The driver
    saves the clean table after the call, through the reference it passed,
    so the file it writes has the three columns: in every run of [main]
    in which the scraper hands over a file whose processed table has the
    columns the analysis reads and a record. *)
Theorem analyze_congestion_zone_assigns_in_place
    w df fr net decode total_seconds disk data raw processed :
  heap w !! df = Some fr ->
  has_columns fr analyzer_columns = true ->
  fetched net disk = Some data ->
  decode data = Some raw ->
  process_table total_seconds raw = Some (Returns processed) ->
  has_columns processed pipeline_columns = true ->
  rows processed <> [] ->
  (exists w' fr',
     analyze_congestion_zone df w = (Returns df, w') /\
     heap w' !! df = Some fr' /\
     length (heap w') = length (heap w) /\
     (forall other : ref, other <> df -> heap w' !! other = heap w !! other) /\
     files w' = files w /\
     has_columns fr' flag_columns = true /\
     (forall c, c ∈ columns fr' <-> c ∈ columns fr \/ c ∈ flag_columns) /\
     (has_column fr "pickup_in_zone" = false ->
      has_column fr "dropoff_in_zone" = false ->
      has_column fr "enters_zone" = false ->
      columns fr' = columns fr ++ flag_columns) /\
     length (rows fr') = length (rows fr) /\
     (forall (i : nat) r, rows fr !! i = Some r ->
        exists r', rows fr' !! i = Some r' /\ same_trip_data r r')) /\
  (exists s1 saved,
     main net decode total_seconds disk = Some (Returns tt, s1) /\
     files (py_world s1) !! "outputs/clean_data.parquet"%string = Some saved /\
     has_columns saved flag_columns = true /\
     rows saved =
       map flag_row (List.filter (fun r => negb (is_ghost r)) (rows processed))).
Proof.
  intros Hdf Hcols Hfetched Hdecode Hprocess Hpipe Hne.
  pose proof (lookup_lt_Some _ _ _ Hdf) as Hlt.
  split.
  - eexists _, (flagged fr).
    split; [apply analyze_congestion_zone_run; eassumption|].
    cbn [heap stdout files].
    split; [apply list_lookup_insert_eq; exact Hlt|].
    split; [apply length_insert|].
    split; [intros other Hother; apply list_lookup_insert_ne; congruence|].
    split; [reflexivity|].
    split; [apply flagged_has_flag_columns|].
    split; [apply flagged_columns_elem|].
    split; [apply flagged_columns_fresh|].
    split; [apply length_map|].
    intros i r Hi. exists (flag_row r).
    split; [simpl; rewrite list_lookup_fmap, Hi; reflexivity|].
    apply flag_row_same_trip_data.
  - rewrite main_run. cbv zeta.
    rewrite Hfetched, Hdecode, Hprocess.
    unfold fetched in Hfetched.
    destruct (download net disk).1 as [file|]; [|discriminate].
    match goal with
    | |- context [analysis_phase PROCESSED_FILE ?w2] =>
        destruct (analysis_phase_run PROCESSED_FILE w2 processed
                    (lookup_insert_eq _ _ _) Hpipe Hne) as [out Hrun];
        rewrite Hrun
    end.
    cbn [fst snd].
    eexists _, (flagged (clean_frame processed)).
    split; [reflexivity|].
    cbn [py_world files].
    split.
    { rewrite lookup_insert_ne by discriminate. apply lookup_insert_eq. }
    split; [apply flagged_has_flag_columns | reflexivity].
Qed.

Lemma analyze_congestion_zone_assigns_in_place_witness :
  let fr := Sample.table [Sample.plain] in
  let w := Sample.world_of fr in
  let df := 0%nat in
  let raw := Demo.table [Demo.speeding; Demo.plain] in
  let processed :=
    Sample.table [Demo.processed 10 12 15 72; Demo.processed 15 5 30 20] in
  heap w !! df = Some fr /\
  has_columns fr analyzer_columns = true /\
  fetched Demo.offline Demo.disk = Some "PAR1"%string /\
  Demo.decode "PAR1" = Some raw /\
  process_table Demo.total_seconds raw = Some (Returns processed) /\
  has_columns processed pipeline_columns = true /\
  rows processed <> [] /\
  (exists w' fr',
     analyze_congestion_zone df w = (Returns df, w') /\
     heap w' !! df = Some fr' /\
     length (heap w') = length (heap w) /\
     (forall other : ref, other <> df -> heap w' !! other = heap w !! other) /\
     files w' = files w /\
     has_columns fr' flag_columns = true /\
     (forall c, c ∈ columns fr' <-> c ∈ columns fr \/ c ∈ flag_columns) /\
     (has_column fr "pickup_in_zone" = false ->
      has_column fr "dropoff_in_zone" = false ->
      has_column fr "enters_zone" = false ->
      columns fr' = columns fr ++ flag_columns) /\
     length (rows fr') = length (rows fr) /\
     (forall (i : nat) r, rows fr !! i = Some r ->
        exists r', rows fr' !! i = Some r' /\ same_trip_data r r')) /\
  (exists s1 saved,
     main Demo.offline Demo.decode Demo.total_seconds Demo.disk =
       Some (Returns tt, s1) /\
     files (py_world s1) !! "outputs/clean_data.parquet"%string = Some saved /\
     has_columns saved flag_columns = true /\
     rows saved =
       map flag_row (List.filter (fun r => negb (is_ghost r)) (rows processed))).
Proof.
  cbv zeta.
  split; [reflexivity|].
  split; [reflexivity|].
  split; [vm_compute; reflexivity|].
  split; [reflexivity|].
  split; [vm_compute; reflexivity|].
  split; [reflexivity|].
  split; [discriminate|].
  apply (analyze_congestion_zone_assigns_in_place
           (Sample.world_of (Sample.table [Sample.plain])) 0%nat
           (Sample.table [Sample.plain])
           Demo.offline Demo.decode Demo.total_seconds Demo.disk
           "PAR1"%string
           (Demo.table [Demo.speeding; Demo.plain])
           (Sample.table [Demo.processed 10 12 15 72; Demo.processed 15 5 30 20]));
    [reflexivity | reflexivity | vm_compute; reflexivity | reflexivity
    | vm_compute; reflexivity | reflexivity | discriminate].
Defined.

(** The files of the run on the sample disk: the processed table of the
    two trips, the clean trip with its flags under the seventeen columns,
    and the trip at 72 miles per hour. *)
Example main_saves_the_flagged_clean_table :
  let s1 := main Demo.offline Demo.decode Demo.total_seconds Demo.disk in
  let processed := [Demo.processed 10 12 15 72; Demo.processed 15 5 30 20] in
  (files ∘ py_world ∘ snd) <$> s1 =
    Some (<["outputs/ghost_trips.parquet"%string :=
              Sample.table [Demo.processed 10 12 15 72]]>
         (<["outputs/clean_data.parquet"%string :=
              mkDF (Sample.schema ++ flag_columns)
                   [flag_row (Demo.processed 15 5 30 20)]]>
         (<[PROCESSED_FILE := Sample.table processed]> ∅))) /\
  (byte_files ∘ snd) <$> s1 = Some Demo.disk.
Proof. split; vm_compute; reflexivity. Qed.

(** * Further properties of the code *)

(** ** [detect_ghost_trips] on tables with a record *)

Lemma detect_ghost_trips_partition_witness :
  let fr := Sample.table [Sample.speeding; Sample.plain; Sample.speeding] in
  let w := Sample.world_of fr in
  heap w !! 0%nat = Some fr /\
  has_columns fr classifier_columns = true /\
  rows fr <> [] /\
  exists clean ghost w',
    detect_ghost_trips 0%nat w = (Returns (clean, ghost), w') /\
    clean <> ghost /\ clean <> 0%nat /\ ghost <> 0%nat /\
    heap w' !! clean = Some (clean_frame fr) /\
    heap w' !! ghost = Some (ghost_frame fr) /\
    heap w' !! 0%nat = Some fr /\
    Permutation (rows (clean_frame fr) ++ rows (ghost_frame fr)) (rows fr) /\
    (forall r, In r (rows (clean_frame fr)) -> In r (rows (ghost_frame fr)) -> False) /\
    (forall r, In r (rows fr) ->
       In r (rows (clean_frame fr)) \/ In r (rows (ghost_frame fr))).
Proof.
  split; [reflexivity|].
  split; [reflexivity|].
  split; [discriminate|].
  apply (detect_ghost_trips_partition
           (Sample.world_of
              (Sample.table [Sample.speeding; Sample.plain; Sample.speeding]))
           0%nat
           (Sample.table [Sample.speeding; Sample.plain; Sample.speeding]));
    [reflexivity | reflexivity | discriminate].
Defined.

Lemma filter_sublist {A} (f : A -> bool) (l : list A) :
  sublist (List.filter f l) l.
Proof.
  induction l as [|x l IH]; simpl; [constructor|].
  destruct (f x); constructor; exact IH.
Qed.

(** Both tables keep the columns of the input and the order of its
    records: each is the input with some records left out, and no file is
    touched. *)
Theorem detect_ghost_trips_keeps_order_and_columns w df fr :
  heap w !! df = Some fr ->
  has_columns fr classifier_columns = true ->
  rows fr <> [] ->
  exists clean ghost w' cf gf,
    detect_ghost_trips df w = (Returns (clean, ghost), w') /\
    heap w' !! clean = Some cf /\ heap w' !! ghost = Some gf /\
    columns cf = columns fr /\ columns gf = columns fr /\
    sublist (rows cf) (rows fr) /\ sublist (rows gf) (rows fr) /\
    (len cf + len gf = len fr)%nat /\
    files w' = files w.
Proof.
  intros Hdf Hcols Hne.
  eexists _, _, _, (clean_frame fr), (ghost_frame fr).
  split; [apply (detect_ghost_trips_returns w df fr); assumption|].
  simpl.
  split; [apply lookup_snoc2_snd|].
  split; [apply lookup_snoc2_fst|].
  split; [reflexivity|]. split; [reflexivity|].
  split; [apply filter_sublist|]. split; [apply filter_sublist|].
  split; [|reflexivity].
  unfold len. simpl. rewrite <- length_app.
  apply Permutation_length, filter_partition_perm.
Qed.

Lemma detect_ghost_trips_keeps_order_and_columns_witness :
  let fr := Sample.table [Sample.speeding; Sample.plain; Sample.teleport] in
  let w := Sample.world_of fr in
  heap w !! 0%nat = Some fr /\
  has_columns fr classifier_columns = true /\
  rows fr <> [] /\
  exists clean ghost w' cf gf,
    detect_ghost_trips 0%nat w = (Returns (clean, ghost), w') /\
    heap w' !! clean = Some cf /\ heap w' !! ghost = Some gf /\
    columns cf = columns fr /\ columns gf = columns fr /\
    sublist (rows cf) (rows fr) /\ sublist (rows gf) (rows fr) /\
    (len cf + len gf = len fr)%nat /\
    files w' = files w.
Proof.
  split; [reflexivity|].
  split; [reflexivity|].
  split; [discriminate|].
  apply (detect_ghost_trips_keeps_order_and_columns
           (Sample.world_of
              (Sample.table [Sample.speeding; Sample.plain; Sample.teleport]))
           0%nat
           (Sample.table [Sample.speeding; Sample.plain; Sample.teleport]));
    [reflexivity | reflexivity | discriminate].
Defined.

(** A table that lacks one of the four columns: the classifier raises
    KeyError for the first it reads and does not find, in the order
    avg_speed, trip_duration, fare, trip_distance; it has printed its
    first line and made no table. *)
Theorem detect_ghost_trips_key_error w df fr c :
  heap w !! df = Some fr ->
  first_missing fr classifier_columns = Some c ->
  detect_ghost_trips df w =
    (Raises (KeyError c), mkWorld (heap w) (stdout w ++ [PDetecting]) (files w)).
Proof.
  intros Hdf Hmiss.
  unfold first_missing, classifier_columns in Hmiss. simpl in Hmiss.
  unfold detect_ghost_trips, bind, print, load, lift, getitem. simpl.
  rewrite Hdf.
  destruct (has_column fr "avg_speed"); simpl in Hmiss; [|congruence].
  destruct (has_column fr "trip_duration"); simpl in Hmiss; [|congruence].
  destruct (has_column fr "fare"); simpl in Hmiss; [|congruence].
  destruct (has_column fr "trip_distance"); simpl in Hmiss; [|congruence].
  discriminate.
Qed.

Lemma detect_ghost_trips_key_error_witness :
  let fr := mkDF ["avg_speed"; "trip_distance"] [Sample.plain] in
  let w := Sample.world_of fr in
  heap w !! 0%nat = Some fr /\
  first_missing fr classifier_columns = Some "trip_duration"%string /\
  detect_ghost_trips 0%nat w =
    (Raises (KeyError "trip_duration"),
     mkWorld (heap w) (stdout w ++ [PDetecting]) (files w)).
Proof.
  split; [reflexivity|].
  split; [reflexivity|].
  apply (detect_ghost_trips_key_error
           (Sample.world_of (mkDF ["avg_speed"; "trip_distance"] [Sample.plain]))
           0%nat (mkDF ["avg_speed"; "trip_distance"] [Sample.plain])
           "trip_duration"%string);
    reflexivity.
Defined.

Lemma filter_clean_of_clean (l : list Row) :
  List.filter (fun r => negb (is_ghost r))
    (List.filter (fun r => negb (is_ghost r)) l)
  = List.filter (fun r => negb (is_ghost r)) l.
Proof.
  induction l as [|x l IH]; simpl; [reflexivity|].
  destruct (is_ghost x) eqn:Hx; simpl; [exact IH|].
  rewrite Hx. simpl. rewrite IH. reflexivity.
Qed.

(** A clean table with a record is a fixed point of the classifier:
    applied to it, the classifier returns a clean table with the same
    records and columns and a ghost table without records. *)
Theorem detect_ghost_trips_clean_is_fixed_point w df fr :
  heap w !! df = Some fr ->
  has_columns fr classifier_columns = true ->
  rows (clean_frame fr) <> [] ->
  exists clean ghost w' clean2 ghost2 w'' cf cf2 gf2,
    detect_ghost_trips df w = (Returns (clean, ghost), w') /\
    heap w' !! clean = Some cf /\
    detect_ghost_trips clean w' = (Returns (clean2, ghost2), w'') /\
    heap w'' !! clean2 = Some cf2 /\ heap w'' !! ghost2 = Some gf2 /\
    rows cf2 = rows cf /\ columns cf2 = columns cf /\ rows gf2 = [] /\
    heap w'' !! clean = Some cf.
Proof.
  intros Hdf Hcols Hne.
  assert (Hne0 : rows fr <> []).
  { intros E. apply Hne. simpl. rewrite E. reflexivity. }
  eexists _, _, _, _, _, _, (clean_frame fr), _, _.
  split; [apply (detect_ghost_trips_returns w df fr); assumption|].
  split; [simpl; apply lookup_snoc2_snd|].
  split.
  { apply (detect_ghost_trips_returns _ _ (clean_frame fr)).
    - simpl. apply lookup_snoc2_snd.
    - exact Hcols.
    - exact Hne. }
  split; [apply lookup_snoc2_snd|].
  split; [apply lookup_snoc2_fst|].
  split; [simpl; apply filter_clean_of_clean|].
  split; [reflexivity|].
  split; [simpl; apply filter_ghost_of_clean|].
  simpl. rewrite lookup_app_l by (rewrite length_app; simpl; lia).
  apply lookup_snoc2_snd.
Qed.

Lemma detect_ghost_trips_clean_is_fixed_point_witness :
  let fr := Sample.table [Sample.speeding; Sample.plain] in
  let w := Sample.world_of fr in
  heap w !! 0%nat = Some fr /\
  has_columns fr classifier_columns = true /\
  rows (clean_frame fr) <> [] /\
  exists clean ghost w' clean2 ghost2 w'' cf cf2 gf2,
    detect_ghost_trips 0%nat w = (Returns (clean, ghost), w') /\
    heap w' !! clean = Some cf /\
    detect_ghost_trips clean w' = (Returns (clean2, ghost2), w'') /\
    heap w'' !! clean2 = Some cf2 /\ heap w'' !! ghost2 = Some gf2 /\
    rows cf2 = rows cf /\ columns cf2 = columns cf /\ rows gf2 = [] /\
    heap w'' !! clean = Some cf.
Proof.
  split; [reflexivity|].
  split; [reflexivity|].
  split; [discriminate|].
  apply (detect_ghost_trips_clean_is_fixed_point
           (Sample.world_of (Sample.table [Sample.speeding; Sample.plain]))
           0%nat (Sample.table [Sample.speeding; Sample.plain]));
    [reflexivity | reflexivity | discriminate].
Defined.

Lemma filter_length_mono {A} (f g : A -> bool) (l : list A) :
  (forall x, f x = true -> g x = true) ->
  (length (List.filter f l) <= length (List.filter g l))%nat.
Proof.
  intros Himp. induction l as [|x l IH]; simpl; [lia|].
  destruct (f x) eqn:Hf.
  - rewrite (Himp x Hf). simpl. lia.
  - destruct (g x); simpl; lia.
Qed.

Lemma filter_length_orb {A} (f g : A -> bool) (l : list A) :
  (length (List.filter (fun x => f x || g x) l)
   <= length (List.filter f l) + length (List.filter g l))%nat.
Proof.
  induction l as [|x l IH]; simpl; [lia|].
  destruct (f x), (g x); simpl; lia.
Qed.

Lemma percent_bounds (c n : nat) :
  (c <= n)%nat -> (0 < n)%nat ->
  (0 <= (Z.of_nat c # Pos.of_nat n) * 100)%Q /\
  ((Z.of_nat c # Pos.of_nat n) * 100 <= 100)%Q.
Proof.
  intros Hle Hpos. unfold Qle, Qmult. simpl.
  assert (Hn : Z.pos (Pos.of_nat n) = Z.of_nat n).
  { destruct n; [lia|]. rewrite <- Pos.of_nat_succ, Zpos_P_of_succ_nat. lia. }
  rewrite Pos.mul_1_r, Hn. lia.
Qed.

(** The audit lines agree with the tables: the number printed as removed
    is the length of the ghost table; it is at least each of the three
    rule counts and at most their sum (a record that matches two rules is
    counted by both and removed once); the percentage is between 0 and
    100. *)
Theorem detect_ghost_trips_audit_counts w df fr :
  heap w !! df = Some fr ->
  has_columns fr classifier_columns = true ->
  rows fr <> [] ->
  exists clean ghost w' gf speed teleport stationary removed percent,
    detect_ghost_trips df w = (Returns (clean, ghost), w') /\
    heap w' !! ghost = Some gf /\
    stdout w' = stdout w ++ [PDetecting; PSpeed speed; PTeleport teleport;
                             PStationary stationary;
                             PTotalRemoved removed percent] /\
    removed = len gf /\
    (speed <= removed)%nat /\ (teleport <= removed)%nat /\
    (stationary <= removed)%nat /\
    (removed <= speed + teleport + stationary)%nat /\
    (removed <= len fr)%nat /\
    (0 <= percent)%Q /\ (percent <= 100)%Q.
Proof.
  intros Hdf Hcols Hne.
  eexists _, _, _, (ghost_frame fr), _, _, _, _, _.
  split; [apply (detect_ghost_trips_returns w df fr); assumption|].
  split; [simpl; apply lookup_snoc2_fst|].
  split; [reflexivity|].
  split; [reflexivity|].
  split.
  { apply filter_length_mono. intros r Hr. unfold is_ghost. rewrite Hr. reflexivity. }
  split.
  { apply filter_length_mono. intros r Hr. unfold is_ghost. rewrite Hr.
    rewrite orb_true_r. reflexivity. }
  split.
  { apply filter_length_mono. intros r Hr. unfold is_ghost. rewrite Hr.
    apply orb_true_r. }
  split.
  { unfold is_ghost.
    etransitivity; [apply filter_length_orb|].
    pose proof (filter_length_orb rule_speed rule_teleport (rows fr)). lia. }
  split; [apply filter_length_le|].
  apply percent_bounds; [apply filter_length_le|].
  destruct (rows fr); [congruence | simpl; lia].
Qed.

Lemma detect_ghost_trips_audit_counts_witness :
  let fr := Sample.table [Sample.trip 1 4 70 0.5 25 0 0; Sample.plain] in
  let w := Sample.world_of fr in
  heap w !! 0%nat = Some fr /\
  has_columns fr classifier_columns = true /\
  rows fr <> [] /\
  exists clean ghost w' gf speed teleport stationary removed percent,
    detect_ghost_trips 0%nat w = (Returns (clean, ghost), w') /\
    heap w' !! ghost = Some gf /\
    stdout w' = stdout w ++ [PDetecting; PSpeed speed; PTeleport teleport;
                             PStationary stationary;
                             PTotalRemoved removed percent] /\
    removed = len gf /\
    (speed <= removed)%nat /\ (teleport <= removed)%nat /\
    (stationary <= removed)%nat /\
    (removed <= speed + teleport + stationary)%nat /\
    (removed <= len fr)%nat /\
    (0 <= percent)%Q /\ (percent <= 100)%Q.
Proof.
  split; [reflexivity|].
  split; [reflexivity|].
  split; [discriminate|].
  apply (detect_ghost_trips_audit_counts
           (Sample.world_of (Sample.table [Sample.trip 1 4 70 0.5 25 0 0; Sample.plain]))
           0%nat (Sample.table [Sample.trip 1 4 70 0.5 25 0 0; Sample.plain]));
    [reflexivity | reflexivity | discriminate].
Defined.

(** ** Trips of zero duration *)

Lemma compute_avg_speed_zero_duration (d : float) :
  (PrimFloat.ltb 0 d = true -> compute_avg_speed d 0 = infinity) /\
  (PrimFloat.ltb d 0 = true -> compute_avg_speed d 0 = neg_infinity) /\
  (PrimFloat.ltb 0 d = false -> PrimFloat.ltb d 0 = false ->
   compute_avg_speed d 0 = nan).
Proof.
  unfold compute_avg_speed.
  rewrite !FloatAxioms.ltb_spec.
  change (Prim2SF 0) with (S754_zero false).
  repeat split; intros; apply Prim2SF_inj; rewrite div_spec;
    change (Prim2SF (0 / 60)) with (S754_zero false);
    destruct (Prim2SF d) as [s|s| |s m e]; try destruct s;
    try discriminate; reflexivity.
Qed.

(** What the code does with a trip whose pickup and dropoff coincide.
    [process_file] divides the distance by a zero duration: the average
    speed is +infinity for a positive distance, -infinity for a negative
    one and NaN otherwise, never a finite number.  The classifier then
    removes the trip exactly when the distance is positive (rule 1), or
    the fare is above 20 (rule 2), or the distance is 0 and the fare
    positive (rule 3). *)
Theorem zero_duration_trip_classification (r : Row) :
  trip_duration r = 0%float ->
  avg_speed r = compute_avg_speed (trip_distance r) (trip_duration r) ->
  (avg_speed r = infinity \/ avg_speed r = neg_infinity \/ avg_speed r = nan) /\
  rule_speed r = PrimFloat.ltb 0 (trip_distance r) /\
  rule_teleport r = PrimFloat.ltb 20 (fare r) /\
  is_ghost r =
    PrimFloat.ltb 0 (trip_distance r) || PrimFloat.ltb 20 (fare r)
    || (PrimFloat.eqb (trip_distance r) 0 && PrimFloat.ltb 0 (fare r)).
Proof.
  intros Hdur Hspeed. rewrite Hdur in Hspeed.
  destruct (compute_avg_speed_zero_duration (trip_distance r)) as (Hpos & Hneg & Hnan).
  assert (Hrule : rule_speed r = PrimFloat.ltb 0 (trip_distance r)).
  { unfold rule_speed. rewrite Hspeed.
    destruct (PrimFloat.ltb 0 (trip_distance r)) eqn:H0.
    - rewrite (Hpos eq_refl). reflexivity.
    - destruct (PrimFloat.ltb (trip_distance r) 0) eqn:H1.
      + rewrite (Hneg eq_refl). reflexivity.
      + rewrite (Hnan eq_refl eq_refl). reflexivity. }
  assert (Htele : rule_teleport r = PrimFloat.ltb 20 (fare r)).
  { unfold rule_teleport. rewrite Hdur. reflexivity. }
  split.
  { rewrite Hspeed.
    destruct (PrimFloat.ltb 0 (trip_distance r)) eqn:H0; [left; apply Hpos; reflexivity|].
    destruct (PrimFloat.ltb (trip_distance r) 0) eqn:H1;
      [right; left; apply Hneg; reflexivity | right; right; apply Hnan; reflexivity]. }
  split; [exact Hrule|]. split; [exact Htele|].
  unfold is_ghost. rewrite Hrule, Htele. reflexivity.
Qed.

Lemma zero_duration_trip_classification_witness :
  trip_duration Sample.zero_duration = 0%float /\
  avg_speed Sample.zero_duration =
    compute_avg_speed (trip_distance Sample.zero_duration)
      (trip_duration Sample.zero_duration) /\
  (avg_speed Sample.zero_duration = infinity \/
   avg_speed Sample.zero_duration = neg_infinity \/
   avg_speed Sample.zero_duration = nan) /\
  rule_speed Sample.zero_duration = PrimFloat.ltb 0 (trip_distance Sample.zero_duration) /\
  rule_teleport Sample.zero_duration = PrimFloat.ltb 20 (fare Sample.zero_duration) /\
  is_ghost Sample.zero_duration =
    PrimFloat.ltb 0 (trip_distance Sample.zero_duration)
    || PrimFloat.ltb 20 (fare Sample.zero_duration)
    || (PrimFloat.eqb (trip_distance Sample.zero_duration) 0
        && PrimFloat.ltb 0 (fare Sample.zero_duration)).
Proof.
  split; [reflexivity|].
  split; [reflexivity|].
  apply (zero_duration_trip_classification Sample.zero_duration); reflexivity.
Defined.

(** ** [analyze_congestion_zone] on tables that lack a column *)

Lemma bind_lift_raises {A B} (e : exn) (k : A -> M B) (w : world) :
  bind (lift (Raises e)) k w = (Raises e, w).
Proof. reflexivity. Qed.

Lemma getitem_raises {A} (fr : DataFrame) (c : Column A) :
  has_column fr (cname c) = false -> getitem fr c = Raises (KeyError (cname c)).
Proof. intros H. unfold getitem. rewrite H. reflexivity. Qed.

Lemma has_column_add_column_false cols name other rs rs' :
  has_column (mkDF cols rs) other = false ->
  other <> name ->
  has_column (mkDF (add_column name cols) rs') other = false.
Proof.
  unfold has_column. simpl. rewrite !bool_decide_eq_false.
  intros Hnot Hne Hin. apply add_column_elem in Hin.
  destruct Hin as [Hin|Heq]; [exact (Hnot Hin) | exact (Hne Heq)].
Qed.

(** The three assignments, from the call to the [load] that follows them. *)
Ltac assign_flags Hdf Hlt Hp Hd cols rs :=
  unfold analyze_congestion_zone;
  rewrite bind_print; cbv beta;
  erewrite bind_load by (cbn [heap]; exact Hdf); cbv beta;
  rewrite (getitem_returns _ Col.pickup_loc Hp), bind_lift_returns; cbv beta;
  erewrite bind_modify by (cbn [heap]; exact Hdf);
  cbv beta; cbn [heap stdout files];
  cbn [cget Col.pickup_loc]; rewrite isin_map, setitem_map;
  cbn [cname Col.pickup_in_zone columns rows];
  erewrite bind_load by (cbn [heap]; apply list_lookup_insert_eq; exact Hlt);
  cbv beta;
  rewrite (getitem_returns _ Col.dropoff_loc)
    by (apply has_column_add_column with (rs := rs); exact Hd);
  rewrite bind_lift_returns; cbv beta;
  erewrite bind_modify by (cbn [heap]; apply list_lookup_insert_eq; exact Hlt);
  cbv beta; cbn [heap stdout files]; rewrite list_insert_insert_eq;
  rewrite isin_map, setitem_map;
  cbn [cget cname Col.dropoff_loc Col.dropoff_in_zone columns rows];
  rewrite map_map;
  erewrite bind_load by (cbn [heap]; apply list_lookup_insert_eq; exact Hlt);
  cbv beta;
  rewrite (getitem_returns _ Col.pickup_in_zone)
    by (apply has_column_add_column with (rs := rs);
        apply has_column_add_column_same);
  rewrite bind_lift_returns; cbv beta;
  rewrite (getitem_returns _ Col.dropoff_in_zone)
    by apply has_column_add_column_same;
  rewrite bind_lift_returns; cbv beta;
  erewrite bind_modify by (cbn [heap]; apply list_lookup_insert_eq; exact Hlt);
  cbv beta; cbn [heap stdout files]; rewrite list_insert_insert_eq;
  unfold mask_and, mask_not; rewrite map_map, zip_with_map_same, setitem_map;
  cbn [cget cname Col.pickup_in_zone Col.dropoff_in_zone Col.enters_zone
       columns rows];
  rewrite map_map;
  match goal with
  | |- context [<[_ := ?F]> (heap _)] =>
      change F with (flagged (mkDF cols rs))
  end.

(** A call that raises KeyError has already changed the table of its
    caller.  The analyzer reads pickup_loc, dropoff_loc and pickup_time
    in this order and assigns a flag column after each of the first two
    reads: without pickup_loc the table is left as it was; without
    dropoff_loc it has gained pickup_in_zone; without pickup_time it has
    gained the three flag columns.  Nothing but the first line is
    printed. *)
Theorem analyze_congestion_zone_key_error w df fr c :
  heap w !! df = Some fr ->
  first_missing fr ["pickup_loc"; "dropoff_loc"; "pickup_time"] = Some c ->
  exists w' fr',
    analyze_congestion_zone df w = (Raises (KeyError c), w') /\
    heap w' !! df = Some fr' /\
    stdout w' = stdout w ++ [PAnalyzing] /\
    files w' = files w /\
    (c = "pickup_loc"%string -> fr' = fr) /\
    (c = "dropoff_loc"%string ->
       columns fr' = add_column "pickup_in_zone" (columns fr) /\
       rows fr' =
         map (fun r => with_pickup_in_zone (in_zone (pickup_loc r)) r) (rows fr)) /\
    (c = "pickup_time"%string -> fr' = flagged fr).
Proof.
  intros Hdf Hmiss.
  pose proof (lookup_lt_Some _ _ _ Hdf) as Hlt.
  destruct fr as [cols rs].
  unfold first_missing in Hmiss. simpl in Hmiss.
  destruct (has_column (mkDF cols rs) "pickup_loc") eqn:Hp; simpl in Hmiss.
  2:{ inversion Hmiss; subst c. eexists _, _.
      split.
      { unfold analyze_congestion_zone.
        rewrite bind_print; cbv beta.
        erewrite bind_load by (cbn [heap]; exact Hdf); cbv beta.
        rewrite (getitem_raises _ Col.pickup_loc Hp). reflexivity. }
      cbn [heap stdout files].
      split; [exact Hdf|]. split; [reflexivity|]. split; [reflexivity|].
      split; [reflexivity|]. split; discriminate. }
  destruct (has_column (mkDF cols rs) "dropoff_loc") eqn:Hd; simpl in Hmiss.
  2:{ inversion Hmiss; subst c. eexists _, _.
      split.
      { unfold analyze_congestion_zone.
        rewrite bind_print; cbv beta.
        erewrite bind_load by (cbn [heap]; exact Hdf); cbv beta.
        rewrite (getitem_returns _ Col.pickup_loc Hp), bind_lift_returns; cbv beta.
        erewrite bind_modify by (cbn [heap]; exact Hdf).
        cbv beta; cbn [heap stdout files].
        cbn [cget Col.pickup_loc]. rewrite isin_map, setitem_map.
        cbn [cname Col.pickup_in_zone columns rows].
        erewrite bind_load by (cbn [heap]; apply list_lookup_insert_eq; exact Hlt).
        cbv beta.
        rewrite (getitem_raises _ Col.dropoff_loc)
          by (apply has_column_add_column_false with (rs := rs);
              [exact Hd | discriminate]).
        reflexivity. }
      cbn [heap stdout files].
      split; [apply list_lookup_insert_eq; exact Hlt|].
      split; [reflexivity|]. split; [reflexivity|].
      split; [discriminate|].
      split; [intros _; split; reflexivity | discriminate]. }
  destruct (has_column (mkDF cols rs) "pickup_time") eqn:Ht; simpl in Hmiss;
    [discriminate|].
  inversion Hmiss; subst c. eexists _, _.
  split.
  { assign_flags Hdf Hlt Hp Hd cols rs.
    erewrite bind_load by (cbn [heap]; apply list_lookup_insert_eq; exact Hlt).
    cbv beta.
    rewrite (getitem_raises _ Col.pickup_time)
      by (unfold flagged;
          do 3 (apply has_column_add_column_false with (rs := rs);
                [|discriminate]);
          exact Ht).
    reflexivity. }
  cbn [heap stdout files].
  split; [apply list_lookup_insert_eq; exact Hlt|].
  split; [reflexivity|]. split; [reflexivity|].
  split; [discriminate|]. split; [discriminate|]. reflexivity.
Qed.

Lemma analyze_congestion_zone_key_error_witness :
  let fr := mkDF ["pickup_loc"; "fare"] [Sample.plain] in
  let w := Sample.world_of fr in
  heap w !! 0%nat = Some fr /\
  first_missing fr ["pickup_loc"; "dropoff_loc"; "pickup_time"]
    = Some "dropoff_loc"%string /\
  exists w' fr',
    analyze_congestion_zone 0%nat w = (Raises (KeyError "dropoff_loc"), w') /\
    heap w' !! 0%nat = Some fr' /\
    stdout w' = stdout w ++ [PAnalyzing] /\
    files w' = files w /\
    ("dropoff_loc"%string = "pickup_loc"%string -> fr' = fr) /\
    ("dropoff_loc"%string = "dropoff_loc"%string ->
       columns fr' = add_column "pickup_in_zone" (columns fr) /\
       rows fr' =
         map (fun r => with_pickup_in_zone (in_zone (pickup_loc r)) r) (rows fr)) /\
    ("dropoff_loc"%string = "pickup_time"%string -> fr' = flagged fr).
Proof.
  split; [reflexivity|].
  split; [reflexivity|].
  apply (analyze_congestion_zone_key_error
           (Sample.world_of (mkDF ["pickup_loc"; "fare"] [Sample.plain]))
           0%nat (mkDF ["pickup_loc"; "fare"] [Sample.plain])
           "dropoff_loc"%string);
    reflexivity.
Defined.

(** The analyzer reads congestion_surcharge only when some record
    qualifies.  On a table without that column it returns, having
    assigned the flags and printed its first line, if no record enters
    the zone on or after the cutoff date; if one does, it raises KeyError
    for the column, the flags assigned and nothing more printed. *)
Theorem analyze_congestion_zone_without_surcharge w df fr :
  heap w !! df = Some fr ->
  has_columns fr ["pickup_loc"; "dropoff_loc"; "pickup_time"] = true ->
  has_column fr "congestion_surcharge" = false ->
  exists w',
    heap w' = <[df := flagged fr]> (heap w) /\
    stdout w' = stdout w ++ [PAnalyzing] /\
    files w' = files w /\
    (zone_entries (flagged fr) = [] ->
     analyze_congestion_zone df w = (Returns df, w')) /\
    (zone_entries (flagged fr) <> [] ->
     analyze_congestion_zone df w =
       (Raises (KeyError "congestion_surcharge"), w')).
Proof.
  intros Hdf Hcols Hs.
  pose proof (lookup_lt_Some _ _ _ Hdf) as Hlt.
  unfold has_columns in Hcols. simpl in Hcols.
  rewrite !andb_true_iff in Hcols. destruct Hcols as (Hp & Hd & Ht & _).
  destruct fr as [cols rs].
  exists (mkWorld (<[df := flagged (mkDF cols rs)]> (heap w))
                  (stdout w ++ [PAnalyzing]) (files w)).
  split; [reflexivity|]. split; [reflexivity|]. split; [reflexivity|].
  assert (Hrun : analyze_congestion_zone df w =
                 match zone_entries (flagged (mkDF cols rs)) with
                 | [] => (Returns df,
                          mkWorld (<[df := flagged (mkDF cols rs)]> (heap w))
                                  (stdout w ++ [PAnalyzing]) (files w))
                 | _ :: _ => (Raises (KeyError "congestion_surcharge"),
                              mkWorld (<[df := flagged (mkDF cols rs)]> (heap w))
                                      (stdout w ++ [PAnalyzing]) (files w))
                 end).
  { assign_flags Hdf Hlt Hp Hd cols rs.
    assert (HFt : has_column (flagged (mkDF cols rs)) "pickup_time" = true)
      by (unfold flagged; do 3 apply has_column_add_column with (rs := rs); exact Ht).
    assert (HFs : has_column (flagged (mkDF cols rs)) "congestion_surcharge" = false)
      by (unfold flagged;
          do 3 (apply has_column_add_column_false with (rs := rs); [|discriminate]);
          exact Hs).
    assert (HFe : has_column (flagged (mkDF cols rs)) "enters_zone" = true)
      by apply has_column_add_column_same.
    generalize dependent (flagged (mkDF cols rs)). intros F HFt HFs HFe.
    erewrite bind_load by (cbn [heap]; apply list_lookup_insert_eq; exact Hlt).
    cbv beta.
    rewrite (getitem_returns _ Col.pickup_time HFt), bind_lift_returns; cbv beta.
    unfold ge_date. rewrite map_map.
    cbn [cget Col.pickup_time].
    change (map (fun x : Row => match pickup_time x with
                                | NaT => false
                                | Ts ns => date_ns 2025 1 5 <=? ns
                                end) (rows F))
      with (map post_toll_row (rows F)).
    rewrite (bool_index_map F post_toll_row).
    rewrite (getitem_returns _ Col.enters_zone) by exact HFe.
    rewrite bind_lift_returns; cbv beta.
    rewrite (bool_index_map (mkDF _ _) enters_zone).
    cbn [cget Col.enters_zone rows columns].
    fold (zone_entries F).
    unfold len at 1. cbn [rows].
    destruct (zone_entries F) as [|z ze] eqn:Hze.
    - cbn [length Nat.ltb Nat.leb]. rewrite bind_ret. reflexivity.
    - replace (0 <? length (z :: ze))%nat with true by reflexivity.
      rewrite (getitem_raises (mkDF (columns F) (z :: ze)) Col.congestion_surcharge)
        by exact HFs.
      rewrite bind_assoc, bind_lift_raises. reflexivity. }
  rewrite Hrun.
  destruct (zone_entries (flagged (mkDF cols rs))); split; congruence.
Qed.

Lemma analyze_congestion_zone_without_surcharge_witness :
  let fr := mkDF ["pickup_loc"; "dropoff_loc"; "pickup_time"] [Sample.plain] in
  let w := Sample.world_of fr in
  heap w !! 0%nat = Some fr /\
  has_columns fr ["pickup_loc"; "dropoff_loc"; "pickup_time"] = true /\
  has_column fr "congestion_surcharge" = false /\
  zone_entries (flagged fr) <> [] /\
  exists w',
    heap w' = <[0%nat := flagged fr]> (heap w) /\
    stdout w' = stdout w ++ [PAnalyzing] /\
    files w' = files w /\
    (zone_entries (flagged fr) = [] ->
     analyze_congestion_zone 0%nat w = (Returns 0%nat, w')) /\
    (zone_entries (flagged fr) <> [] ->
     analyze_congestion_zone 0%nat w =
       (Raises (KeyError "congestion_surcharge"), w')).
Proof.
  split; [reflexivity|].
  split; [reflexivity|].
  split; [reflexivity|].
  split; [discriminate|].
  apply (analyze_congestion_zone_without_surcharge
           (Sample.world_of
              (mkDF ["pickup_loc"; "dropoff_loc"; "pickup_time"] [Sample.plain]))
           0%nat (mkDF ["pickup_loc"; "dropoff_loc"; "pickup_time"] [Sample.plain]));
    reflexivity.
Defined.

(** ** [analyze_congestion_zone] applied again *)

Lemma flag_row_idempotent (r : Row) : flag_row (flag_row r) = flag_row r.
Proof. reflexivity. Qed.

Lemma add_column_present (name : string) (cols : list string) :
  name ∈ cols -> add_column name cols = cols.
Proof.
  intros Hin. unfold add_column.
  case_bool_decide; [reflexivity | contradiction].
Qed.

Lemma flagged_idempotent (fr : DataFrame) : flagged (flagged fr) = flagged fr.
Proof.
  unfold flagged. cbn [columns rows]. f_equal.
  - rewrite (add_column_present "pickup_in_zone")
      by (rewrite !add_column_elem; auto).
    rewrite (add_column_present "dropoff_in_zone")
      by (rewrite !add_column_elem; auto).
    apply add_column_present. rewrite !add_column_elem. auto.
  - rewrite map_map. apply map_ext. intros r. apply flag_row_idempotent.
Qed.

(** The analyzer can be applied again to the table it has annotated: the
    second call leaves every object as the first call left it and prints
    the lines of the first call again. *)
Theorem analyze_congestion_zone_twice w df fr :
  heap w !! df = Some fr ->
  has_columns fr analyzer_columns = true ->
  exists w1 w2 out,
    analyze_congestion_zone df w = (Returns df, w1) /\
    analyze_congestion_zone df w1 = (Returns df, w2) /\
    heap w2 = heap w1 /\ files w2 = files w1 /\
    stdout w1 = stdout w ++ out /\
    stdout w2 = stdout w1 ++ out.
Proof.
  intros Hdf Hcols.
  pose proof (lookup_lt_Some _ _ _ Hdf) as Hlt.
  eexists _, _, _.
  split; [apply analyze_congestion_zone_run; eassumption|].
  split.
  { apply (analyze_congestion_zone_run _ _ (flagged fr)).
    - cbn [heap]. apply list_lookup_insert_eq. exact Hlt.
    - apply has_columns_flagged. exact Hcols. }
  cbn [heap stdout files].
  rewrite flagged_idempotent, list_insert_insert_eq.
  repeat split.
Qed.

Lemma analyze_congestion_zone_twice_witness :
  let fr := Sample.table [Sample.plain; Sample.trip 100 4 20 15 30 5 0] in
  let w := Sample.world_of fr in
  heap w !! 0%nat = Some fr /\
  has_columns fr analyzer_columns = true /\
  exists w1 w2 out,
    analyze_congestion_zone 0%nat w = (Returns 0%nat, w1) /\
    analyze_congestion_zone 0%nat w1 = (Returns 0%nat, w2) /\
    heap w2 = heap w1 /\ files w2 = files w1 /\
    stdout w1 = stdout w ++ out /\
    stdout w2 = stdout w1 ++ out.
Proof.
  split; [reflexivity|].
  split; [reflexivity|].
  apply (analyze_congestion_zone_twice
           (Sample.world_of
              (Sample.table [Sample.plain; Sample.trip 100 4 20 15 30 5 0]))
           0%nat (Sample.table [Sample.plain; Sample.trip 100 4 20 15 30 5 0]));
    reflexivity.
Defined.

(** ** The numbers of the compliance report *)










(** ** [create_summary_stats] *)

(** The summary reads and prints, and changes nothing: with its four
    columns it returns, every object and file as before; the line of the
    surcharge total is printed exactly when the table has a
    congestion_surcharge column.  Without one of the four columns it
    raises KeyError for the first it reads and does not find, in the
    order fare, trip_distance, avg_speed, total_amount. *)
Theorem create_summary_stats_reads_only w df fr :
  heap w !! df = Some fr ->
  exists w',
    heap w' = heap w /\ files w' = files w /\
    match first_missing fr summary_columns with
    | None =>
        create_summary_stats df w = (Returns tt, w') /\
        exists out,
          stdout w' = stdout w ++ PSummaryHeader :: PTotalTrips (len fr) :: out /\
          (In PTotalSurcharge out <-> has_column fr "congestion_surcharge" = true)
    | Some c => create_summary_stats df w = (Raises (KeyError c), w')
    end.
Proof.
  intros Hdf.
  unfold first_missing, summary_columns. simpl.
  unfold create_summary_stats.
  rewrite bind_print; cbv beta.
  erewrite bind_load by (cbn [heap]; exact Hdf); cbv beta.
  rewrite bind_print; cbv beta.
  destruct (has_column fr "fare") eqn:Hf; simpl.
  2:{ rewrite (getitem_raises _ Col.fare Hf), bind_lift_raises.
      eexists. split; [|split]. 3: reflexivity. all: reflexivity. }
  rewrite (getitem_returns _ Col.fare Hf), bind_lift_returns, bind_print; cbv beta.
  destruct (has_column fr "trip_distance") eqn:Hd; simpl.
  2:{ rewrite (getitem_raises _ Col.trip_distance Hd), bind_lift_raises.
      eexists. split; [|split]. 3: reflexivity. all: reflexivity. }
  rewrite (getitem_returns _ Col.trip_distance Hd), bind_lift_returns, bind_print; cbv beta.
  destruct (has_column fr "avg_speed") eqn:Hs; simpl.
  2:{ rewrite (getitem_raises _ Col.avg_speed Hs), bind_lift_raises.
      eexists. split; [|split]. 3: reflexivity. all: reflexivity. }
  rewrite (getitem_returns _ Col.avg_speed Hs), bind_lift_returns, bind_print; cbv beta.
  destruct (has_column fr "total_amount") eqn:Ht; simpl.
  2:{ rewrite (getitem_raises _ Col.total_amount Ht), bind_lift_raises.
      eexists. split; [|split]. 3: reflexivity. all: reflexivity. }
  rewrite (getitem_returns _ Col.total_amount Ht), bind_lift_returns, bind_print; cbv beta.
  cbn [heap stdout files].
  destruct (has_column fr "congestion_surcharge") eqn:Hc.
  - rewrite (getitem_returns _ Col.congestion_surcharge Hc), bind_lift_returns.
    unfold print. cbn [heap stdout files].
    exists (mkWorld (heap w)
              (stdout w ++ [PSummaryHeader; PTotalTrips (len fr); PAverageFare;
                            PAverageDistance; PAverageSpeed; PTotalRevenue;
                            PTotalSurcharge])
              (files w)).
    split; [reflexivity|]. split; [reflexivity|].
    split; [rewrite <- !app_assoc; reflexivity|]. cbn [stdout].
    exists [PAverageFare; PAverageDistance; PAverageSpeed; PTotalRevenue; PTotalSurcharge].
    split; [reflexivity|].
    split; [reflexivity | intros _; simpl; auto 10].
  - unfold ret.
    exists (mkWorld (heap w)
              (stdout w ++ [PSummaryHeader; PTotalTrips (len fr); PAverageFare;
                            PAverageDistance; PAverageSpeed; PTotalRevenue])
              (files w)).
    split; [reflexivity|]. split; [reflexivity|].
    split; [rewrite <- !app_assoc; reflexivity|]. cbn [stdout].
    exists [PAverageFare; PAverageDistance; PAverageSpeed; PTotalRevenue].
    split; [reflexivity|].
    split; [|discriminate].
    simpl. intros [H|[H|[H|[H|[]]]]]; discriminate.
Qed.

Lemma create_summary_stats_reads_only_witness :
  let fr := mkDF ["fare"; "trip_distance"; "avg_speed"; "total_amount"] [Sample.plain] in
  let w := Sample.world_of fr in
  heap w !! 0%nat = Some fr /\
  exists w',
    heap w' = heap w /\ files w' = files w /\
    match first_missing fr summary_columns with
    | None =>
        create_summary_stats 0%nat w = (Returns tt, w') /\
        exists out,
          stdout w' = stdout w ++ PSummaryHeader :: PTotalTrips (len fr) :: out /\
          (In PTotalSurcharge out <-> has_column fr "congestion_surcharge" = true)
    | Some c => create_summary_stats 0%nat w = (Raises (KeyError c), w')
    end.
Proof.
  split; [reflexivity|].
  apply (create_summary_stats_reads_only
           (Sample.world_of
              (mkDF ["fare"; "trip_distance"; "avg_speed"; "total_amount"]
                 [Sample.plain]))
           0%nat
           (mkDF ["fare"; "trip_distance"; "avg_speed"; "total_amount"] [Sample.plain]));
    reflexivity.
Defined.

(** ** What the analysis never touches *)


Lemma settled_refl w : settled w w.
Proof. split; [reflexivity | lia]. Qed.

Lemma settled_trans w1 w2 w3 : settled w1 w2 -> settled w2 w3 -> settled w1 w3.
Proof. intros [Hf1 Hl1] [Hf2 Hl2]. split; [congruence | lia]. Qed.

Lemma keeps_files_ret {A} (a : A) : keeps_files (ret a).
Proof. intros w. apply settled_refl. Qed.

Lemma keeps_files_lift {A} (o : outcome A) : keeps_files (lift o).
Proof. intros w. apply settled_refl. Qed.

Lemma keeps_files_print (l : line) : keeps_files (print l).
Proof. intros w. split; [reflexivity | simpl; lia]. Qed.

Lemma keeps_files_load (r : ref) : keeps_files (load r).
Proof. intros w. unfold load. destruct (heap w !! r); apply settled_refl. Qed.

Lemma keeps_files_alloc (fr : DataFrame) : keeps_files (alloc fr).
Proof. intros w. split; [reflexivity | simpl; rewrite length_app; lia]. Qed.

Lemma keeps_files_modify (r : ref) f : keeps_files (modify r f).
Proof.
  intros w. unfold modify. destruct (heap w !! r); [|apply settled_refl].
  split; [reflexivity | simpl; rewrite length_insert; lia].
Qed.

Lemma keeps_files_bind {A B} (m : M A) (k : A -> M B) :
  keeps_files m -> (forall a, keeps_files (k a)) -> keeps_files (bind m k).
Proof.
  intros Hm Hk w. unfold bind.
  specialize (Hm w). destruct (m w) as [[a|e] w1]; simpl in Hm; [|exact Hm].
  eapply settled_trans; [exact Hm | apply Hk].
Qed.

Lemma keeps_files_for_each {A} (l : list A) (body : A -> M unit) :
  (forall x, keeps_files (body x)) -> keeps_files (for_each l body).
Proof.
  intros Hbody. induction l as [|x l IH]; simpl; [apply keeps_files_ret|].
  apply keeps_files_bind; [apply Hbody | intros _; exact IH].
Qed.

Ltac keeps_files :=
  repeat first
    [ apply keeps_files_ret | apply keeps_files_lift | apply keeps_files_print
    | apply keeps_files_load | apply keeps_files_alloc | apply keeps_files_modify
    | apply keeps_files_for_each; intros ?
    | apply keeps_files_bind; [|intros ?]
    | match goal with
      | |- keeps_files (if ?b then _ else _) => destruct b
      end
    | progress cbv zeta ].














(** A download that breaks off, seen from [main].  The month's file is
    not on the disk and the body of the answer breaks off: the run
    prints the error and "Download failed" and returns, no table
    written, and leaves the bytes that came as the month's file.  The
    next run takes that file for the month, whatever the network would
    answer now: it does not download, and if the bytes are not a parquet
    file [process_file] raises on them, before any table is written. *)
Theorem main_after_a_broken_download
    net net' decode total_seconds disk status chunks :
  disk !! RAW_FILE = None ->
  net "https://d37ci6vzurychx.cloudfront.net/trip-data/yellow_tripdata_2025-01.parquet"%string
    = Scraper.Response status chunks false ->
  Scraper.raise_for_status status = false ->
  decode (foldl String.append EmptyString chunks) = None ->
  let left_over := <[RAW_FILE := foldl String.append EmptyString chunks]> disk in
  let name := "yellow_tripdata_2025-01.parquet"%string in
  main net decode total_seconds disk =
    Some (Returns tt,
          mkSession (mkWorld [] (BANNER ++ [PDownloading name; PError;
                                            PText "Download failed"]) ∅)
                    left_over) /\
  main net' decode total_seconds left_over =
    Some (Raises (ArrowInvalid RAW_FILE),
          mkSession (mkWorld [] (BANNER ++ [PAlreadyExists name;
                                            PProcessing name]) ∅)
                    left_over).
Proof.
  intros Hnone Hnet Hstatus Hdecode. cbv zeta.
  assert (Hfirst : download net disk =
            (None,
             Scraper.mkSystem
               (<[RAW_FILE := foldl String.append EmptyString chunks]> disk)
               [Scraper.Downloading "yellow_tripdata_2025-01.parquet";
                Scraper.Failed])).
  { unfold download, Scraper.download_month.
    fold (Scraper.filename "yellow" 2025 1).
    fold (Scraper.month_path posix_join (Scraper.init "data/raw" "data/processed")
            "yellow" 2025 1).
    rewrite raw_file_path. cbn [Scraper.disk].
    rewrite Hnone. rewrite bool_decide_eq_false_2 by (intros [x Hx]; discriminate).
    change (Scraper.base_url _ +:+ Scraper.filename "yellow" 2025 1)
      with "https://d37ci6vzurychx.cloudfront.net/trip-data/yellow_tripdata_2025-01.parquet"%string.
    rewrite Hnet, Hstatus. reflexivity. }
  assert (Hsecond : download net'
            (<[RAW_FILE := foldl String.append EmptyString chunks]> disk) =
            (Some RAW_FILE,
             Scraper.mkSystem
               (<[RAW_FILE := foldl String.append EmptyString chunks]> disk)
               [Scraper.AlreadyExists "yellow_tripdata_2025-01.parquet"])).
  { unfold download, Scraper.download_month.
    fold (Scraper.filename "yellow" 2025 1).
    fold (Scraper.month_path posix_join (Scraper.init "data/raw" "data/processed")
            "yellow" 2025 1).
    rewrite raw_file_path. cbn [Scraper.disk].
    rewrite lookup_insert_eq.
    rewrite bool_decide_eq_true_2 by (eexists; reflexivity).
    reflexivity. }
  split.
  - rewrite main_run. cbv zeta. rewrite Hfirst. cbn [fst snd].
    rewrite <- app_assoc. reflexivity.
  - rewrite main_run. cbv zeta. unfold fetched. rewrite Hsecond. cbn [fst snd].
    cbn [Scraper.disk Scraper.console]. rewrite lookup_insert_eq, Hdecode.
    rewrite <- app_assoc. reflexivity.
Qed.

Lemma main_after_a_broken_download_witness :
  let left_over := <[RAW_FILE := "PAR"%string]> (∅ : gmap string string) in
  let name := "yellow_tripdata_2025-01.parquet"%string in
  (∅ : gmap string string) !! RAW_FILE = None /\
  Demo.breaking
    "https://d37ci6vzurychx.cloudfront.net/trip-data/yellow_tripdata_2025-01.parquet"%string
    = Scraper.Response 200 ["PA"; "R"]%string false /\
  Scraper.raise_for_status 200 = false /\
  Demo.decode (foldl String.append EmptyString ["PA"; "R"]%string) = None /\
  main Demo.breaking Demo.decode Demo.total_seconds ∅ =
    Some (Returns tt,
          mkSession (mkWorld [] (BANNER ++ [PDownloading name; PError;
                                            PText "Download failed"]) ∅)
                    left_over) /\
  main Demo.offline Demo.decode Demo.total_seconds left_over =
    Some (Raises (ArrowInvalid RAW_FILE),
          mkSession (mkWorld [] (BANNER ++ [PAlreadyExists name;
                                            PProcessing name]) ∅)
                    left_over).
Proof.
  cbv zeta.
  split; [reflexivity|].
  split; [reflexivity|].
  split; [reflexivity|].
  split; [reflexivity|].
  apply (main_after_a_broken_download
           Demo.breaking Demo.offline Demo.decode Demo.total_seconds ∅
           200%nat ["PA"; "R"]%string);
    reflexivity.
Defined.

(** ** [TLCScraper.download_month] *)

Section Download.
Variable joinpath : string -> string -> string.
Variable self : Scraper.TLCScraper.

Local Abbreviation month_path := (Scraper.month_path joinpath self).

Lemma download_month_hit net year month taxi_type s content :
  Scraper.disk s !! month_path taxi_type year month = Some content ->
  Scraper.download_month joinpath self net year month taxi_type s =
    (Some (month_path taxi_type year month),
     Scraper.say (Scraper.AlreadyExists (Scraper.filename taxi_type year month)) s).
Proof.
  intros Hfile. unfold Scraper.download_month.
  fold (Scraper.filename taxi_type year month).
  fold (month_path taxi_type year month).
  rewrite Hfile. reflexivity.
Qed.

(** A month whose file is on the disk is not downloaded again: whatever
    the network would answer, the call returns the path of that file,
    says so, and leaves the disk as it is. *)
Theorem download_month_cached net year month taxi_type s content :
  Scraper.disk s !! month_path taxi_type year month = Some content ->
  Scraper.download_month joinpath self net year month taxi_type s =
    (Some (month_path taxi_type year month),
     Scraper.mkSystem (Scraper.disk s)
       (Scraper.console s
        ++ [Scraper.AlreadyExists (Scraper.filename taxi_type year month)])).
Proof. apply download_month_hit. Qed.

(** A path the call returns is the path of the month's file, and the
    file is on the disk when the call returns; no other file is changed,
    whatever the outcome. *)
Theorem download_month_returns_a_file net year month taxi_type s :
  let result := Scraper.download_month joinpath self net year month taxi_type s in
  (forall path, result.1 = Some path ->
     path = month_path taxi_type year month /\
     is_Some (Scraper.disk result.2 !! path)) /\
  (forall other, other <> month_path taxi_type year month ->
     Scraper.disk result.2 !! other = Scraper.disk s !! other).
Proof.
  cbv zeta. unfold Scraper.download_month.
  fold (Scraper.filename taxi_type year month).
  fold (month_path taxi_type year month).
  case_bool_decide as Hcached.
  - simpl. split; [|reflexivity].
    intros path [= <-]. split; [reflexivity | exact Hcached].
  - destruct (net _) as [|status chunks complete]; simpl.
    + split; [discriminate | reflexivity].
    + destruct (Scraper.raise_for_status status); simpl.
      * split; [discriminate | reflexivity].
      * destruct complete; simpl.
        -- split.
           ++ intros path [= <-]. split; [reflexivity|].
              rewrite lookup_insert_eq. eexists. reflexivity.
           ++ intros other Hother. apply lookup_insert_ne. congruence.
        -- split; [discriminate|].
           intros other Hother. apply lookup_insert_ne. congruence.
Qed.

(** A month that is not on the disk: the call returns the path exactly
    when the server answers with a status outside 400..599 and the body
    arrives whole, and then the file holds the chunks in the order they
    came.  Without an answer, or with a status from 400 to 599, it returns
    [None] and the disk is as before.  When the body breaks off, it
    returns [None] and the file holds the chunks that came. *)
Theorem download_month_downloads net year month taxi_type s :
  Scraper.disk s !! month_path taxi_type year month = None ->
  let url := Scraper.base_url self +:+ Scraper.filename taxi_type year month in
  let result := Scraper.download_month joinpath self net year month taxi_type s in
  match net url with
  | Scraper.NoConnection =>
      result.1 = None /\ Scraper.disk result.2 = Scraper.disk s
  | Scraper.Response status chunks complete =>
      if Scraper.raise_for_status status then
        result.1 = None /\ Scraper.disk result.2 = Scraper.disk s
      else
        (result.1 = if complete then Some (month_path taxi_type year month)
                    else None) /\
        Scraper.disk result.2 !! month_path taxi_type year month =
          Some (foldl String.append EmptyString chunks)
  end.
Proof.
  intros Hnone. cbv zeta. unfold Scraper.download_month.
  fold (Scraper.filename taxi_type year month).
  fold (month_path taxi_type year month).
  rewrite Hnone.
  rewrite bool_decide_eq_false_2 by (intros [x Hx]; discriminate).
  destruct (net _) as [|status chunks complete]; simpl; [auto|].
  destruct (Scraper.raise_for_status status); simpl; [auto|].
  destruct complete; simpl; split; try reflexivity; apply lookup_insert_eq.
Qed.

(** A download that breaks off leaves its file behind, and the next call
    takes that file for the month: the first call returns [None]; the
    second, whatever the network would answer now, returns the path, and
    the file still holds only the chunks that came before the break. *)
Theorem download_month_serves_a_broken_file net net' year month taxi_type s
    status chunks :
  Scraper.disk s !! month_path taxi_type year month = None ->
  net (Scraper.base_url self +:+ Scraper.filename taxi_type year month) =
    Scraper.Response status chunks false ->
  Scraper.raise_for_status status = false ->
  let first := Scraper.download_month joinpath self net year month taxi_type s in
  let second :=
    Scraper.download_month joinpath self net' year month taxi_type first.2 in
  first.1 = None /\
  second.1 = Some (month_path taxi_type year month) /\
  Scraper.disk second.2 = Scraper.disk first.2 /\
  Scraper.disk second.2 !! month_path taxi_type year month =
    Some (foldl String.append EmptyString chunks).
Proof.
  intros Hnone Hnet Hstatus. cbv zeta.
  assert (Hfirst :
    Scraper.download_month joinpath self net year month taxi_type s =
    (None,
     Scraper.say Scraper.Failed
       (Scraper.write_chunks (month_path taxi_type year month) chunks
          (Scraper.say (Scraper.Downloading (Scraper.filename taxi_type year month)) s)))).
  { unfold Scraper.download_month.
    fold (Scraper.filename taxi_type year month).
    fold (month_path taxi_type year month).
    rewrite Hnone.
    rewrite bool_decide_eq_false_2 by (intros [x Hx]; discriminate).
    rewrite Hnet, Hstatus. reflexivity. }
  rewrite Hfirst. cbn [fst snd].
  erewrite download_month_hit; [|simpl; apply lookup_insert_eq].
  simpl. repeat split. apply lookup_insert_eq.
Qed.

End Download.

Lemma download_month_cached_witness :
  let joinpath := fun dir name : string => dir +:+ "/" +:+ name in
  let self := Scraper.init "data/raw" "data/processed" in
  let net := fun _ : string => Scraper.NoConnection in
  let s := Scraper.mkSystem
             (<["data/raw/yellow_tripdata_2025-01.parquet"%string := "PAR1"%string]> ∅) [] in
  Scraper.disk s !! Scraper.month_path joinpath self "yellow" 2025 1 = Some "PAR1"%string /\
  Scraper.download_month joinpath self net 2025 1 "yellow" s =
    (Some (Scraper.month_path joinpath self "yellow" 2025 1),
     Scraper.mkSystem (Scraper.disk s)
       (Scraper.console s
        ++ [Scraper.AlreadyExists (Scraper.filename "yellow" 2025 1)])).
Proof.
  cbv zeta.
  split; [vm_compute; reflexivity|].
  apply (download_month_cached
           (fun dir name : string => dir +:+ "/" +:+ name)
           (Scraper.init "data/raw" "data/processed")
           (fun _ : string => Scraper.NoConnection) 2025 1 "yellow"
           (Scraper.mkSystem
              (<["data/raw/yellow_tripdata_2025-01.parquet"%string := "PAR1"%string]> ∅) [])
           "PAR1"%string).
  vm_compute. reflexivity.
Defined.

Lemma download_month_downloads_witness :
  let joinpath := fun dir name : string => dir +:+ "/" +:+ name in
  let self := Scraper.init "data/raw" "data/processed" in
  let net := fun _ : string => Scraper.Response 200 ["PA"; "R1"]%string true in
  let s := Scraper.mkSystem ∅ [] in
  Scraper.disk s !! Scraper.month_path joinpath self "yellow" 2025 1 = None /\
  let url := Scraper.base_url self +:+ Scraper.filename "yellow" 2025 1 in
  let result := Scraper.download_month joinpath self net 2025 1 "yellow" s in
  match net url with
  | Scraper.NoConnection =>
      result.1 = None /\ Scraper.disk result.2 = Scraper.disk s
  | Scraper.Response status chunks complete =>
      if Scraper.raise_for_status status then
        result.1 = None /\ Scraper.disk result.2 = Scraper.disk s
      else
        (result.1 = if complete
                    then Some (Scraper.month_path joinpath self "yellow" 2025 1)
                    else None) /\
        Scraper.disk result.2 !! Scraper.month_path joinpath self "yellow" 2025 1 =
          Some (foldl String.append EmptyString chunks)
  end.
Proof.
  cbv zeta.
  split; [reflexivity|].
  apply (download_month_downloads
           (fun dir name : string => dir +:+ "/" +:+ name)
           (Scraper.init "data/raw" "data/processed")
           (fun _ : string => Scraper.Response 200 ["PA"; "R1"]%string true)
           2025 1 "yellow" (Scraper.mkSystem ∅ [])).
  reflexivity.
Defined.

Lemma download_month_serves_a_broken_file_witness :
  let joinpath := fun dir name : string => dir +:+ "/" +:+ name in
  let self := Scraper.init "data/raw" "data/processed" in
  let net := fun _ : string => Scraper.Response 200 ["PA"]%string false in
  let net' := fun _ : string => Scraper.Response 200 ["PA"; "R1"]%string true in
  let s := Scraper.mkSystem ∅ [] in
  Scraper.disk s !! Scraper.month_path joinpath self "yellow" 2025 1 = None /\
  net (Scraper.base_url self +:+ Scraper.filename "yellow" 2025 1) =
    Scraper.Response 200 ["PA"]%string false /\
  Scraper.raise_for_status 200 = false /\
  let first := Scraper.download_month joinpath self net 2025 1 "yellow" s in
  let second := Scraper.download_month joinpath self net' 2025 1 "yellow" first.2 in
  first.1 = None /\
  second.1 = Some (Scraper.month_path joinpath self "yellow" 2025 1) /\
  Scraper.disk second.2 = Scraper.disk first.2 /\
  Scraper.disk second.2 !! Scraper.month_path joinpath self "yellow" 2025 1 =
    Some (foldl String.append EmptyString ["PA"]%string).
Proof.
  cbv zeta.
  split; [reflexivity|].
  split; [reflexivity|].
  split; [reflexivity|].
  apply (download_month_serves_a_broken_file
           (fun dir name : string => dir +:+ "/" +:+ name)
           (Scraper.init "data/raw" "data/processed")
           (fun _ : string => Scraper.Response 200 ["PA"]%string false)
           (fun _ : string => Scraper.Response 200 ["PA"; "R1"]%string true)
           2025 1 "yellow" (Scraper.mkSystem ∅ []) 200%nat ["PA"]%string);
    reflexivity.
Defined.

(** ** The names of the month files *)

Lemma no_dash_split (a a' r r' : string) :
  no_dash a = true -> no_dash a' = true ->
  a +:+ String "-"%char r = a' +:+ String "-"%char r' -> a = a' /\ r = r'.
Proof.
  revert a'. induction a as [|c a IH]; intros [|c' a'] Ha Ha' Heq; simpl in *.
  - inversion Heq. auto.
  - inversion Heq; subst c'. discriminate Ha'.
  - inversion Heq; subst c. discriminate Ha.
  - apply andb_true_iff in Ha, Ha'. destruct Ha as [_ Ha], Ha' as [_ Ha'].
    inversion Heq; subst c'.
    destruct (IH a' Ha Ha' ltac:(assumption)) as [-> ->]. auto.
Qed.

Lemma pretty_N_char_no_dash (x : N) :
  Ascii.eqb (pretty_N_char x) "-"%char = false.
Proof. unfold pretty_N_char. repeat case_match; reflexivity. Qed.

Lemma pretty_N_go_no_dash (x : N) (s : string) :
  no_dash s = true -> no_dash (pretty_N_go x s) = true.
Proof.
  revert s. induction (N.lt_wf_0 x) as [x _ IH]; intros s Hs.
  destruct (decide (x = 0)%N) as [->|Hx]; [rewrite pretty_N_go_0; exact Hs|].
  rewrite pretty_N_go_step by lia.
  apply IH; [apply N.div_lt; lia|].
  simpl. rewrite pretty_N_char_no_dash. exact Hs.
Qed.

Lemma pretty_no_dash (y : Z) : 0 <= y -> no_dash (pretty y) = true.
Proof.
  intros Hy. destruct y as [|p|p]; [reflexivity| |lia].
  unfold pretty, pretty_Z, pretty, pretty_positive, pretty, pretty_N.
  case_decide; [reflexivity|].
  apply pretty_N_go_no_dash. reflexivity.
Qed.

(** Two months never share a file name, so the test for a file on the
    disk never takes one month for another: for one taxi type, years
    from 0 on and months from 1 to 12, equal names mean the same year
    and the same month; the month is written with two digits. *)
Theorem filename_injective taxi_type (y1 m1 y2 m2 : Z) :
  0 <= y1 -> 0 <= y2 -> 1 <= m1 <= 12 -> 1 <= m2 <= 12 ->
  Scraper.filename taxi_type y1 m1 = Scraper.filename taxi_type y2 m2 ->
  y1 = y2 /\ m1 = m2 /\ String.length (Scraper.format_02d m1) = 2%nat.
Proof.
  intros Hy1 Hy2 Hm1 Hm2 Heq. unfold Scraper.filename in Heq.
  apply (inj (String.app taxi_type)) in Heq.
  apply (inj (String.app "_tripdata_")) in Heq.
  change ("-" +:+ ?x) with (String "-"%char x) in Heq.
  apply no_dash_split in Heq; [|apply pretty_no_dash; assumption..].
  destruct Heq as [Hy Hm].
  apply (inj pretty) in Hy.
  split; [exact Hy|].
  assert (H1 : m1 = 1 \/ m1 = 2 \/ m1 = 3 \/ m1 = 4 \/ m1 = 5 \/ m1 = 6 \/
               m1 = 7 \/ m1 = 8 \/ m1 = 9 \/ m1 = 10 \/ m1 = 11 \/ m1 = 12) by lia.
  assert (H2 : m2 = 1 \/ m2 = 2 \/ m2 = 3 \/ m2 = 4 \/ m2 = 5 \/ m2 = 6 \/
               m2 = 7 \/ m2 = 8 \/ m2 = 9 \/ m2 = 10 \/ m2 = 11 \/ m2 = 12) by lia.
  clear Hm1 Hm2.
  repeat (destruct H1 as [H1|H1]); subst m1;
    (split; [|reflexivity]);
    repeat (destruct H2 as [H2|H2]); subst m2;
    first [reflexivity | vm_compute in Hm; discriminate Hm].
Qed.

Lemma filename_injective_witness :
  0 <= 2025 /\ 0 <= 2025 /\ 1 <= 1 <= 12 /\ 1 <= 1 <= 12 /\
  Scraper.filename "yellow" 2025 1 = Scraper.filename "yellow" 2025 1 /\
  2025 = 2025 /\ 1 = 1 /\ String.length (Scraper.format_02d 1) = 2%nat.
Proof.
  split; [lia|]. split; [lia|]. split; [lia|]. split; [lia|].
  split; [reflexivity|].
  apply (filename_injective "yellow" 2025 1 2025 1); [lia | lia | lia | lia | reflexivity].
Defined.

(** ** The columns [process_file] writes *)

Lemma filter_eqb_all (k : string) (cols : list string) :
  forall x, In x (List.filter (String.eqb k) cols) -> x = k.
Proof.
  intros x Hx. apply filter_In in Hx. destruct Hx as [_ Hx].
  apply String.eqb_eq in Hx. congruence.
Qed.

Lemma filter_eqb_NoDup (k : string) (cols : list string) :
  NoDup (List.filter (String.eqb k) cols) ->
  List.filter (String.eqb k) cols = [] \/ List.filter (String.eqb k) cols = [k].
Proof.
  pose proof (filter_eqb_all k cols) as Hall.
  destruct (List.filter (String.eqb k) cols) as [|x [|y l]]; intros Hnd.
  - left. reflexivity.
  - right. rewrite (Hall x) by (left; reflexivity). reflexivity.
  - exfalso. rewrite (Hall x), (Hall y) in Hnd by (simpl; auto).
    apply NoDup_cons in Hnd. destruct Hnd as [Hnot _].
    apply Hnot. left.
Qed.

Lemma select_columns_sublist (cols keys : list string) :
  NoDup (Scraper.select_columns cols keys) ->
  sublist (Scraper.select_columns cols keys) keys.
Proof.
  unfold Scraper.select_columns.
  induction keys as [|k keys IH]; simpl; intros Hnd; [constructor|].
  apply NoDup_app in Hnd. destruct Hnd as (Hk & _ & Hrest).
  destruct (filter_eqb_NoDup k cols Hk) as [-> | ->]; simpl.
  - apply sublist_cons. apply IH, Hrest.
  - apply sublist_skip. apply IH, Hrest.
Qed.

Lemma keep_cols_sublist (cols : list string) :
  sublist (Scraper.keep_cols cols) Scraper.KEEP_COLS.
Proof. apply filter_sublist. Qed.

(** Whatever file it reads, [process_file] writes columns of the schema
    only, in the order of the schema, none twice: the columns of the raw
    file that are not renamed or kept are gone.  A file it writes always
    has pickup_time, dropoff_time, trip_distance and the five computed
    columns; when it raises KeyError instead, it is for one of those
    three, which no column of the raw file provides. *)
Theorem process_file_columns_within_schema (raw : list string) (o : outcome (list string)) :
  Scraper.process_file_columns raw = Some o ->
  match o with
  | Returns cols =>
      sublist cols Sample.schema /\ NoDup cols /\
      (forall c, In c ["pickup_time"; "dropoff_time"; "trip_distance"; "hour";
                       "day_of_week"; "month"; "trip_duration"; "avg_speed"]%string ->
                 c ∈ cols)
  | Raises e =>
      exists c, e = KeyError c /\
        In c ["pickup_time"; "dropoff_time"; "trip_distance"]%string /\
        c ∉ Scraper.rename (Scraper.column_map raw) raw
  end.
Proof.
  unfold Scraper.process_file_columns.
  set (renamed := Scraper.rename (Scraper.column_map raw) raw).
  set (selected := Scraper.select_columns renamed (Scraper.keep_cols renamed)).
  case_bool_decide as Hnd; [|discriminate].
  assert (Hsub : sublist selected Scraper.KEEP_COLS).
  { etransitivity; [apply select_columns_sublist; exact Hnd|].
    apply keep_cols_sublist. }
  assert (Hin : forall k, In k Scraper.KEEP_COLS -> k ∉ selected -> k ∉ renamed).
  { intros k Hk Hnot Hren. apply Hnot.
    unfold selected, Scraper.select_columns.
    apply list_elem_of_In, in_flat_map. exists k. split.
    - unfold Scraper.keep_cols. apply filter_In. split; [exact Hk|].
      apply bool_decide_eq_true_2. exact Hren.
    - apply filter_In. split; [apply list_elem_of_In; exact Hren|].
      apply String.eqb_refl. }
  intros [= <-].
  case_bool_decide as Hp; simpl.
  2:{ exists "pickup_time"%string. split; [reflexivity|].
      split; [simpl; auto | apply Hin; [simpl; auto | exact Hp]]. }
  case_bool_decide as Hd; simpl.
  2:{ exists "dropoff_time"%string. split; [reflexivity|].
      split; [simpl; auto | apply Hin; [simpl; auto | exact Hd]]. }
  case_bool_decide as Ht; simpl.
  2:{ exists "trip_distance"%string. split; [reflexivity|].
      split; [simpl; auto | apply Hin; [simpl; auto 10 | exact Ht]]. }
  assert (Hall : sublist (selected ++ Scraper.DERIVED_COLS) Sample.schema).
  { change Sample.schema with (Scraper.KEEP_COLS ++ Scraper.DERIVED_COLS).
    apply sublist_app; [exact Hsub | reflexivity]. }
  split; [exact Hall|].
  split.
  { eapply sublist_NoDup; [|exact Hall].
    apply (bool_decide_unpack _). vm_compute. exact I. }
  intros c Hc. apply elem_of_app.
  simpl in Hc.
  destruct Hc as [<-|[<-|[<-|Hc]]]; [left; assumption..|].
  right. apply list_elem_of_In. exact Hc.
Qed.

Lemma process_file_columns_within_schema_witness :
  let raw := ["VendorID"; "tpep_pickup_datetime"; "tpep_dropoff_datetime";
              "trip_distance"; "fare_amount"]%string in
  let o := Returns ["pickup_time"; "dropoff_time"; "trip_distance"; "fare"; "hour";
                    "day_of_week"; "month"; "trip_duration"; "avg_speed"]%string in
  Scraper.process_file_columns raw = Some o /\
  match o with
  | Returns cols =>
      sublist cols Sample.schema /\ NoDup cols /\
      (forall c, In c ["pickup_time"; "dropoff_time"; "trip_distance"; "hour";
                       "day_of_week"; "month"; "trip_duration"; "avg_speed"]%string ->
                 c ∈ cols)
  | Raises e =>
      exists c, e = KeyError c /\
        In c ["pickup_time"; "dropoff_time"; "trip_distance"]%string /\
        c ∉ Scraper.rename (Scraper.column_map raw) raw
  end.
Proof.
  cbv zeta.
  split; [vm_compute; reflexivity|].
  apply (process_file_columns_within_schema
           ["VendorID"; "tpep_pickup_datetime"; "tpep_dropoff_datetime";
            "trip_distance"; "fare_amount"]%string
           (Returns ["pickup_time"; "dropoff_time"; "trip_distance"; "fare"; "hour";
                     "day_of_week"; "month"; "trip_duration"; "avg_speed"]%string)).
  vm_compute. reflexivity.
Defined.

(** ** [process_file] on a file of the TLC *)

Lemma lookup_guarded_insert (raw : list string) (k v y : string) (m m' : gmap string string) :
  y ∈ raw -> m !! y = m' !! y ->
  (if bool_decide (k ∈ raw) then <[k := v]> m else m) !! y = <[k := v]> m' !! y.
Proof.
  intros Hy Hm. destruct (decide (k = y)) as [-> | Hne].
  - rewrite bool_decide_eq_true_2 by exact Hy.
    rewrite !lookup_insert_eq. reflexivity.
  - rewrite (lookup_insert_ne m' k y v) by exact Hne.
    case_bool_decide; [rewrite lookup_insert_ne by exact Hne|]; exact Hm.
Qed.

Lemma rename_column_map (raw : list string) :
  Scraper.rename (Scraper.column_map raw) raw = map standard_name raw.
Proof.
  unfold Scraper.rename. apply map_ext_in. intros y Hy.
  apply list_elem_of_In in Hy.
  unfold standard_name. f_equal.
  unfold Scraper.column_map, all_renames. cbv zeta.
  repeat (apply lookup_guarded_insert; [exact Hy|]).
  reflexivity.
Qed.

Lemma filter_eqb_NoDup_elem (k : string) (cols : list string) :
  NoDup cols -> k ∈ cols -> List.filter (String.eqb k) cols = [k].
Proof.
  induction cols as [|c cols IH]; intros Hnd Hk.
  - apply elem_of_nil in Hk. destruct Hk.
  - apply NoDup_cons in Hnd. destruct Hnd as [Hc Hnd]. simpl.
    destruct (String.eqb_spec k c) as [-> | Hne].
    + f_equal.
      destruct (List.filter (String.eqb c) cols) as [|x l] eqn:E; [reflexivity|].
      exfalso. apply Hc.
      assert (Hx : In x (List.filter (String.eqb c) cols)) by (rewrite E; left; reflexivity).
      apply filter_In in Hx. destruct Hx as [Hx Heq].
      apply String.eqb_eq in Heq. subst x. apply list_elem_of_In. exact Hx.
    + apply IH; [exact Hnd|].
      apply elem_of_cons in Hk. destruct Hk as [Hk | Hk]; [contradiction | exact Hk].
Qed.

Lemma select_columns_all (cols keys : list string) :
  NoDup cols -> (forall k, In k keys -> k ∈ cols) ->
  Scraper.select_columns cols keys = keys.
Proof.
  intros Hnd. unfold Scraper.select_columns.
  induction keys as [|k keys IH]; intros Hall; [reflexivity|].
  simpl. rewrite filter_eqb_NoDup_elem by (auto; apply Hall; left; reflexivity).
  simpl. f_equal. apply IH. intros k' Hk'. apply Hall. right. exact Hk'.
Qed.

Lemma select_keep_cols (cols : list string) :
  NoDup cols ->
  Scraper.select_columns cols (Scraper.keep_cols cols) = Scraper.keep_cols cols.
Proof.
  intros Hnd. apply select_columns_all; [exact Hnd|].
  intros k Hk. unfold Scraper.keep_cols in Hk.
  apply filter_In in Hk. destruct Hk as [_ Hk].
  apply bool_decide_eq_true_1 in Hk. exact Hk.
Qed.

Lemma keep_cols_NoDup (cols : list string) : NoDup (Scraper.keep_cols cols).
Proof.
  eapply sublist_NoDup; [|apply keep_cols_sublist].
  apply (bool_decide_unpack _). vm_compute. exact I.
Qed.

Lemma keep_cols_elem (cols : list string) (k : string) :
  k ∈ Scraper.keep_cols cols <-> In k Scraper.KEEP_COLS /\ k ∈ cols.
Proof.
  unfold Scraper.keep_cols. rewrite list_elem_of_In, filter_In.
  split; intros [Hk Hc]; (split; [exact Hk|]).
  - apply bool_decide_eq_true_1 in Hc. exact Hc.
  - apply bool_decide_eq_true_2. exact Hc.
Qed.

Lemma standard_name_cases (y : string) :
  (y = "tpep_pickup_datetime" /\ standard_name y = "pickup_time")%string \/
  (y = "tpep_dropoff_datetime" /\ standard_name y = "dropoff_time")%string \/
  (y = "lpep_pickup_datetime" /\ standard_name y = "pickup_time")%string \/
  (y = "lpep_dropoff_datetime" /\ standard_name y = "dropoff_time")%string \/
  (y = "PULocationID" /\ standard_name y = "pickup_loc")%string \/
  (y = "DOLocationID" /\ standard_name y = "dropoff_loc")%string \/
  (y = "fare_amount" /\ standard_name y = "fare")%string \/
  (y = "tip_amount" /\ standard_name y = "tip")%string \/
  (standard_name y = y /\ all_renames !! y = None).
Proof.
  destruct (all_renames !! y) as [v|] eqn:E.
  - unfold standard_name. rewrite E. simpl.
    unfold all_renames in E.
    repeat (apply lookup_insert_Some in E;
            destruct E as [[<- <-] | [_ E]]; [tauto|]).
    rewrite lookup_empty in E. discriminate.
  - do 8 right. unfold standard_name. rewrite E. split; reflexivity.
Qed.

Lemma standard_name_elem (raw : list string) (k : string) :
  k ∈ map standard_name raw <-> exists y, y ∈ raw /\ standard_name y = k.
Proof.
  rewrite list_elem_of_In, in_map_iff. split.
  - intros (y & Hy & Hin). exists y. split; [apply list_elem_of_In; exact Hin | exact Hy].
  - intros (y & Hin & Hy). exists y. split; [exact Hy | apply list_elem_of_In; exact Hin].
Qed.

Ltac by_cases y H :=
  destruct (standard_name_cases y) as
    [[-> H]|[[-> H]|[[-> H]|[[-> H]|[[-> H]|[[-> H]|[[-> H]|[[-> H]|[H _]]]]]]]]].

Section TLC.
Variable raw : list string.
Hypothesis raw_NoDup : NoDup raw.
Hypothesis raw_not_renamed : forall c, In c RENAMED_COLS -> c ∉ raw.

Lemma not_renamed (c : string) : c ∈ raw -> In c RENAMED_COLS -> False.
Proof using raw_not_renamed. intros Hc Hin. exact (raw_not_renamed c Hin Hc). Qed.

Ltac sources H :=
  let y := fresh "y" in let Hy := fresh "Hy" in let E := fresh "E" in
  apply standard_name_elem in H; destruct H as (y & Hy & H);
  by_cases y E; rewrite E in H;
  try discriminate H;
  try (subst y; exfalso; apply (not_renamed _ Hy); simpl; tauto);
  try (subst y); auto.

Lemma pickup_time_elem :
  ("pickup_time" ∈ map standard_name raw <->
   "tpep_pickup_datetime" ∈ raw \/ "lpep_pickup_datetime" ∈ raw)%string.
Proof using raw_not_renamed.
  split.
  - intros H. sources H.
  - intros [H | H]; apply standard_name_elem; eexists; (split; [exact H | reflexivity]).
Qed.

Lemma dropoff_time_elem :
  ("dropoff_time" ∈ map standard_name raw <->
   "tpep_dropoff_datetime" ∈ raw \/ "lpep_dropoff_datetime" ∈ raw)%string.
Proof using raw_not_renamed.
  split.
  - intros H. sources H.
  - intros [H | H]; apply standard_name_elem; eexists; (split; [exact H | reflexivity]).
Qed.

Lemma renamed_elem (k src : string) :
  In (src, k) [("PULocationID", "pickup_loc"); ("DOLocationID", "dropoff_loc");
               ("fare_amount", "fare"); ("tip_amount", "tip");
               ("trip_distance", "trip_distance"); ("total_amount", "total_amount");
               ("congestion_surcharge", "congestion_surcharge")]%string ->
  k ∈ map standard_name raw <-> src ∈ raw.
Proof using raw_not_renamed.
  intros Hin. simpl in Hin.
  repeat (destruct Hin as [[= <- <-] | Hin]); [..|destruct Hin].
  all: split; [intros H; sources H
              | intros H; apply standard_name_elem; eexists; (split; [exact H | reflexivity])].
Qed.

Hypothesis one_pickup :
  ~ ("tpep_pickup_datetime" ∈ raw /\ "lpep_pickup_datetime" ∈ raw)%string.
Hypothesis one_dropoff :
  ~ ("tpep_dropoff_datetime" ∈ raw /\ "lpep_dropoff_datetime" ∈ raw)%string.

Lemma standard_name_inj (y1 y2 : string) :
  y1 ∈ raw -> y2 ∈ raw -> standard_name y1 = standard_name y2 -> y1 = y2.
Proof using raw_not_renamed one_pickup one_dropoff.
  intros H1 H2 Heq.
  by_cases y1 E1; by_cases y2 E2; try rewrite E1 in Heq; try rewrite E2 in Heq;
    try reflexivity; try discriminate Heq;
    try (exfalso; apply one_pickup; split; assumption);
    try (exfalso; apply one_dropoff; split; assumption);
    try (subst y2; exfalso; apply (not_renamed _ H2); simpl; tauto);
    try (subst y1; exfalso; apply (not_renamed _ H1); simpl; tauto).
  exact Heq.
Qed.

Lemma renamed_NoDup : NoDup (map standard_name raw).
Proof using raw_NoDup raw_not_renamed one_pickup one_dropoff.
  apply (NoDup_fmap_2_strong standard_name raw); [|exact raw_NoDup].
  intros x y Hx Hy. apply standard_name_inj; assumption.
Qed.

Lemma process_file_columns_tlc :
  Scraper.process_file_columns raw =
  Some (let selected := Scraper.keep_cols (map standard_name raw) in
        if negb (bool_decide ("pickup_time"%string ∈ selected))
        then Raises (KeyError "pickup_time")
        else if negb (bool_decide ("dropoff_time"%string ∈ selected))
        then Raises (KeyError "dropoff_time")
        else if negb (bool_decide ("trip_distance"%string ∈ selected))
        then Raises (KeyError "trip_distance")
        else Returns (selected ++ Scraper.DERIVED_COLS)).
Proof using raw_NoDup raw_not_renamed one_pickup one_dropoff.
  unfold Scraper.process_file_columns. cbv zeta.
  rewrite rename_column_map, (select_keep_cols _ renamed_NoDup).
  rewrite bool_decide_eq_true_2 by apply keep_cols_NoDup.
  reflexivity.
Qed.

Lemma kept_elem (k : string) :
  In k Scraper.KEEP_COLS ->
  k ∈ Scraper.keep_cols (map standard_name raw) ++ Scraper.DERIVED_COLS <->
  k ∈ map standard_name raw.
Proof.
  intros Hk. rewrite elem_of_app, keep_cols_elem. split.
  - intros [[_ H] | H]; [exact H|].
    exfalso. revert H. apply (bool_decide_unpack _).
    simpl in Hk. repeat (destruct Hk as [<- | Hk]; [vm_compute; exact I|]).
    destruct Hk.
  - intros H. left. split; assumption.
Qed.

End TLC.

(** The eight tests [if '...' in ddf.columns] change nothing: renaming
    with the dictionary they build gives the same columns as renaming
    with the dictionary of all eight entries, whatever the file has. *)
Theorem rename_ignores_the_guards (raw : list string) :
  Scraper.rename (Scraper.column_map raw) raw = Scraper.rename all_renames raw.
Proof. apply rename_column_map. Qed.

(** A file of the TLC: no column twice, none under a name the renaming
    gives, pickup and dropoff times of one taxi type only.  Then the
    selection never meets two columns of one name, and what
    [process_file] does is decided by the raw columns: KeyError for
    pickup_time, dropoff_time or trip_distance, in this order, when the
    file has no column for it; otherwise a file that has the location,
    fare, tip, total and surcharge columns exactly when the raw file has
    their sources. *)
Theorem process_file_columns_of_tlc_file (raw : list string) :
  NoDup raw ->
  (forall c, In c RENAMED_COLS -> c ∉ raw) ->
  ~ ("tpep_pickup_datetime" ∈ raw /\ "lpep_pickup_datetime" ∈ raw)%string ->
  ~ ("tpep_dropoff_datetime" ∈ raw /\ "lpep_dropoff_datetime" ∈ raw)%string ->
  exists o, Scraper.process_file_columns raw = Some o /\
    let pickup := ("tpep_pickup_datetime" ∈ raw \/ "lpep_pickup_datetime" ∈ raw)%string in
    let dropoff := ("tpep_dropoff_datetime" ∈ raw \/ "lpep_dropoff_datetime" ∈ raw)%string in
    match o with
    | Returns cols =>
        pickup /\ dropoff /\ "trip_distance"%string ∈ raw /\
        forall src k,
          In (src, k) [("PULocationID", "pickup_loc"); ("DOLocationID", "dropoff_loc");
                       ("fare_amount", "fare"); ("tip_amount", "tip");
                       ("total_amount", "total_amount");
                       ("congestion_surcharge", "congestion_surcharge")]%string ->
          k ∈ cols <-> src ∈ raw
    | Raises e =>
        (e = KeyError "pickup_time" /\ ~ pickup) \/
        (e = KeyError "dropoff_time" /\ pickup /\ ~ dropoff) \/
        (e = KeyError "trip_distance" /\ pickup /\ dropoff /\ "trip_distance"%string ∉ raw)
    end.
Proof.
  intros Hnd Hstd Hp Hd.
  eexists. split; [apply process_file_columns_tlc; assumption|].
  cbv zeta.
  pose proof (pickup_time_elem raw Hstd) as Hpick.
  pose proof (dropoff_time_elem raw Hstd) as Hdrop.
  pose proof (renamed_elem raw Hstd "trip_distance" "trip_distance") as Hdist.
  case_bool_decide as H1; simpl.
  2:{ left. split; [reflexivity|]. intros Hsrc. apply H1.
      apply keep_cols_elem. split; [simpl; auto|]. apply Hpick, Hsrc. }
  apply keep_cols_elem in H1. destruct H1 as [_ H1]. apply Hpick in H1.
  case_bool_decide as H2; simpl.
  2:{ right. left. split; [reflexivity|]. split; [exact H1|]. intros Hsrc. apply H2.
      apply keep_cols_elem. split; [simpl; auto|]. apply Hdrop, Hsrc. }
  apply keep_cols_elem in H2. destruct H2 as [_ H2]. apply Hdrop in H2.
  case_bool_decide as H3; simpl.
  2:{ right. right. split; [reflexivity|]. split; [exact H1|]. split; [exact H2|].
      intros Hsrc. apply H3.
      apply keep_cols_elem. split; [simpl; auto 10|]. apply Hdist; [simpl; auto 10 | exact Hsrc]. }
  apply keep_cols_elem in H3. destruct H3 as [_ H3]. apply Hdist in H3; [|simpl; auto 10].
  split; [exact H1|]. split; [exact H2|]. split; [exact H3|].
  intros src k Hin.
  rewrite kept_elem.
  - apply (renamed_elem raw Hstd). simpl in Hin |- *. tauto.
  - simpl in Hin. repeat (destruct Hin as [[= <- <-] | Hin]; [simpl; auto 10|]). destruct Hin.
Qed.

Lemma process_file_columns_of_tlc_file_witness :
  let raw := ["VendorID"; "lpep_pickup_datetime"; "lpep_dropoff_datetime";
              "PULocationID"; "trip_distance"; "total_amount"]%string in
  exists o, Scraper.process_file_columns raw = Some o /\
    let pickup := ("tpep_pickup_datetime" ∈ raw \/ "lpep_pickup_datetime" ∈ raw)%string in
    let dropoff := ("tpep_dropoff_datetime" ∈ raw \/ "lpep_dropoff_datetime" ∈ raw)%string in
    match o with
    | Returns cols =>
        pickup /\ dropoff /\ "trip_distance"%string ∈ raw /\
        forall src k,
          In (src, k) [("PULocationID", "pickup_loc"); ("DOLocationID", "dropoff_loc");
                       ("fare_amount", "fare"); ("tip_amount", "tip");
                       ("total_amount", "total_amount");
                       ("congestion_surcharge", "congestion_surcharge")]%string ->
          k ∈ cols <-> src ∈ raw
    | Raises e =>
        (e = KeyError "pickup_time" /\ ~ pickup) \/
        (e = KeyError "dropoff_time" /\ pickup /\ ~ dropoff) \/
        (e = KeyError "trip_distance" /\ pickup /\ dropoff /\ "trip_distance"%string ∉ raw)
    end.
Proof.
  cbv zeta.
  apply (process_file_columns_of_tlc_file
           ["VendorID"; "lpep_pickup_datetime"; "lpep_dropoff_datetime";
            "PULocationID"; "trip_distance"; "total_amount"]%string).
  - apply (bool_decide_unpack _). vm_compute. exact I.
  - intros c Hc. apply (bool_decide_unpack _).
    simpl in Hc. repeat (destruct Hc as [<- | Hc]; [vm_compute; exact I|]). destruct Hc.
  - intros [H _]. revert H. apply (bool_decide_unpack _). vm_compute. exact I.
  - intros [H _]. revert H. apply (bool_decide_unpack _). vm_compute. exact I.
Defined.

(** The file [process_file] writes for a file of the TLC has every
    column [pipeline.py] reads exactly when the raw file has pickup and
    dropoff times, both location ids, trip_distance, fare_amount,
    total_amount and congestion_surcharge; tip_amount is not needed. *)
Theorem process_file_feeds_the_pipeline (raw : list string) :
  NoDup raw ->
  (forall c, In c RENAMED_COLS -> c ∉ raw) ->
  ~ ("tpep_pickup_datetime" ∈ raw /\ "lpep_pickup_datetime" ∈ raw)%string ->
  ~ ("tpep_dropoff_datetime" ∈ raw /\ "lpep_dropoff_datetime" ∈ raw)%string ->
  (exists cols, Scraper.process_file_columns raw = Some (Returns cols) /\
                forall rs, has_columns (mkDF cols rs) pipeline_columns = true)
  <->
  ("tpep_pickup_datetime" ∈ raw \/ "lpep_pickup_datetime" ∈ raw)%string /\
  ("tpep_dropoff_datetime" ∈ raw \/ "lpep_dropoff_datetime" ∈ raw)%string /\
  forall c, In c ["PULocationID"; "DOLocationID"; "trip_distance"; "fare_amount";
                  "total_amount"; "congestion_surcharge"]%string -> c ∈ raw.
Proof.
  intros Hnd Hstd Hp Hd.
  rewrite (process_file_columns_tlc raw Hnd Hstd Hp Hd). cbv zeta.
  pose proof (pickup_time_elem raw Hstd) as Hpick.
  pose proof (dropoff_time_elem raw Hstd) as Hdrop.
  pose proof (renamed_elem raw Hstd) as Hren.
  pose proof (keep_cols_elem (map standard_name raw)) as Hkeep.
  split.
  - intros (cols & Hrun & Hcols).
    case_bool_decide as H1; simpl in Hrun; [|discriminate Hrun].
    case_bool_decide as H2; simpl in Hrun; [|discriminate Hrun].
    case_bool_decide as H3; simpl in Hrun; [|discriminate Hrun].
    injection Hrun as <-.
    specialize (Hcols []). unfold has_columns, has_column in Hcols.
    rewrite forallb_forall in Hcols. cbn [columns] in Hcols.
    assert (Hin : forall k, In k pipeline_columns -> In k Scraper.KEEP_COLS ->
                            k ∈ map standard_name raw).
    { intros k Hk Hkept. apply (kept_elem raw k Hkept).
      pose proof (Hcols k Hk) as Hb. apply bool_decide_eq_true_1 in Hb. exact Hb. }
    apply Hkeep in H1. apply Hkeep in H2.
    split; [apply Hpick, H1|].
    split; [apply Hdrop, H2|].
    intros c Hc. simpl in Hc.
    repeat (destruct Hc as [<- | Hc];
            [eapply Hren; [|apply Hin]; simpl; auto 20|]).
    destruct Hc.
  - intros (Hpu & Hdo & Hall).
    assert (Hin : forall src k,
               In (src, k) [("PULocationID", "pickup_loc"); ("DOLocationID", "dropoff_loc");
                            ("fare_amount", "fare"); ("trip_distance", "trip_distance");
                            ("total_amount", "total_amount");
                            ("congestion_surcharge", "congestion_surcharge")]%string ->
               k ∈ Scraper.keep_cols (map standard_name raw)).
    { intros src k Hk. apply Hkeep. simpl in Hk.
      repeat (destruct Hk as [[= <- <-] | Hk];
              [split; [simpl; auto 20 | eapply Hren; [|apply Hall]; simpl; auto 20]|]).
      destruct Hk. }
    eexists.
    rewrite !bool_decide_eq_true_2.
    + split; [reflexivity|].
      intros rs. unfold has_columns, has_column. apply forallb_forall.
      intros k Hk. apply bool_decide_eq_true_2. cbn [columns].
      apply elem_of_app. simpl in Hk.
      repeat (destruct Hk as [<- | Hk];
              [solve [ right; apply (bool_decide_unpack _); vm_compute; exact I
                     | left; eapply Hin; simpl; eauto 20
                     | left; apply Hkeep; split; [simpl; auto 20 | apply Hpick, Hpu] ]|]).
      destruct Hk.
    + eapply Hin; simpl; eauto 20.
    + apply Hkeep; split; [simpl; auto 20 | apply Hdrop, Hdo].
    + apply Hkeep; split; [simpl; auto 20 | apply Hpick, Hpu].
Qed.

Lemma process_file_feeds_the_pipeline_witness :
  let raw := ["VendorID"; "tpep_pickup_datetime"; "tpep_dropoff_datetime";
              "passenger_count"; "trip_distance"; "PULocationID"; "DOLocationID";
              "fare_amount"; "tip_amount"; "total_amount";
              "congestion_surcharge"]%string in
  (exists cols, Scraper.process_file_columns raw = Some (Returns cols) /\
                forall rs, has_columns (mkDF cols rs) pipeline_columns = true)
  <->
  ("tpep_pickup_datetime" ∈ raw \/ "lpep_pickup_datetime" ∈ raw)%string /\
  ("tpep_dropoff_datetime" ∈ raw \/ "lpep_dropoff_datetime" ∈ raw)%string /\
  forall c, In c ["PULocationID"; "DOLocationID"; "trip_distance"; "fare_amount";
                  "total_amount"; "congestion_surcharge"]%string -> c ∈ raw.
Proof.
  cbv zeta.
  apply (process_file_feeds_the_pipeline
           ["VendorID"; "tpep_pickup_datetime"; "tpep_dropoff_datetime";
            "passenger_count"; "trip_distance"; "PULocationID"; "DOLocationID";
            "fare_amount"; "tip_amount"; "total_amount";
            "congestion_surcharge"]%string).
  - apply (bool_decide_unpack _). vm_compute. exact I.
  - intros c Hc. apply (bool_decide_unpack _).
    simpl in Hc. repeat (destruct Hc as [<- | Hc]; [vm_compute; exact I|]). destruct Hc.
  - intros [_ H]. revert H. apply (bool_decide_unpack _). vm_compute. exact I.
  - intros [_ H]. revert H. apply (bool_decide_unpack _). vm_compute. exact I.
Defined.
